(** * Extraterm: extension context, window bootstrap and configuration sanitation

    A shallow embedding of three TypeScript sources of the Extraterm desktop
    shell and the properties their specification states about them:

    - [ExtensionContext]: the class [ExtensionContextImpl]
      (render process, extension host context);
    - [MainWeb]: the window bootstrap module ([handleExecuteCommand],
      [handleKeyCapture]);
    - [MainConfig]: the configuration sanitation pass
      ([sanitizeField], [sanitizeGeneralConfig], [sanitizeSessionConfig]) on
      configuration objects, and [ConfigCopies]: the same pass on whatever
      value the configuration database holds.

    JavaScript objects that are used as dictionaries are finite maps
    ([gmap string _]); arrays are lists; code with side effects is written in
    a small state-and-exception monad [Eff]. *)

From Stdlib Require Import ZArith QArith Qminmax Lqa.
From stdpp Require Import gmap strings list fin_maps pretty.

Set Warnings "-register-all".
Set Default Proof Using "Type".

(* ===================================================================== *)
(** ** JavaScript values *)
(* ===================================================================== *)

Module Js.

(** Numbers: a finite value, an infinity (what [JSON.parse] gives for a
    literal that overflows) or NaN.  Only comparisons, [Math.min], [Math.max]
    and truthiness are ever applied to them here, all of which are exact. *)
Inductive number :=
| NegInfinity
| Finite (q : Q)
| PosInfinity
| NaN.

Inductive value :=
| VUndefined
| VNull
| VBool (b : bool)
| VNum (n : number)
| VStr (s : string)
| VArray (items : list value)
| VObject (props : gmap string value).

(** The result of the [typeof] operator. *)
Inductive type := TUndefined | TObject | TBoolean | TNumber | TString.

Definition typeof (v : value) : type :=
  match v with
  | VUndefined => TUndefined
  | VNull => TObject
  | VBool _ => TBoolean
  | VNum _ => TNumber
  | VStr _ => TString
  | VArray _ => TObject
  | VObject _ => TObject
  end.

#[global] Instance type_eq_dec : EqDecision type.
Proof. solve_decision. Defined.

(** [v == null]: true of [null] and of [undefined] only. *)
Definition is_nullish (v : value) : bool :=
  match v with
  | VUndefined | VNull => true
  | _ => false
  end.

(** [object[key]]: a property that is absent reads as [undefined]. *)
Definition get (object : gmap string value) (key : string) : value :=
  default VUndefined (object !! key).

(** A thrown value: an [Error] object with its message, or any other
    value ([throw undefined], [Promise.reject()], ...). *)
Inductive exception :=
| Error (message : string)
| Thrown (v : value).

(** [a <= b]; false when either is NaN. *)
Definition number_leb (a b : number) : bool :=
  match a, b with
  | NaN, _ | _, NaN => false
  | NegInfinity, _ => true
  | _, PosInfinity => true
  | Finite x, Finite y => Qle_bool x y
  | _, _ => false
  end.

(** [Math.min] and [Math.max] of two numbers; NaN when either is NaN. *)
Definition Math_min (a b : number) : number :=
  match a, b with
  | NaN, _ | _, NaN => NaN
  | _, _ => if number_leb a b then a else b
  end.

Definition Math_max (a b : number) : number :=
  match a, b with
  | NaN, _ | _, NaN => NaN
  | _, _ => if number_leb a b then b else a
  end.

(** Truthiness of a number: zero and NaN are falsy. *)
Definition number_truthy (a : number) : bool :=
  match a with
  | Finite x => negb (Qeq_bool x 0)
  | NaN => false
  | _ => true
  end.

(** [lo <= a <= hi] for a number of the program. *)
Definition in_range (lo hi : Q) (a : number) : Prop :=
  match a with
  | Finite x => (lo <= x)%Q ∧ (x <= hi)%Q
  | _ => False
  end.

End Js.

(* ===================================================================== *)
(** ** Effects: state, exceptions and suspension *)
(* ===================================================================== *)

(** How the evaluation of a statement list ends: normally with a value, by a
    thrown exception, or suspended at an [await] whose promise never
    settles. *)
Inductive Completion (A : Type) :=
| Normal (a : A)
| Throw (e : Js.exception)
| Suspended.
Arguments Normal {A} a.
Arguments Throw {A} e.
Arguments Suspended {A}.

Definition Eff (S A : Type) : Type := S → Completion A * S.

Definition ret {S A} (a : A) : Eff S A := λ s, (Normal a, s).

Definition bind {S A B} (m : Eff S A) (k : A → Eff S B) : Eff S B :=
  λ s, match m s with
       | (Normal a, s') => k a s'
       | (Throw e, s') => (Throw e, s')
       | (Suspended, s') => (Suspended, s')
       end.

Definition throw {S A} (e : Js.exception) : Eff S A := λ s, (Throw e, s).

Definition gets {S A} (f : S → A) : Eff S A := λ s, (Normal (f s), s).

Definition modify {S} (f : S → S) : Eff S unit := λ s, (Normal tt, f s).

(** [try { body } catch (ex) { handler }] *)
Definition try_catch {S A} (body : Eff S A) (handler : Js.exception → Eff S A) : Eff S A :=
  λ s, match body s with
       | (Throw e, s') => handler e s'
       | r => r
       end.

(** Run a computation on a component of the state. *)
Definition zoom {S T A} (proj : S → T) (inj : T → S → S) (m : Eff T A) : Eff S A :=
  λ s, let '(c, t) := m (proj s) in (c, inj t s).

Declare Scope eff_scope.
Delimit Scope eff_scope with eff.
Notation "x <- m ;; k" := (bind m (λ x, k))
  (at level 20, m at level 99, k at level 200, only parsing) : eff_scope.
Notation "m ;; k" := (bind m (λ _, k))
  (at level 100, k at level 200, right associativity, only parsing) : eff_scope.

(** [ExtensionApi.Disposable]: an object with a [dispose] method, here a
    closure over the state it will undo. *)
Record Disposable (S : Type) := { dispose : Eff S unit }.
Arguments dispose {S} d.

(** What calling a function that may be asynchronous gives back. *)
Inductive Promise :=
| Fulfilled (v : Js.value)
| Rejected (e : Js.exception)
| Pending.

Inductive CallResult :=
| Returns (v : Js.value)
| ReturnsPromise (p : Promise)
| Throws (e : Js.exception).

(** A command handler, [(args: any) => any]. *)
Definition CommandFunction : Type := Js.value → CallResult.

(* ===================================================================== *)
(** ** Arrays *)
(* ===================================================================== *)

Section Arrays.
Context {A : Type}.

(** [Array.prototype.indexOf] starting from index [i]; [same] is strict
    equality [===]. *)
Fixpoint indexOf_from (same : A → A → bool) (l : list A) (x : A) (i : Z) : Z :=
  match l with
  | [] => (-1)%Z
  | y :: l' => if same y x then i else indexOf_from same l' x (i + 1)%Z
  end.

Definition indexOf (same : A → A → bool) (l : list A) (x : A) : Z :=
  indexOf_from same l x 0%Z.

(** The array after [l.splice(start, deleteCount)]: a negative [start]
    counts from the end, and both arguments are clipped to the array. *)
Definition splice (l : list A) (start deleteCount : Z) : list A :=
  let len := Z.of_nat (length l) in
  let actualStart :=
    if (start <? 0)%Z then Z.max (len + start) 0 else Z.min start len in
  let actualDeleteCount := Z.min (Z.max deleteCount 0) (len - actualStart) in
  take (Z.to_nat actualStart) l ++ drop (Z.to_nat (actualStart + actualDeleteCount)) l.

End Arrays.

(* ===================================================================== *)
(** ** ExtensionContextImpl: the extension host context of the render process *)
(* ===================================================================== *)

Module ExtensionContext.
Local Open Scope string_scope.
Local Open Scope list_scope.
Local Open Scope eff_scope.

(** *** Extension metadata *)

(** A command contribution.  JavaScript compares objects by reference:
    [oid] is the identity of the object, the other fields its contents. *)
Record ExtensionCommandContribution := {
  oid : nat;
  command : string;
  title : string;
  category : string;
  order : Z;
  when : string;
  icon : string;
}.

(** [a === b] on two contribution objects. *)
Definition same_contribution (a b : ExtensionCommandContribution) : bool :=
  Nat.eqb (oid a) (oid b).

Record ExtensionTabTitlesWidgetContribution := {
  name : string;
  css : Js.value;
}.

(** [contributes.commands] and [contributes.tabTitleWidgets] are the two
    lists of [ExtensionMetadata.contributes] that the context uses. *)
Record ExtensionMetadata := {
  extensionName : string;
  path : string;
  contributes_commands : list ExtensionCommandContribution;
  contributes_tabTitleWidgets : list ExtensionTabTitlesWidgetContribution;
}.

(** The keys of [ExtensionMenusContribution]. *)
Inductive MenuType := ContextMenu | CommandPalette | EmptyPane | NewTerminal | WindowMenu.

Record CommandMenuEntry := {
  commandContribution : ExtensionCommandContribution;
  contextMenu : bool;
  commandPalette : bool;
  emptyPane : bool;
  newTerminal : bool;
  windowMenu : bool;
}.

(** [entry[menuType]] *)
Definition menu_flag (menuType : MenuType) (entry : CommandMenuEntry) : bool :=
  match menuType with
  | ContextMenu => contextMenu entry
  | CommandPalette => commandPalette entry
  | EmptyPane => emptyPane entry
  | NewTerminal => newTerminal entry
  | WindowMenu => windowMenu entry
  end.

(** [entry[menuType] = on] *)
Definition set_menu_flag (menuType : MenuType) (on : bool) (entry : CommandMenuEntry)
    : CommandMenuEntry :=
  match menuType with
  | ContextMenu =>
      {| commandContribution := commandContribution entry; contextMenu := on;
         commandPalette := commandPalette entry; emptyPane := emptyPane entry;
         newTerminal := newTerminal entry; windowMenu := windowMenu entry |}
  | CommandPalette =>
      {| commandContribution := commandContribution entry; contextMenu := contextMenu entry;
         commandPalette := on; emptyPane := emptyPane entry;
         newTerminal := newTerminal entry; windowMenu := windowMenu entry |}
  | EmptyPane =>
      {| commandContribution := commandContribution entry; contextMenu := contextMenu entry;
         commandPalette := commandPalette entry; emptyPane := on;
         newTerminal := newTerminal entry; windowMenu := windowMenu entry |}
  | NewTerminal =>
      {| commandContribution := commandContribution entry; contextMenu := contextMenu entry;
         commandPalette := commandPalette entry; emptyPane := emptyPane entry;
         newTerminal := on; windowMenu := windowMenu entry |}
  | WindowMenu =>
      {| commandContribution := commandContribution entry; contextMenu := contextMenu entry;
         commandPalette := commandPalette entry; emptyPane := emptyPane entry;
         newTerminal := newTerminal entry; windowMenu := on |}
  end.

(** *** Collaborators *)

Inductive LogLevel := LogDebug | LogInfo | LogWarn | LogSevere.

(** What a logger has written so far, oldest first. *)
Definition Logger : Type := list (LogLevel * string).

(** The registry of one extension's commands.  [_commandToMenuEntryMap] is
    the field that [_setCommandMenu] reads. *)
Record CommandsRegistry := {
  _commandToFunctionMap : gmap string CommandFunction;
  _commandToMenuEntryMap : gmap string (list CommandMenuEntry);
}.

(** Modelled from the spec: the class [ExtensionManagerImpl] is not among
    the sources.  [commandRegistrationChanged] is a fan-out notification
    without payload, after which subscribers query the whole command set
    again; each notification is recorded with the command ids that such a
    query finds in the extension's metadata at that moment. *)
Record ExtensionManager := {
  registrationChanges : list (list string);
}.

(** An opaque handle on a terminal of the engine. *)
Definition EtTerminal : Type := nat.

(** [_proxyFactory.getTerminalProxy(terminal)]: a view on the terminal. *)
Record TerminalProxy := { proxiedTerminal : EtTerminal }.
Definition getTerminalProxy (terminal : EtTerminal) : TerminalProxy :=
  {| proxiedTerminal := terminal |}.

(** The custom element that hosts the user interface of an extension. *)
Record ExtensionContainerElement := {
  elementId : nat;
  tagName : string;
  _extensionContext : string;
  _extensionCss : Js.value;
}.

Definition TAG_NAME : string := "et-extension-container".

Record TabTitleWidgetImpl := {
  _extensionContainerElement : ExtensionContainerElement;
}.

(** [ExtensionApi.TabTitleWidgetFactory]: a function object of the
    extension, known by its identity.  What a call of it does is the
    extension's code, see [ExtensionCode] below. *)
Definition TabTitleWidgetFactory : Type := nat.

(** *** The context *)

Record ExtensionContextImpl := {
  logger : Logger;
  commands : CommandsRegistry;
  _extensionManager : ExtensionManager;
  _extensionMetadata : ExtensionMetadata;
  tabTitleWidgetFactoryMap : gmap string TabTitleWidgetFactory;
}.

Definition set_logger (l : Logger) (this : ExtensionContextImpl) : ExtensionContextImpl :=
  {| logger := l; commands := commands this;
     _extensionManager := _extensionManager this;
     _extensionMetadata := _extensionMetadata this;
     tabTitleWidgetFactoryMap := tabTitleWidgetFactoryMap this |}.

Definition set_commands (r : CommandsRegistry) (this : ExtensionContextImpl)
    : ExtensionContextImpl :=
  {| logger := logger this; commands := r;
     _extensionManager := _extensionManager this;
     _extensionMetadata := _extensionMetadata this;
     tabTitleWidgetFactoryMap := tabTitleWidgetFactoryMap this |}.

Definition set_extensionManager (m : ExtensionManager) (this : ExtensionContextImpl)
    : ExtensionContextImpl :=
  {| logger := logger this; commands := commands this;
     _extensionManager := m;
     _extensionMetadata := _extensionMetadata this;
     tabTitleWidgetFactoryMap := tabTitleWidgetFactoryMap this |}.

Definition set_contributes_commands (l : list ExtensionCommandContribution)
    (this : ExtensionContextImpl) : ExtensionContextImpl :=
  {| logger := logger this; commands := commands this;
     _extensionManager := _extensionManager this;
     _extensionMetadata :=
       {| extensionName := extensionName (_extensionMetadata this);
          path := path (_extensionMetadata this);
          contributes_commands := l;
          contributes_tabTitleWidgets :=
            contributes_tabTitleWidgets (_extensionMetadata this) |};
     tabTitleWidgetFactoryMap := tabTitleWidgetFactoryMap this |}.

Definition set_tabTitleWidgetFactoryMap (m : gmap string TabTitleWidgetFactory)
    (this : ExtensionContextImpl) : ExtensionContextImpl :=
  {| logger := logger this; commands := commands this;
     _extensionManager := _extensionManager this;
     _extensionMetadata := _extensionMetadata this;
     tabTitleWidgetFactoryMap := m |}.

(** [this.logger.warn(msg)] *)
Definition logger_warn (msg : string) : Eff ExtensionContextImpl unit :=
  modify (λ this, set_logger (logger this ++ [(LogWarn, msg)]) this).

(** [this._extensionManager.commandRegistrationChanged()] *)
Definition commandRegistrationChanged : Eff ExtensionContextImpl unit :=
  modify (λ this,
    set_extensionManager
      {| registrationChanges :=
           registrationChanges (_extensionManager this)
           ++ [command <$> contributes_commands (_extensionMetadata this)] |}
      this).

(** [this.commands.getCommandFunction(name)], [None] for [null]. *)
Definition getCommandFunction (registry : CommandsRegistry) (commandName : string)
    : option CommandFunction :=
  _commandToFunctionMap registry !! commandName.

(** *** Methods of the context that are under [src/] *)

Definition BACKEND_MESSAGE : string :=
  "'ExtensionContext.backend' is not available from a render process.".

(** [get backend(): never] *)
Definition backend : Eff ExtensionContextImpl Empty_set :=
  logger_warn BACKEND_MESSAGE ;;
  throw (Js.Error BACKEND_MESSAGE).

(** [_setCommandMenu(command, menuType, on)] *)
Definition _setCommandMenu (commandName : string) (menuType : MenuType) (on : bool)
    : Eff ExtensionContextImpl unit :=
  entryList <- gets (λ this, _commandToMenuEntryMap (commands this) !! commandName) ;;
  match entryList with
  | None => ret tt
  | Some entryList =>
      modify (λ this,
        set_commands
          {| _commandToFunctionMap := _commandToFunctionMap (commands this);
             _commandToMenuEntryMap :=
               <[commandName := set_menu_flag menuType on <$> entryList]>
                 (_commandToMenuEntryMap (commands this)) |}
          this)
  end.

Definition unknown_widget_message (widgetName : string) : string :=
  "Unknown tab title widget '" +:+ widgetName +:+ "' given to registerTabTitleWidget().".

(** The loop of [_registerTabTitleWidget] over the rest of the metadata
    list; leaving the loop is reaching the warning. *)
Fixpoint _registerTabTitleWidget_loop (widgetName : string) (factory : TabTitleWidgetFactory)
    (tabTitleWidgetMeta : list ExtensionTabTitlesWidgetContribution)
    : Eff ExtensionContextImpl unit :=
  match tabTitleWidgetMeta with
  | [] => logger_warn (unknown_widget_message widgetName)
  | data :: rest =>
      if String.eqb (name data) widgetName then
        modify (λ this,
          set_tabTitleWidgetFactoryMap
            (<[widgetName := factory]> (tabTitleWidgetFactoryMap this)) this)
      else _registerTabTitleWidget_loop widgetName factory rest
  end.

(** [_registerTabTitleWidget(name, factory)] *)
Definition _registerTabTitleWidget (widgetName : string) (factory : TabTitleWidgetFactory)
    : Eff ExtensionContextImpl unit :=
  tabTitleWidgetMeta <- gets (λ this, contributes_tabTitleWidgets (_extensionMetadata this)) ;;
  _registerTabTitleWidget_loop widgetName factory tabTitleWidgetMeta.

(** The part of the render process that [_createTabTitleWidgets] acts on:
    the document, which hands out a new element at each [createElement],
    and the calls made into extension code. *)
Record FactoryCall := {
  call_widget : string;
  call_terminal : TerminalProxy;
  call_container : nat;
}.

Record RenderProcess := {
  nextElementId : nat;
  factoryCalls : list FactoryCall;
}.

(** One run of extension code: it returns a value or throws, it may have
    created elements of the document meanwhile, and it may have called back
    into the context, which it leaves as [context_after]. *)
Record FactoryRun := {
  completion : Js.value + Js.exception;
  created : nat;
  context_after : ExtensionContextImpl;
}.

(** The code of the extension: what the call
    [factory(terminalProxy, tabTitleWidget)] does when the context is as
    given.  The source calls it without looking at what comes back and
    without catching what it throws; what it is, is the extension's
    business. *)
Definition ExtensionCode : Type :=
  TabTitleWidgetFactory → TerminalProxy → TabTitleWidgetImpl → ExtensionContextImpl
  → FactoryRun.

(** What [_createTabTitleWidgets] runs on: the context and the render
    process. *)
Record Host := {
  hostContext : ExtensionContextImpl;
  renderProcess : RenderProcess;
}.

(** [document.createElement(ExtensionContainerElement.TAG_NAME)] followed by
    [_setExtensionContext(this)] and [_setExtensionCss(contrib.css)]. *)
Definition createExtensionContainer (contribCss : Js.value)
    : Eff Host ExtensionContainerElement :=
  λ host,
    (Normal {| elementId := nextElementId (renderProcess host); tagName := TAG_NAME;
               _extensionContext := extensionName (_extensionMetadata (hostContext host));
               _extensionCss := contribCss |},
     {| hostContext := hostContext host;
        renderProcess :=
          {| nextElementId := S (nextElementId (renderProcess host));
             factoryCalls := factoryCalls (renderProcess host) |} |}).

(** [factory(terminalProxy, tabTitleWidget)]: the call is recorded and the
    extension's code runs; when it throws, so does the call. *)
Definition call_factory (code : ExtensionCode) (widgetName : string)
    (factory : TabTitleWidgetFactory) (proxy : TerminalProxy) (widget : TabTitleWidgetImpl)
    : Eff Host Js.value :=
  λ host,
    let run := code factory proxy widget (hostContext host) in
    let host' :=
      {| hostContext := context_after run;
         renderProcess :=
           {| nextElementId := nextElementId (renderProcess host) + created run;
              factoryCalls := factoryCalls (renderProcess host)
                ++ [{| call_widget := widgetName; call_terminal := proxy;
                       call_container := elementId (_extensionContainerElement widget) |}] |} |} in
    match completion run with
    | inl v => (Normal v, host')
    | inr ex => (Throw ex, host')
    end.

(** The loop of [_createTabTitleWidgets]: [for (const contrib of
    tabTitleWidgetsContrib)] walks the array by index and looks at its length
    anew at each step, so it sees what extension code does to the array
    meanwhile; [index] is the position reached and [result] the array built
    so far.  [fuel] bounds the number of steps, [None] is a loop that has not
    ended within it. *)
Fixpoint _createTabTitleWidgets_loop (code : ExtensionCode) (fuel : nat)
    (terminal : EtTerminal) (index : nat) (result : list ExtensionContainerElement)
    (host : Host) : option (Completion (list ExtensionContainerElement) * Host) :=
  match fuel with
  | 0 => None
  | S fuel =>
      match contributes_tabTitleWidgets (_extensionMetadata (hostContext host)) !! index with
      | None => Some (Normal result, host)
      | Some contrib =>
          match tabTitleWidgetFactoryMap (hostContext host) !! name contrib with
          | Some factory =>
              match createExtensionContainer (css contrib) host with
              | (Normal extensionContainerElement, host1) =>
                  let tabTitleWidget :=
                    {| _extensionContainerElement := extensionContainerElement |} in
                  match call_factory code (name contrib) factory
                          (getTerminalProxy terminal) tabTitleWidget host1 with
                  | (Normal factoryResult, host2) =>
                      _createTabTitleWidgets_loop code fuel terminal (S index)
                        (result ++ [extensionContainerElement]) host2
                  | (Throw ex, host2) => Some (Throw ex, host2)
                  | (Suspended, host2) => Some (Suspended, host2)
                  end
              | (Throw ex, host1) => Some (Throw ex, host1)
              | (Suspended, host1) => Some (Suspended, host1)
              end
          | None => _createTabTitleWidgets_loop code fuel terminal (S index) result host
          end
      end
  end.

(** [_createTabTitleWidgets(terminal)] *)
Definition _createTabTitleWidgets (code : ExtensionCode) (fuel : nat) (terminal : EtTerminal)
    (host : Host) : option (Completion (list ExtensionContainerElement) * Host) :=
  _createTabTitleWidgets_loop code fuel terminal 0 [] host.

(** [this._extensionMetadata.contributes.commands.push(contribution)] *)
Definition push_contribution (contribution : ExtensionCommandContribution)
    : Eff ExtensionContextImpl unit :=
  modify (λ this,
    set_contributes_commands
      (contributes_commands (_extensionMetadata this) ++ [contribution]) this).

(** The last two statements of the disposer:
    [index = commands.indexOf(contribution); commands.splice(index, 1)]. *)
Definition splice_contribution (contribution : ExtensionCommandContribution)
    : Eff ExtensionContextImpl unit :=
  index <- gets (λ this,
    indexOf same_contribution (contributes_commands (_extensionMetadata this)) contribution) ;;
  modify (λ this,
    set_contributes_commands
      (splice (contributes_commands (_extensionMetadata this)) index 1) this).

(** A method of [this.commands] run from the context. *)
Definition on_commands {A} (m : Eff CommandsRegistry A) : Eff ExtensionContextImpl A :=
  zoom commands set_commands m.

Section Registry.

(** Modelled from the spec: the class [CommandsRegistry] is not among the
    sources.  The spec has it map command identifiers to handler functions
    and to a list of menu entries; registering a contribution creates the
    registration of its command id (after it [getCommandFunction] of the
    id is not null) and disposing of the registration removes the id from
    the registry's maps.  Which function the registry installs for a
    contribution is left open: it is [commandFunctionOf]. *)
Variable commandFunctionOf : ExtensionCommandContribution → CommandFunction.

Definition registerCommandContribution (contribution : ExtensionCommandContribution)
    : Eff CommandsRegistry (Disposable CommandsRegistry) :=
  modify (λ registry,
    {| _commandToFunctionMap :=
         <[command contribution := commandFunctionOf contribution]>
           (_commandToFunctionMap registry);
       _commandToMenuEntryMap :=
         <[command contribution :=
             [{| commandContribution := contribution; contextMenu := false;
                 commandPalette := false; emptyPane := false;
                 newTerminal := false; windowMenu := false |}]]>
           (_commandToMenuEntryMap registry) |}) ;;
  ret {| dispose :=
           modify (λ registry,
             {| _commandToFunctionMap :=
                  delete (command contribution) (_commandToFunctionMap registry);
                _commandToMenuEntryMap :=
                  delete (command contribution) (_commandToMenuEntryMap registry) |}) |}.

(** [_registerCommandContribution(contribution)] *)
Definition _registerCommandContribution (contribution : ExtensionCommandContribution)
    : Eff ExtensionContextImpl (Disposable ExtensionContextImpl) :=
  push_contribution contribution ;;
  commandDisposable <- on_commands (registerCommandContribution contribution) ;;
  commandRegistrationChanged ;;
  ret {| dispose :=
           commandRegistrationChanged ;;
           on_commands (dispose commandDisposable) ;;
           splice_contribution contribution |}.

End Registry.

End ExtensionContext.

(* ===================================================================== *)
(** ** The window bootstrap module: IPC command requests and key capture *)
(* ===================================================================== *)

Module MainWeb.
Local Open Scope string_scope.
Local Open Scope list_scope.
Local Open Scope eff_scope.

(** [Messages.ExecuteCommandMessage] *)
Record ExecuteCommandMessage := {
  uuid : string;
  commandName : string;
  args : Js.value;
}.

(** What a variable of type [any] holds after a call: a plain value, or the
    promise object that the call returned. *)
Inductive AnyValue :=
| Plain (v : Js.value)
| PromiseObject (p : Promise).

(** The arguments of one call of [WebIpc.commandResponse(uuid, result,
    exception)]; [None] is an [exception] that is still [null], [Some ex]
    one that holds the value [ex] that was caught, whatever it is. *)
Record CommandResponse := {
  response_uuid : string;
  response_result : AnyValue;
  response_exception : option Js.exception;
}.

Record KeyboardEvent := {
  key : string;
  altKey : bool;
  ctrlKey : bool;
  shiftKey : bool;
  metaKey : bool;
}.

(** [CommandQueryOptions]; [None] is a field that is [null]. *)
Record CommandQueryOptions := {
  commands : option (list string);
  categories : option (list string);
  when : bool;
}.

(** The interface [ExtensionManager] as far as this module calls it, over the
    state [M] of whatever implements it. *)
Class ExtensionManager (M : Type) := {
  executeCommand : string → Js.value → M → CallResult * M;
  updateExtensionWindowStateFromEvent : KeyboardEvent → M → M;
  isInputFieldFocus : M → bool;
  queryCommands : CommandQueryOptions → M → list ExtensionContext.ExtensionCommandContribution;
}.

(** [TermKeybindingsMapping.mapEventToCommands(ev)] *)
Definition TermKeybindingsMapping : Type := KeyboardEvent → list string.

(** [class KeybindingsManagerImpl]: the mapping is [null] until
    [setKeybindingsMapping] is called. *)
Record KeybindingsManagerImpl := {
  keybindingsMapping : option TermKeybindingsMapping;
  enabled : bool;
}.

Definition getKeybindingsMapping (this : KeybindingsManagerImpl) : option TermKeybindingsMapping :=
  keybindingsMapping this.

(** The state that the two handlers act on: the extension manager, the
    messages sent over IPC, the module's logger [_log], the calls of
    [executeCommand] made so far, and the two flags of the event that is
    being handled. *)
Record Window (M : Type) := {
  extensionManager : M;
  sent : list CommandResponse;
  _log : ExtensionContext.Logger;
  executed : list (string * Js.value);
  propagationStopped : bool;
  defaultPrevented : bool;
  (* the local variables of [handleExecuteCommand] *)
  result : AnyValue;
  exception : option Js.exception;
}.
Arguments extensionManager {M} w.
Arguments sent {M} w.
Arguments _log {M} w.
Arguments executed {M} w.
Arguments propagationStopped {M} w.
Arguments defaultPrevented {M} w.
Arguments result {M} w.
Arguments exception {M} w.

Section Handlers.
Context {M : Type} `{ExtensionManager M}.

Definition set_extensionManager (m : M) (w : Window M) : Window M :=
  {| extensionManager := m; sent := sent w; _log := _log w; executed := executed w;
     propagationStopped := propagationStopped w; defaultPrevented := defaultPrevented w;
     result := result w; exception := exception w |}.

Definition set_result (r : AnyValue) (w : Window M) : Window M :=
  {| extensionManager := extensionManager w; sent := sent w; _log := _log w;
     executed := executed w;
     propagationStopped := propagationStopped w; defaultPrevented := defaultPrevented w;
     result := r; exception := exception w |}.

Definition set_exception (e : option Js.exception) (w : Window M) : Window M :=
  {| extensionManager := extensionManager w; sent := sent w; _log := _log w;
     executed := executed w;
     propagationStopped := propagationStopped w; defaultPrevented := defaultPrevented w;
     result := result w; exception := e |}.

(** [extensionManager.executeCommand(name, args)]: the call is noted, the
    manager moves on, and a handler that throws makes the call throw. *)
Definition call_executeCommand (commandName : string) (args : Js.value)
    : Eff (Window M) AnyValue :=
  λ w,
    let '(r, m) := executeCommand commandName args (extensionManager w) in
    let w' :=
      {| extensionManager := m; sent := sent w; _log := _log w;
         executed := executed w ++ [(commandName, args)];
         propagationStopped := propagationStopped w; defaultPrevented := defaultPrevented w;
         result := result w; exception := exception w |} in
    match r with
    | Returns v => (Normal (Plain v), w')
    | ReturnsPromise p => (Normal (PromiseObject p), w')
    | Throws e => (Throw e, w')
    end.

(** [await later()]: the handler goes on in a later turn of the event loop. *)
Definition later : Eff (Window M) unit := ret tt.

(** [await p] *)
Definition await (p : Promise) : Eff (Window M) Js.value :=
  match p with
  | Fulfilled v => ret v
  | Rejected e => throw e
  | Pending => λ w, (Suspended, w)
  end.

(** [WebIpc.commandResponse(uuid, result, exception)] *)
Definition commandResponse (uuid : string) (result : AnyValue) (exception : option Js.exception)
    : Eff (Window M) unit :=
  modify (λ w,
    {| extensionManager := extensionManager w;
       sent := sent w ++ [{| response_uuid := uuid; response_result := result;
                             response_exception := exception |}];
       _log := _log w; executed := executed w;
       propagationStopped := propagationStopped w; defaultPrevented := defaultPrevented w;
       result := MainWeb.result w; exception := MainWeb.exception w |}).

(** [async function handleExecuteCommand(extensionManager, msg)] *)
Definition handleExecuteCommand (msg : ExecuteCommandMessage) : Eff (Window M) unit :=
  later ;;
  modify (set_exception None) ;;
  modify (set_result (Plain Js.VNull)) ;;
  try_catch
    (r <- call_executeCommand (commandName msg) (args msg) ;;
     modify (set_result r) ;;
     match r with
     | PromiseObject p =>
         v <- await p ;;
         modify (set_result (Plain v))
     | Plain _ => ret tt
     end)
    (λ ex, modify (set_exception (Some ex))) ;;
  result <- gets result ;;
  exception <- gets exception ;;
  commandResponse (uuid msg) result exception.

(** [Array.prototype.join] on strings. *)
Fixpoint join (separator : string) (l : list string) : string :=
  match l with
  | [] => ""
  | [x] => x
  | x :: rest => x +:+ separator +:+ join separator rest
  end.

Definition conflict_message (filteredCommands : list ExtensionContext.ExtensionCommandContribution)
    : string :=
  "Commands " +:+ join ", " (ExtensionContext.command <$> filteredCommands)
    +:+ " have conflicting keybindings.".

Definition _log_warn (msg : string) : Eff (Window M) unit :=
  modify (λ w,
    {| extensionManager := extensionManager w; sent := sent w;
       _log := _log w ++ [(ExtensionContext.LogWarn, msg)]; executed := executed w;
       propagationStopped := propagationStopped w; defaultPrevented := defaultPrevented w;
       result := result w; exception := exception w |}).

Definition stopPropagation : Eff (Window M) unit :=
  modify (λ w,
    {| extensionManager := extensionManager w; sent := sent w; _log := _log w;
       executed := executed w;
       propagationStopped := true; defaultPrevented := defaultPrevented w;
       result := result w; exception := exception w |}).

Definition preventDefault : Eff (Window M) unit :=
  modify (λ w,
    {| extensionManager := extensionManager w; sent := sent w; _log := _log w;
       executed := executed w;
       propagationStopped := propagationStopped w; defaultPrevented := true;
       result := result w; exception := exception w |}).

Definition TYPE_ERROR_NULL : Js.exception :=
  Js.Error "TypeError: Cannot read properties of null".

Definition TYPE_ERROR_UNDEFINED : Js.exception :=
  Js.Error "TypeError: Cannot read properties of undefined".

(** [function handleKeyCapture(extensionManager, keybindingsManager, ev)] *)
Definition handleKeyCapture (keybindingsManager : KeybindingsManagerImpl) (ev : KeyboardEvent)
    : Eff (Window M) unit :=
  commands <- match getKeybindingsMapping keybindingsManager with
              | Some mapping => ret (mapping ev)
              | None => throw TYPE_ERROR_NULL
              end ;;
  modify (λ w, set_extensionManager
                 (updateExtensionWindowStateFromEvent ev (extensionManager w)) w) ;;
  inputFieldFocus <- gets (λ w, isInputFieldFocus (extensionManager w)) ;;
  let categories := if inputFieldFocus then Some ["application"; "window"] else None in
  filteredCommands <- gets (λ w,
    queryCommands {| commands := Some commands; categories := categories; when := true |}
      (extensionManager w)) ;;
  if negb (length filteredCommands =? 0)%nat then
    (if negb (length filteredCommands =? 1)%nat
     then _log_warn (conflict_message filteredCommands)
     else ret tt) ;;
    match filteredCommands !! 0%nat with
    | Some first =>
        call_executeCommand (ExtensionContext.command first) Js.VUndefined ;;
        stopPropagation ;;
        preventDefault
    | None => throw TYPE_ERROR_UNDEFINED
    end
  else ret tt.

(** [handleKeyDownCapture] and [handleKeyPressCapture] *)
Definition handleKeyDownCapture := handleKeyCapture.
Definition handleKeyPressCapture := handleKeyCapture.

End Handlers.

End MainWeb.

(* ===================================================================== *)
(** ** The configuration sanitation pass *)
(* ===================================================================== *)

Module MainConfig.
Local Open Scope string_scope.
Local Open Scope list_scope.
Local Open Scope eff_scope.

Definition DEFAULT_TERMINALFONT : string := "LigaDejaVuSansMono".
Definition KEYBINDINGS_OSX : string := "macos-style".
Definition KEYBINDINGS_PC : string := "pc-style".

Definition frameRules : list string := ["always_frame"; "frame_if_lines"; "never_frame"].

Record FontInfo := {
  postscriptName : string;
  fontPath : string;
}.

Inductive ThemeType := ThemeTerminal | ThemeSyntax | ThemeGui.

#[global] Instance ThemeType_eq_dec : EqDecision ThemeType.
Proof. solve_decision. Defined.

Record ThemeInfo := {
  themeId : string;
  themeType : ThemeType;
}.

(** [isThemeType(themeInfo, themeType)]; [None] is [null]. *)
Definition isThemeType (themeInfo : option ThemeInfo) (type : ThemeType) : bool :=
  match themeInfo with
  | None => false
  | Some themeInfo => bool_decide (themeType themeInfo = type)
  end.

(** A number literal of the program. *)
Definition num (z : Z) : Js.value := Js.VNum (Js.Finite (inject_Z z)).

(** [object[key] = v] *)
Definition set_field (object : gmap string Js.value) (key : string) (v : Js.value)
    : gmap string Js.value :=
  <[key := v]> object.

(** [function sanitizeField(object, key, defaultValue)] *)
Definition sanitizeField (object : gmap string Js.value) (key : string) (defaultValue : Js.value)
    : gmap string Js.value :=
  if Js.is_nullish (Js.get object key)
     || negb (bool_decide (Js.typeof (Js.get object key) = Js.typeof defaultValue))
  then set_field object key defaultValue
  else object.

(** [availableValues.includes(v)] for an array of strings: only a string can
    be one of its elements. *)
Definition includes (availableValues : list string) (v : Js.value) : bool :=
  match v with
  | Js.VStr s => bool_decide (s ∈ availableValues)
  | _ => false
  end.

(** [function sanitizeStringEnumField(object, key, availableValues,
    defaultValue)] *)
Definition sanitizeStringEnumField (object : gmap string Js.value) (key : string)
    (availableValues : list string) (defaultValue : Js.value) : gmap string Js.value :=
  if Js.is_nullish (Js.get object key) then set_field object key defaultValue
  else if negb (includes availableValues (Js.get object key))
  then set_field object key defaultValue
  else object.

(** The statement [if ( ! accepted(object[key])) { object[key] = fallback; }]
    that follows several calls of [sanitizeField]. *)
Definition reset_unless (accepted : Js.value → bool) (object : gmap string Js.value)
    (key : string) (fallback : Js.value) : gmap string Js.value :=
  if negb (accepted (Js.get object key)) then set_field object key fallback else object.

(** The statement [object[key] = f(object[key])] on a field that holds a
    number.  Every use follows a [sanitizeField] with a number as default, so
    the field does hold one ([sanitizeField_number]); on any other value the
    object is left as it is. *)
Definition update_number (f : Js.number → Js.number) (object : gmap string Js.value)
    (key : string) : gmap string Js.value :=
  match Js.get object key with
  | Js.VNum n => set_field object key (Js.VNum (f n))
  | _ => object
  end.

Definition n4 : Js.number := Js.Finite 4.
Definition n5 : Js.number := Js.Finite 5.
Definition n0 : Js.number := Js.Finite 0.
Definition n100 : Js.number := Js.Finite 100.
Definition n500 : Js.number := Js.Finite 500.
Definition n1024 : Js.number := Js.Finite 1024.

(** [Math.max(Math.min(1024, x), 4)] *)
Definition clamp_terminalFontSize (x : Js.number) : Js.number :=
  Js.Math_max (Js.Math_min n1024 x) n4.

(** [Math.min(500, Math.max(5, x || 100))] *)
Definition clamp_uiScalePercent (x : Js.number) : Js.number :=
  Js.Math_min n500 (Js.Math_max n5 (if Js.number_truthy x then x else n100)).

(** [Math.max(Math.min(100, x), 0)] *)
Definition clamp_windowBackgroundTransparencyPercent (x : Js.number) : Js.number :=
  Js.Math_max (Js.Math_min n100 x) n0.

(** Is [v] the string [s]?  ([s === v]) *)
Definition is_string (s : string) (v : Js.value) : bool :=
  match v with
  | Js.VStr s' => bool_decide (s = s')
  | _ => false
  end.

Section GeneralConfig.

(** What the sanitation reads from its surroundings: [process.platform], the
    table [AllLogicalKeybindingsNames] and the two fallback theme names (their
    declarations are in modules that are not among the sources), and the
    theme manager's [getTheme]. *)
Variable platform : string.
Variable AllLogicalKeybindingsNames : list string.
Variable FALLBACK_TERMINAL_THEME : string.
Variable FALLBACK_SYNTAX_THEME : string.
Variable getTheme : string → option ThemeInfo.

(** [themeManager.getTheme(v)] on a field of the configuration. *)
Definition theme_of (v : Js.value) : option ThemeInfo :=
  match v with
  | Js.VStr s => getTheme s
  | _ => None
  end.

Definition default_keybindingsName : string :=
  if bool_decide (platform = "darwin") then KEYBINDINGS_OSX else KEYBINDINGS_PC.

(** [function sanitizeGeneralConfig(configDatabase, themeManager,
    availableFonts)]: from what [getGeneralConfigCopy()] returns ([None] for
    [null] or [undefined]) to what is passed to [setGeneralConfig]. *)
Definition sanitizeGeneralConfig (stored : option (gmap string Js.value))
    (availableFonts : list FontInfo) : gmap string Js.value :=
  let generalConfig := default ∅ stored in
  let configCursorStyles := ["block"; "underscore"; "beam"] in

  let generalConfig := sanitizeField generalConfig "autoCopySelectionToClipboard" (Js.VBool true) in
  let generalConfig := sanitizeField generalConfig "blinkingCursor" (Js.VBool false) in

  let generalConfig := sanitizeStringEnumField generalConfig "cursorStyle" configCursorStyles (Js.VStr "block") in
  let generalConfig := sanitizeField generalConfig "frameByDefault" (Js.VBool true) in
  let generalConfig := sanitizeStringEnumField generalConfig "frameRule" frameRules (Js.VStr "frame_if_lines") in
  let generalConfig := sanitizeField generalConfig "frameRuleLines" (num 10) in
  let generalConfig := sanitizeStringEnumField generalConfig "gpuDriverWorkaround" ["none"; "no_blend"] (Js.VStr "none") in

  let generalConfig := sanitizeField generalConfig "isHardwareAccelerated" (Js.VBool true) in
  let generalConfig := set_field generalConfig "isHardwareAccelerated" (Js.VBool true) in

  let generalConfig := sanitizeField generalConfig "keybindingsName" (Js.VStr default_keybindingsName) in
  let generalConfig := reset_unless (includes AllLogicalKeybindingsNames) generalConfig
                         "keybindingsName" (Js.VStr default_keybindingsName) in

  let generalConfig := sanitizeField generalConfig "minimizeToTray" (Js.VBool false) in
  let generalConfig := sanitizeField generalConfig "scrollbackMaxFrames" (num 100) in
  let generalConfig := sanitizeField generalConfig "scrollbackMaxLines" (num 500000) in

  let generalConfig := sanitizeStringEnumField generalConfig "showTips" ["always"; "daily"; "never"] (Js.VStr "always") in
  let generalConfig := sanitizeField generalConfig "showTrayIcon" (Js.VBool false) in

  let generalConfig := sanitizeField generalConfig "terminalFont" (Js.VStr DEFAULT_TERMINALFONT) in
  let generalConfig := reset_unless
                         (λ terminalFont,
                            existsb (λ font, is_string (postscriptName font) terminalFont)
                              availableFonts)
                         generalConfig "terminalFont" (Js.VStr DEFAULT_TERMINALFONT) in

  let generalConfig := sanitizeField generalConfig "terminalFontSize" (num 13) in
  let generalConfig := update_number clamp_terminalFontSize generalConfig "terminalFontSize" in

  let generalConfig := sanitizeField generalConfig "terminalDisplayLigatures" (Js.VBool true) in

  let marginStyles := ["normal"; "none"; "thick"; "thin"] in
  let generalConfig := sanitizeStringEnumField generalConfig "terminalMarginStyle" marginStyles (Js.VStr "normal") in

  let generalConfig := sanitizeField generalConfig "tipCounter" (num 0) in
  let generalConfig := sanitizeField generalConfig "tipTimestamp" (num 0) in

  let titleBarStyles := ["compact"; "native"; "theme"] in
  let generalConfig := sanitizeStringEnumField generalConfig "titleBarStyle" titleBarStyles (Js.VStr "compact") in

  let generalConfig := sanitizeField generalConfig "uiScalePercent" (num 100) in
  let generalConfig := update_number clamp_uiScalePercent generalConfig "uiScalePercent" in

  let windowBackgroundModes := ["opaque"; "blur"] in
  let generalConfig := sanitizeStringEnumField generalConfig "windowBackgroundMode" windowBackgroundModes (Js.VStr "opaque") in

  let generalConfig := sanitizeField generalConfig "windowBackgroundTransparencyPercent" (num 50) in
  let generalConfig := update_number clamp_windowBackgroundTransparencyPercent generalConfig
                         "windowBackgroundTransparencyPercent" in

  let generalConfig := sanitizeField generalConfig "closeWindowWhenEmpty" (Js.VBool true) in

  let generalConfig := sanitizeField generalConfig "middleMouseButtonAction" (Js.VStr "paste") in
  let generalConfig := sanitizeField generalConfig "middleMouseButtonShiftAction" (Js.VStr "paste") in
  let generalConfig := sanitizeField generalConfig "middleMouseButtonControlAction" (Js.VStr "paste") in
  let generalConfig := sanitizeField generalConfig "rightMouseButtonAction" (Js.VStr "context_menu") in
  let generalConfig := sanitizeField generalConfig "rightMouseButtonShiftAction" (Js.VStr "context_menu") in
  let generalConfig := sanitizeField generalConfig "rightMouseButtonControlAction" (Js.VStr "context_menu") in

  let generalConfig := sanitizeField generalConfig "activeExtensions" (Js.VObject ∅) in

  let generalConfig := sanitizeField generalConfig "themeTerminal" (Js.VStr FALLBACK_TERMINAL_THEME) in
  let generalConfig := reset_unless (λ v, isThemeType (theme_of v) ThemeTerminal)
                         generalConfig "themeTerminal" (Js.VStr FALLBACK_TERMINAL_THEME) in
  let generalConfig := sanitizeField generalConfig "themeSyntax" (Js.VStr FALLBACK_SYNTAX_THEME) in
  let generalConfig := reset_unless (λ v, isThemeType (theme_of v) ThemeSyntax)
                         generalConfig "themeSyntax" (Js.VStr FALLBACK_SYNTAX_THEME) in

  let generalConfig := sanitizeField generalConfig "themeGUI" (Js.VStr "two-dark-ui") in
  let generalConfig := reset_unless
                         (λ v, negb (is_string "default" v) && isThemeType (theme_of v) ThemeGui)
                         generalConfig "themeGUI" (Js.VStr "two-dark-ui") in

  generalConfig.

End GeneralConfig.

(** [createUuid()]: the generator hands out [uuid_of 0], [uuid_of 1], ... *)
Record UuidSource := {
  uuid_of : nat → string;
  uuid_next : nat;
}.

Definition createUuid : Eff UuidSource string :=
  λ g, (Normal (uuid_of g (uuid_next g)),
        {| uuid_of := uuid_of g; uuid_next := S (uuid_next g) |}).

(** What [getSessionConfigCopy()] returns, in the case that the elements of
    an array are objects: an array of session configuration objects, or
    something that is [null], [undefined] or not an array.  (An array with
    an element that is not an object is not among these; the sanitation of
    any stored value whatever is in [ConfigCopies].) *)
Inductive StoredSessionConfig :=
| NotAnArray
| SessionArray (sessionConfigs : list (gmap string Js.value)).

(** The body of the loop of [sanitizeSessionConfig]. *)
Definition sanitizeSessionConfiguration (sessionConfiguration : gmap string Js.value)
    : Eff UuidSource (gmap string Js.value) :=
  let sessionConfiguration := sanitizeField sessionConfiguration "name" (Js.VStr "") in
  uuid <- createUuid ;;
  let sessionConfiguration := sanitizeField sessionConfiguration "uuid" (Js.VStr uuid) in
  let sessionConfiguration :=
    if negb (bool_decide (Js.typeof (Js.get sessionConfiguration "type") = Js.TString))
    then set_field sessionConfiguration "type" (Js.VStr "")
    else sessionConfiguration in
  let sessionConfiguration :=
    if Js.is_nullish (Js.get sessionConfiguration "initialDirectory")
       || negb (bool_decide (Js.typeof (Js.get sessionConfiguration "initialDirectory") = Js.TString))
    then set_field sessionConfiguration "initialDirectory" Js.VNull
    else sessionConfiguration in
  ret (sanitizeField sessionConfiguration "args" (Js.VStr "")).

Fixpoint sanitizeSessionConfig_loop (sessionConfigs : list (gmap string Js.value))
    : Eff UuidSource (list (gmap string Js.value)) :=
  match sessionConfigs with
  | [] => ret []
  | sessionConfiguration :: rest =>
      sanitized <- sanitizeSessionConfiguration sessionConfiguration ;;
      rest' <- sanitizeSessionConfig_loop rest ;;
      ret (sanitized :: rest')
  end.

(** [function sanitizeSessionConfig(configDatabase)]: from what
    [getSessionConfigCopy()] returns to what is passed to
    [setSessionConfig]. *)
Definition sanitizeSessionConfig (stored : StoredSessionConfig)
    : Eff UuidSource (list (gmap string Js.value)) :=
  let sessionConfigs :=
    match stored with
    | NotAnArray => []
    | SessionArray sessionConfigs => sessionConfigs
    end in
  sanitizeSessionConfig_loop sessionConfigs.

End MainConfig.

(* ===================================================================== *)
(** ** Vocabulary of the statements about the extension context *)
(* ===================================================================== *)

Module ContextStatements.
Import ExtensionContext.
Local Open Scope string_scope.
Local Open Scope list_scope.

(** The tab title widget contributions of the metadata for whose name a
    factory is registered, in the order of the metadata. *)
Definition registered_widgets (this : ExtensionContextImpl)
    : list ExtensionTabTitlesWidgetContribution :=
  filter (λ contrib, is_Some (tabTitleWidgetFactoryMap this !! name contrib))
    (contributes_tabTitleWidgets (_extensionMetadata this)).

(** The two contexts have the same tab title widget contributions and the
    same factories. *)
Definition same_widgets (a b : ExtensionContextImpl) : Prop :=
  contributes_tabTitleWidgets (_extensionMetadata a)
  = contributes_tabTitleWidgets (_extensionMetadata b)
  ∧ tabTitleWidgetFactoryMap a = tabTitleWidgetFactoryMap b.

(** The factories of [this] behave: a call of a factory that is registered
    for a contribution of the metadata returns, and after it the tab title
    widget contributions and the factories are as they were (the call has
    registered no factory and has not changed the list).  The context in
    which the factory is called is [this] or one with the same widgets. *)
Definition factories_return (code : ExtensionCode) (this : ExtensionContextImpl) : Prop :=
  ∀ during contrib factory proxy widget,
    same_widgets during this →
    contrib ∈ contributes_tabTitleWidgets (_extensionMetadata this) →
    tabTitleWidgetFactoryMap this !! name contrib = Some factory →
    ∃ v, completion (code factory proxy widget during) = inl v
         ∧ same_widgets (context_after (code factory proxy widget during)) this.

(** [_createTabTitleWidgets] returns a list with exactly one container for
    each contribution of the metadata whose name has a registered factory,
    in the order of the metadata. *)
Definition one_container_per_registered_widget (code : ExtensionCode)
    (this : ExtensionContextImpl) (terminal : EtTerminal) (rp : RenderProcess) : Prop :=
  ∃ fuel result host',
    _createTabTitleWidgets code fuel terminal {| hostContext := this; renderProcess := rp |}
    = Some (Normal result, host')
    ∧ _extensionCss <$> result = css <$> registered_widgets this.

(** The contribution object is not yet in the metadata's command list and
    its command id is not yet known to the registry. *)
Definition fresh_contribution (this : ExtensionContextImpl)
    (contribution : ExtensionCommandContribution) : Prop :=
  Forall (λ other, same_contribution other contribution = false)
    (contributes_commands (_extensionMetadata this))
  ∧ _commandToFunctionMap (commands this) !! command contribution = None
  ∧ _commandToMenuEntryMap (commands this) !! command contribution = None.

(** The menu entry of a contribution that is in no menu. *)
Definition entry_of (contribution : ExtensionCommandContribution) : CommandMenuEntry :=
  {| commandContribution := contribution; contextMenu := false; commandPalette := false;
     emptyPane := false; newTerminal := false; windowMenu := false |}.

Section Registry.
Variable commandFunctionOf : ExtensionCommandContribution → CommandFunction.

(** The context right after [_registerCommandContribution(contribution)]. *)
Definition registered (this : ExtensionContextImpl) (c : ExtensionCommandContribution)
    : ExtensionContextImpl :=
  {| logger := logger this;
     commands :=
       {| _commandToFunctionMap :=
            <[command c := commandFunctionOf c]> (_commandToFunctionMap (commands this));
          _commandToMenuEntryMap :=
            <[command c := [entry_of c]]> (_commandToMenuEntryMap (commands this)) |};
     _extensionManager :=
       {| registrationChanges :=
            registrationChanges (_extensionManager this)
            ++ [(command <$> contributes_commands (_extensionMetadata this)) ++ [command c]] |};
     _extensionMetadata :=
       {| extensionName := extensionName (_extensionMetadata this);
          path := path (_extensionMetadata this);
          contributes_commands := contributes_commands (_extensionMetadata this) ++ [c];
          contributes_tabTitleWidgets := contributes_tabTitleWidgets (_extensionMetadata this) |};
     tabTitleWidgetFactoryMap := tabTitleWidgetFactoryMap this |}.

(** Registering [contribution] and then calling [dispose] on what was
    returned: the contribution is appended to the metadata's command list and
    its command gets a function, and disposing brings the list and the
    registry's command ids back to what they were. *)
Definition register_dispose_round_trip (this : ExtensionContextImpl)
    (contribution : ExtensionCommandContribution) : Prop :=
  ∃ disposable this1 this2,
    _registerCommandContribution commandFunctionOf contribution this = (Normal disposable, this1)
    ∧ contributes_commands (_extensionMetadata this1)
        = contributes_commands (_extensionMetadata this) ++ [contribution]
    ∧ getCommandFunction (commands this1) (command contribution) ≠ None
    ∧ dispose disposable this1 = (Normal tt, this2)
    ∧ contributes_commands (_extensionMetadata this2)
        = contributes_commands (_extensionMetadata this)
    ∧ dom (_commandToFunctionMap (commands this2)) = dom (_commandToFunctionMap (commands this))
    ∧ getCommandFunction (commands this2) (command contribution) = None.

(** The disposer reverses registration: called on the context that
    registration left, it returns; after it the metadata (with its command
    list), the registry and the rest of the context are what they were before
    registration; and as registration fired the registration-changed
    notification once, so did the disposer.  (Nothing is said here of the
    moment at which the disposer fires it.) *)
Definition disposer_reverses_registration (this : ExtensionContextImpl)
    (contribution : ExtensionCommandContribution) : Prop :=
  ∃ disposable this1 this2,
    _registerCommandContribution commandFunctionOf contribution this = (Normal disposable, this1)
    ∧ length (registrationChanges (_extensionManager this1))
      = S (length (registrationChanges (_extensionManager this)))
    ∧ dispose disposable this1 = (Normal tt, this2)
    ∧ contributes_commands (_extensionMetadata this2)
        = contributes_commands (_extensionMetadata this)
    ∧ commands this2 = commands this
    ∧ _extensionMetadata this2 = _extensionMetadata this
    ∧ logger this2 = logger this
    ∧ tabTitleWidgetFactoryMap this2 = tabTitleWidgetFactoryMap this
    ∧ length (registrationChanges (_extensionManager this2))
      = S (length (registrationChanges (_extensionManager this1))).

(** The order in which the specification lists the steps of the disposer:
    the append and the registration are undone, and the notification is
    fired then, so that the subscribers which it makes query the commands
    again find the command list as the disposer leaves it. *)
Definition disposer_notifies_last (this : ExtensionContextImpl)
    (contribution : ExtensionCommandContribution) : Prop :=
  ∃ disposable this1 this2,
    _registerCommandContribution commandFunctionOf contribution this = (Normal disposable, this1)
    ∧ dispose disposable this1 = (Normal tt, this2)
    ∧ last (registrationChanges (_extensionManager this2))
      = Some (command <$> contributes_commands (_extensionMetadata this2)).

End Registry.

(** Two contribution objects and a context whose metadata already lists the
    first of them. *)
Definition contribution_a : ExtensionCommandContribution :=
  {| oid := 1; command := "ext:a"; title := "A"; category := "window"; order := 1000;
     when := ""; icon := "" |}.

Definition contribution_b : ExtensionCommandContribution :=
  {| oid := 2; command := "ext:b"; title := "B"; category := "window"; order := 1000;
     when := ""; icon := "" |}.

Definition contribution_c : ExtensionCommandContribution :=
  {| oid := 3; command := "ext:c"; title := "C"; category := "window"; order := 1000;
     when := ""; icon := "" |}.

Definition no_op : CommandFunction := λ _, Returns Js.VUndefined.

Definition context_of (contributions : list ExtensionCommandContribution)
    (widgets : list ExtensionTabTitlesWidgetContribution)
    (factories : gmap string TabTitleWidgetFactory) : ExtensionContextImpl :=
  {| logger := [];
     commands :=
       {| _commandToFunctionMap :=
            list_to_map ((λ c, (command c, no_op)) <$> contributions);
          _commandToMenuEntryMap :=
            list_to_map ((λ c, (command c, [entry_of c])) <$> contributions) |};
     _extensionManager := {| registrationChanges := [] |};
     _extensionMetadata :=
       {| extensionName := "ext"; path := "/extensions/ext";
          contributes_commands := contributions;
          contributes_tabTitleWidgets := widgets |};
     tabTitleWidgetFactoryMap := factories |}.

(** Two tab title widget contributions, and three extensions: one whose
    factories throw, one whose factory registers a factory under the name of
    the second contribution, and one whose factories build two elements and
    return. *)
Definition widget_a : ExtensionTabTitlesWidgetContribution :=
  {| name := "a"; css := Js.VStr "a.css" |}.

Definition widget_b : ExtensionTabTitlesWidgetContribution :=
  {| name := "b"; css := Js.VStr "b.css" |}.

Definition throwing_code : ExtensionCode :=
  λ factory proxy widget this,
    {| completion := inr (Js.Error "factory failed"); created := 0; context_after := this |}.

Definition registering_code : ExtensionCode :=
  λ factory proxy widget this,
    {| completion := inl Js.VUndefined; created := 0;
       context_after := snd (_registerTabTitleWidget "b" 1 this) |}.

Definition building_code : ExtensionCode :=
  λ factory proxy widget this,
    {| completion := inl Js.VUndefined; created := 2; context_after := this |}.

Definition empty_document : RenderProcess :=
  {| nextElementId := 0; factoryCalls := [] |}.

End ContextStatements.

(* ===================================================================== *)
(** ** Vocabulary of the statements about the window module *)
(* ===================================================================== *)

Module WindowStatements.
Import MainWeb.
Local Open Scope string_scope.
Local Open Scope list_scope.

(** [needle] occurs in [text]. *)
Definition occurs_in (needle text : string) : Prop :=
  ∃ before after, text = before +:+ needle +:+ after.

(** The window after [commandResponse(uuid, result, exception)]. *)
Definition responded {M} (uuid : string) (result : AnyValue) (exception : option Js.exception)
    (m : M) (executed' : list (string * Js.value)) (w : Window M) : Window M :=
  {| extensionManager := m;
     sent := sent w ++ [{| response_uuid := uuid; response_result := result;
                           response_exception := exception |}];
     _log := _log w; executed := executed';
     propagationStopped := propagationStopped w; defaultPrevented := defaultPrevented w;
     result := result; exception := exception |}.

(** What was caught is something a receiver can tell from no error: an
    [Error] object, or any value but [null] and [undefined]. *)
Definition is_error_value (ex : Js.exception) : bool :=
  match ex with
  | Js.Error _ => true
  | Js.Thrown v => negb (Js.is_nullish v)
  end.

(** The failure of the command of [msg] was caught and sent back: the
    handler ended normally, and the one response it sent pairs an error value
    with the uuid of the request. *)
Definition failure_reported {M} (msg : ExecuteCommandMessage) (w : Window M)
    (outcome : Completion unit * Window M) : Prop :=
  ∃ leftover ex,
    outcome.1 = Normal tt
    ∧ sent outcome.2 = sent w ++ [{| response_uuid := uuid msg; response_result := leftover;
                                      response_exception := Some ex |}]
    ∧ is_error_value ex = true.

(** Modelled from the spec: the class [ExtensionManagerImpl] is not among the
    sources.  The spec has [executeCommand] look the command up in the
    registry, invoke the handler and return its result or propagate its
    failure, an id that is not registered being a "not found" error; and it
    has [queryCommands] select, among the contributed commands, those that the
    options name.  This manager is a table of command functions and a list of
    contributions, and serves as the concrete manager of the examples. *)
Record TableManager := {
  table : gmap string CommandFunction;
  inputFieldFocus : bool;
  contributions : list ExtensionContext.ExtensionCommandContribution;
}.

Definition not_found (commandName : string) : Js.exception :=
  Js.Error ("Unable to find command '" +:+ commandName +:+ "'").

Definition selected (options : CommandQueryOptions)
    (contribution : ExtensionContext.ExtensionCommandContribution) : bool :=
  match commands options with
  | Some names => bool_decide (ExtensionContext.command contribution ∈ names)
  | None => true
  end
  && match categories options with
     | Some names => bool_decide (ExtensionContext.category contribution ∈ names)
     | None => true
     end.

#[global] Instance TableManager_ExtensionManager : ExtensionManager TableManager := {
  executeCommand commandName args m :=
    match table m !! commandName with
    | Some commandFunc => (commandFunc args, m)
    | None => (Throws (not_found commandName), m)
    end;
  updateExtensionWindowStateFromEvent _ m := m;
  isInputFieldFocus := inputFieldFocus;
  queryCommands options m := List.filter (selected options) (contributions m);
}.

Definition empty_window (m : TableManager) : Window TableManager :=
  {| extensionManager := m; sent := []; _log := []; executed := [];
     propagationStopped := false; defaultPrevented := false;
     result := Plain Js.VNull; exception := None |}.

Definition copy_contribution : ExtensionContext.ExtensionCommandContribution :=
  {| ExtensionContext.oid := 1; ExtensionContext.command := "ext:copy";
     ExtensionContext.title := "Copy"; ExtensionContext.category := "terminal";
     ExtensionContext.order := 0; ExtensionContext.when := ""; ExtensionContext.icon := "" |}.

Definition paste_contribution : ExtensionContext.ExtensionCommandContribution :=
  {| ExtensionContext.oid := 2; ExtensionContext.command := "ext:paste";
     ExtensionContext.title := "Paste"; ExtensionContext.category := "terminal";
     ExtensionContext.order := 0; ExtensionContext.when := ""; ExtensionContext.icon := "" |}.

Definition two_commands : TableManager :=
  {| table := {[ "ext:copy" := (λ _, Returns Js.VUndefined) ]};
     inputFieldFocus := false;
     contributions := [copy_contribution; paste_contribution] |}.

Definition key_c : KeyboardEvent :=
  {| key := "c"; altKey := false; ctrlKey := true; shiftKey := true; metaKey := false |}.

(** A keybindings manager that maps every key to both commands. *)
Definition conflicting_bindings : KeybindingsManagerImpl :=
  {| keybindingsMapping := Some (λ _, ["ext:copy"; "ext:paste"]); enabled := true |}.

(** A manager with one command, whose promise is rejected without a
    reason ([Promise.reject()]). *)
Definition rejecting_manager : TableManager :=
  {| table := {[ "ext:reject" := (λ _, ReturnsPromise (Rejected (Js.Thrown Js.VUndefined))) ]};
     inputFieldFocus := false;
     contributions := [] |}.

Definition rejecting_request : ExecuteCommandMessage :=
  {| uuid := "request-3"; commandName := "ext:reject"; args := Js.VUndefined |}.

Definition missing_command_request : ExecuteCommandMessage :=
  {| uuid := "request-1"; commandName := "ext:missing"; args := Js.VUndefined |}.

End WindowStatements.

(* ===================================================================== *)
(** ** Vocabulary of the statements about the sanitation pass *)
(* ===================================================================== *)

Module ConfigStatements.
Import MainConfig.
Local Open Scope string_scope.
Local Open Scope list_scope.

(** A field is malformed for a default when it is missing, [null], or not of
    the type of the default. *)
Definition malformed (defaultValue v : Js.value) : bool :=
  Js.is_nullish v || negb (bool_decide (Js.typeof v = Js.typeof defaultValue)).

(** The number in [v], or [d] when [v] is not a number. *)
Definition number_or (d : Js.number) (v : Js.value) : Js.number :=
  match v with
  | Js.VNum n => n
  | _ => d
  end.

(** Is [v] the number NaN? *)
Definition is_NaN (v : Js.value) : bool :=
  match v with
  | Js.VNum Js.NaN => true
  | _ => false
  end.

(** [x || d] on numbers. *)
Definition truthy_or (d x : Js.number) : Js.number :=
  if Js.number_truthy x then x else d.

(** [y] is [x] clamped into [lo, hi]: the number [x] when it lies in the
    range, and otherwise the bound that [x] is beyond.  There is no clamping
    NaN. *)
Definition clamped (lo hi : Q) (x y : Js.number) : Prop :=
  match x with
  | Js.Finite q =>
      ∃ r, y = Js.Finite r
           ∧ ((lo <= q)%Q → (q <= hi)%Q → (r == q)%Q)
           ∧ ((q < lo)%Q → (r == lo)%Q)
           ∧ ((hi < q)%Q → (r == hi)%Q)
  | Js.NegInfinity => y = Js.Finite lo
  | Js.PosInfinity => y = Js.Finite hi
  | Js.NaN => False
  end.

(** The three numeric fields of a general configuration lie in their
    ranges. *)
Definition numbers_in_range (generalConfig : gmap string Js.value) : Prop :=
  ∃ terminalFontSize uiScalePercent windowBackgroundTransparencyPercent,
    Js.get generalConfig "terminalFontSize" = Js.VNum terminalFontSize
    ∧ Js.in_range 4 1024 terminalFontSize
    ∧ Js.get generalConfig "uiScalePercent" = Js.VNum uiScalePercent
    ∧ Js.in_range 5 500 uiScalePercent
    ∧ Js.get generalConfig "windowBackgroundTransparencyPercent"
      = Js.VNum windowBackgroundTransparencyPercent
    ∧ Js.in_range 0 100 windowBackgroundTransparencyPercent.

(** The rule of one field of the general configuration: its documented
    default and, for an enumeration, the strings it may hold. *)
Record FieldRule := {
  field : string;
  default_value : Js.value;
  allowed : option (list string);
}.

Definition breaks (rule : FieldRule) (v : Js.value) : bool :=
  malformed (default_value rule) v
  || match allowed rule with
     | Some availableValues => negb (includes availableValues v)
     | None => false
     end.

Definition plain (key : string) (defaultValue : Js.value) : FieldRule :=
  {| field := key; default_value := defaultValue; allowed := None |}.

Definition enum (key : string) (availableValues : list string) (defaultValue : string)
    : FieldRule :=
  {| field := key; default_value := Js.VStr defaultValue; allowed := Some availableValues |}.

Section Rules.
Variable platform : string.
Variable FALLBACK_TERMINAL_THEME : string.
Variable FALLBACK_SYNTAX_THEME : string.

(** The fields that [sanitizeGeneralConfig] sanitizes, with their defaults. *)
Definition generalConfigRules : list FieldRule :=
  [ plain "autoCopySelectionToClipboard" (Js.VBool true);
    plain "blinkingCursor" (Js.VBool false);
    enum "cursorStyle" ["block"; "underscore"; "beam"] "block";
    plain "frameByDefault" (Js.VBool true);
    enum "frameRule" frameRules "frame_if_lines";
    plain "frameRuleLines" (num 10);
    enum "gpuDriverWorkaround" ["none"; "no_blend"] "none";
    plain "isHardwareAccelerated" (Js.VBool true);
    plain "keybindingsName" (Js.VStr (default_keybindingsName platform));
    plain "minimizeToTray" (Js.VBool false);
    plain "scrollbackMaxFrames" (num 100);
    plain "scrollbackMaxLines" (num 500000);
    enum "showTips" ["always"; "daily"; "never"] "always";
    plain "showTrayIcon" (Js.VBool false);
    plain "terminalFont" (Js.VStr DEFAULT_TERMINALFONT);
    plain "terminalFontSize" (num 13);
    plain "terminalDisplayLigatures" (Js.VBool true);
    enum "terminalMarginStyle" ["normal"; "none"; "thick"; "thin"] "normal";
    plain "tipCounter" (num 0);
    plain "tipTimestamp" (num 0);
    enum "titleBarStyle" ["compact"; "native"; "theme"] "compact";
    plain "uiScalePercent" (num 100);
    enum "windowBackgroundMode" ["opaque"; "blur"] "opaque";
    plain "windowBackgroundTransparencyPercent" (num 50);
    plain "closeWindowWhenEmpty" (Js.VBool true);
    plain "middleMouseButtonAction" (Js.VStr "paste");
    plain "middleMouseButtonShiftAction" (Js.VStr "paste");
    plain "middleMouseButtonControlAction" (Js.VStr "paste");
    plain "rightMouseButtonAction" (Js.VStr "context_menu");
    plain "rightMouseButtonShiftAction" (Js.VStr "context_menu");
    plain "rightMouseButtonControlAction" (Js.VStr "context_menu");
    plain "activeExtensions" (Js.VObject ∅);
    plain "themeTerminal" (Js.VStr FALLBACK_TERMINAL_THEME);
    plain "themeSyntax" (Js.VStr FALLBACK_SYNTAX_THEME);
    plain "themeGUI" (Js.VStr "two-dark-ui") ].

End Rules.

(** The fields that [sanitizeSessionConfig] sanitizes in each session. *)
Definition sessionFields : list string :=
  ["name"; "uuid"; "type"; "initialDirectory"; "args"].

(** [after] is the session configuration [before] sanitized, [uuid] being
    the identifier that was created for it. *)
Definition session_sanitized (uuid : string) (before after : gmap string Js.value) : Prop :=
  Js.get after "name"
    = (if malformed (Js.VStr "") (Js.get before "name") then Js.VStr ""
       else Js.get before "name")
  ∧ Js.get after "uuid"
    = (if malformed (Js.VStr "") (Js.get before "uuid") then Js.VStr uuid
       else Js.get before "uuid")
  ∧ Js.get after "type"
    = (if bool_decide (Js.typeof (Js.get before "type") = Js.TString)
       then Js.get before "type" else Js.VStr "")
  ∧ Js.get after "initialDirectory"
    = (if bool_decide (Js.typeof (Js.get before "initialDirectory") = Js.TString)
       then Js.get before "initialDirectory" else Js.VNull)
  ∧ Js.get after "args"
    = (if malformed (Js.VStr "") (Js.get before "args") then Js.VStr ""
       else Js.get before "args")
  ∧ ∀ other, other ∉ sessionFields → after !! other = before !! other.

(** A stored configuration in which much is wrong. *)
Definition corrupt_general_config : gmap string Js.value :=
  {[ "blinkingCursor" := Js.VStr "yes";
     "cursorStyle" := Js.VStr "blob";
     "frameRuleLines" := Js.VNull;
     "terminalFontSize" := num 4000;
     "uiScalePercent" := num 0;
     "windowBackgroundTransparencyPercent" := num (-3);
     "showTips" := num 7;
     "tipCounter" := num 12;
     "unknownField" := Js.VStr "kept" ]}.

(** Stored configurations with a NaN in a numeric field. *)
Definition nan_font_size : gmap string Js.value :=
  {[ "terminalFontSize" := Js.VNum Js.NaN ]}.

Definition nan_transparency : gmap string Js.value :=
  {[ "windowBackgroundTransparencyPercent" := Js.VNum Js.NaN ]}.

Definition nan_scale : gmap string Js.value :=
  {[ "uiScalePercent" := Js.VNum Js.NaN ]}.

Definition numbered_uuids : UuidSource :=
  {| uuid_of := λ n, "uuid-" +:+ pretty n; uuid_next := 0 |}.

End ConfigStatements.

(* ===================================================================== *)
(** ** More of the configuration module *)
(* ===================================================================== *)

Module MainConfigRest.
Import MainConfig.
Local Open Scope string_scope.
Local Open Scope list_scope.
Local Open Scope eff_scope.

(** The action that [sanitizeCommandLineActionsConfig] stores when there is no
    array of actions. *)
Definition DEFAULT_COMMAND_LINE_ACTION : gmap string Js.value :=
  {[ "frameRule" := Js.VStr "never_frame"; "frameRuleLines" := num 5;
     "match" := Js.VStr "show"; "matchType" := Js.VStr "name" ]}.

(** The body of the loop of [sanitizeCommandLineActionsConfig]. *)
Definition sanitizeCommandLineAction (action : gmap string Js.value) : gmap string Js.value :=
  let action := sanitizeStringEnumField action "frameRule" frameRules (Js.VStr "never_frame") in
  let action := sanitizeField action "frameRuleLines" (num 5) in
  let action := sanitizeField action "match" (Js.VStr "") in
  let action := sanitizeStringEnumField action "matchType" ["name"; "regexp"] (Js.VStr "name") in
  action.

Definition PATHS_CONFIG_FILENAME : string := "application_paths.json".
Definition PATHS_USER_SETTINGS_KEY : string := "userSettingsPath".
Definition EXTRATERM_CONFIG_DIR : string := "extraterm".

(** What the file system and [JSON.parse] give for the paths configuration
    file: no such file, a file whose reading or parsing throws, or the parsed
    value. *)
Inductive PathsConfigFile :=
| NoSuchFile
| Unreadable (ex : Js.exception)
| Parsed (pathsConfig : Js.value).

(** The process as this module sees it: [path.join] and the two paths of
    [app.getPath], the paths configuration file, the module variable
    [userSettingsPath] and the module's logger. *)
Record Process := {
  path_join : string → string → string;
  exeDir : string;
  appData : string;
  pathsConfigFile : PathsConfigFile;
  userSettingsPath : option string;
  _log : ExtensionContext.Logger;
}.

Definition log (level : ExtensionContext.LogLevel) (msg : string) : Eff Process unit :=
  modify (λ p,
    {| path_join := path_join p; exeDir := exeDir p; appData := appData p;
       pathsConfigFile := pathsConfigFile p; userSettingsPath := userSettingsPath p;
       _log := _log p ++ [(level, msg)] |}).

Definition set_userSettingsPath (v : option string) : Eff Process unit :=
  modify (λ p,
    {| path_join := path_join p; exeDir := exeDir p; appData := appData p;
       pathsConfigFile := pathsConfigFile p; userSettingsPath := v;
       _log := _log p |}).

(** [pathsConfig[PATHS_USER_SETTINGS_KEY]] on what [JSON.parse] returned:
    reading a property of [null] throws, a primitive or an array has no such
    property. *)
Definition read_key (pathsConfig : Js.value) : Eff Process Js.value :=
  match pathsConfig with
  | Js.VObject props => ret (Js.get props PATHS_USER_SETTINGS_KEY)
  | Js.VNull => throw (Js.Error "TypeError: Cannot read properties of null")
  | Js.VUndefined => throw (Js.Error "TypeError: Cannot read properties of undefined")
  | _ => ret Js.VUndefined
  end.

Definition looking_message (pathsConfigFilename : string) : string :=
  "Looking for " +:+ PATHS_CONFIG_FILENAME +:+ " at '" +:+ pathsConfigFilename +:+ "'".

Definition not_a_string_message (pathsConfigFilename : string) : string :=
  "Value of key " +:+ PATHS_USER_SETTINGS_KEY +:+ " in file " +:+ pathsConfigFilename
    +:+ " isn't a string.".

Definition empty_message (pathsConfigFilename : string) : string :=
  "Using default location for user settings because " +:+ PATHS_USER_SETTINGS_KEY
    +:+ " in file " +:+ pathsConfigFilename +:+ " is empty.".

Definition using_message (userSettingsPath : string) : string :=
  "Using '" +:+ userSettingsPath +:+ "' for storing user settings.".

Definition unable_message (pathsConfigFilename : string) : string :=
  "Unable to parse json file '" +:+ pathsConfigFilename +:+ "',".

(** [fs.existsSync(pathsConfigFilename)] *)
Definition existsSync (file : PathsConfigFile) : bool :=
  match file with
  | NoSuchFile => false
  | _ => true
  end.

(** [JSON.parse(fs.readFileSync(pathsConfigFilename, {encoding: "utf8"}))] *)
Definition read_and_parse (file : PathsConfigFile) : Eff Process Js.value :=
  match file with
  | Parsed pathsConfig => ret pathsConfig
  | Unreadable ex => throw ex
  | NoSuchFile => throw (Js.Error "ENOENT: no such file or directory")
  end.

(** [function getUserSettingsDirectoryFromPathsConfig()]; [None] is [null].
    The [try] block either returns a result ([Some]) or runs to its end
    ([None]), after which the function returns [null]. *)
Definition getUserSettingsDirectoryFromPathsConfig : Eff Process (option string) :=
  exeDir <- gets exeDir ;;
  join <- gets path_join ;;
  let pathsConfigFilename := join exeDir PATHS_CONFIG_FILENAME in
  log ExtensionContext.LogInfo (looking_message pathsConfigFilename) ;;
  file <- gets pathsConfigFile ;;
  if existsSync file then
    returned <- try_catch
      (pathsConfig <- read_and_parse file ;;
       value <- read_key pathsConfig ;;
       if negb (Js.is_nullish value) then
         match value with
         | Js.VStr value =>
             if bool_decide (value = "") then
               log ExtensionContext.LogInfo (empty_message pathsConfigFilename) ;;
               ret (Some None)
             else
               let userSettingsPath := join exeDir value in
               log ExtensionContext.LogInfo (using_message userSettingsPath) ;;
               ret (Some (Some userSettingsPath))
         | _ =>
             log ExtensionContext.LogWarn (not_a_string_message pathsConfigFilename) ;;
             ret None
         end
       else ret None)
      (λ ex,
         log ExtensionContext.LogWarn (unable_message pathsConfigFilename) ;;
         ret None) ;;
    match returned with
    | Some result => ret result
    | None => ret None
    end
  else ret None.

(** [export function getUserSettingsDirectory()] *)
Definition getUserSettingsDirectory : Eff Process string :=
  cached <- gets userSettingsPath ;;
  match cached with
  | Some userSettingsPath => ret userSettingsPath
  | None =>
      overridePath <- getUserSettingsDirectoryFromPathsConfig ;;
      match overridePath with
      | Some overridePath =>
          set_userSettingsPath (Some overridePath) ;;
          ret overridePath
      | None =>
          join <- gets path_join ;;
          appData <- gets appData ;;
          set_userSettingsPath (Some (join appData EXTRATERM_CONFIG_DIR)) ;;
          ret (join appData EXTRATERM_CONFIG_DIR)
      end
  end.

(** The other directories and files, all below the user settings
    directory. *)
Definition getUserThemeDirectory : Eff Process string :=
  dir <- getUserSettingsDirectory ;;
  join <- gets path_join ;;
  ret (join dir "themes").

Definition getUserKeybindingsDirectory : Eff Process string :=
  dir <- getUserSettingsDirectory ;;
  join <- gets path_join ;;
  ret (join dir "keybindings").

Definition getConfigurationFilename : Eff Process string :=
  dir <- getUserSettingsDirectory ;;
  join <- gets path_join ;;
  ret (join dir "extraterm.json").

End MainConfigRest.

(* ===================================================================== *)
(** ** More of the render process's main module *)
(* ===================================================================== *)

Module MainWebRest.
Local Open Scope string_scope.
Local Open Scope list_scope.
Local Open Scope eff_scope.

(** *** The splash screen *)

(** The module variable [closeSplashFunc] ([None] is [null]) and the calls
    made of the function so far.  What the function does is not this
    module's; it returns, or it throws. *)
Record Splash := {
  closeSplashFunc : option (option Js.exception);
  closeSplashCalls : nat;
}.

(** [function closeSplash()] *)
Definition closeSplash : Eff Splash unit :=
  func <- gets closeSplashFunc ;;
  match func with
  | None => ret tt
  | Some outcome =>
      modify (λ s, {| closeSplashFunc := closeSplashFunc s;
                      closeSplashCalls := S (closeSplashCalls s) |}) ;;
      match outcome with
      | Some ex => throw ex
      | None =>
          modify (λ s, {| closeSplashFunc := None; closeSplashCalls := closeSplashCalls s |})
      end
  end.

(** *** Mouse buttons *)

(** [MouseEvent] as far as the module reads it. *)
Record MouseEvent := {
  buttons : Z;
  which : Z;
  ctrlKey : bool;
  shiftKey : bool;
}.

(** [function mapEventToMouseButtonActionKey(ev)]; [None] is [null]. *)
Definition mapEventToMouseButtonActionKey (ev : MouseEvent) : option string :=
  let isMiddleButton := (buttons ev =? 4)%Z in
  let isRightButton := negb (Z.land (buttons ev) 2 =? 0)%Z in
  if negb isMiddleButton && negb isRightButton then None
  else
    let buttonString := if isMiddleButton then "middle" else "right" in
    let modifierString :=
      if ctrlKey ev then "Control" else if shiftKey ev then "Shift" else "" in
    Some (buttonString +:+ "MouseButton" +:+ modifierString +:+ "Action").

(** What the [mousedown] listener acts on: the clipboard requests sent over
    IPC and the two flags of the event. *)
Record Page := {
  clipboardReadRequests : nat;
  defaultPrevented : bool;
  propagationStopped : bool;
}.

(** [generalConfig[key]]: a key that is [null] reads the property named
    "null". *)
Definition property_name (key : option string) : string :=
  match key with
  | Some key => key
  | None => "null"
  end.

(** The [mousedown] listener of [startUpWindowEvents]. *)
Definition mousedown_listener (generalConfig : gmap string Js.value) (ev : MouseEvent)
    : Eff Page unit :=
  if (which ev =? 2)%Z then
    let key := mapEventToMouseButtonActionKey ev in
    let action := Js.get generalConfig (property_name key) in
    (if MainConfig.is_string "paste" action then
       modify (λ p, {| clipboardReadRequests := S (clipboardReadRequests p);
                       defaultPrevented := defaultPrevented p;
                       propagationStopped := propagationStopped p |})
     else ret tt) ;;
    modify (λ p, {| clipboardReadRequests := clipboardReadRequests p;
                    defaultPrevented := true;
                    propagationStopped := propagationStopped p |}) ;;
    modify (λ p, {| clipboardReadRequests := clipboardReadRequests p;
                    defaultPrevented := defaultPrevented p;
                    propagationStopped := true |})
  else ret tt.

(** *** Fonts *)

(** [function getFontFilePath(availableFonts, fontFamily)]; [None] is
    [null]. *)
Fixpoint getFontFilePath (availableFonts : list MainConfig.FontInfo) (fontFamily : string)
    : option string :=
  match availableFonts with
  | [] => None
  | fontInfo :: rest =>
      if String.eqb fontFamily (MainConfig.postscriptName fontInfo)
      then Some (MainConfig.fontPath fontInfo)
      else getFontFilePath rest fontFamily
  end.

(** In [applyConfiguration]:
    [matchingFonts = availableFonts.filter(font => font.postscriptName === terminalFont)]
    and then [matchingFonts[0].path], which throws when there is no such
    font. *)
Definition matchingFonts (availableFonts : list MainConfig.FontInfo) (terminalFont : string)
    : list MainConfig.FontInfo :=
  List.filter (λ font, String.eqb (MainConfig.postscriptName font) terminalFont) availableFonts.

Definition first_matching_font_path {S} (availableFonts : list MainConfig.FontInfo)
    (terminalFont : string) : Eff S string :=
  match matchingFonts availableFonts terminalFont !! 0%nat with
  | Some font => ret (MainConfig.fontPath font)
  | None => throw (Js.Error "TypeError: Cannot read properties of undefined")
  end.

(** *** Theme contents *)

(** [Set.prototype.add]: a set keeps its elements in the order of their
    first insertion. *)
Definition Set_add (x : MainConfig.ThemeType) (s : list MainConfig.ThemeType)
    : list MainConfig.ThemeType :=
  if bool_decide (x ∈ s) then s else s ++ [x].

(** [new Set(iterable)] *)
Definition new_Set (l : list MainConfig.ThemeType) : list MainConfig.ThemeType :=
  foldl (λ s x, Set_add x s) [] l.

(** The set [neededThemeTypes] that [asyncRequestThemeContents] builds from
    its argument and then requests one by one. *)
Definition neededThemeTypes (refreshThemeTypeList : list MainConfig.ThemeType)
    : list MainConfig.ThemeType :=
  let neededThemeTypes := new_Set refreshThemeTypeList in
  if (length refreshThemeTypeList =? 0)%nat then
    Set_add MainConfig.ThemeSyntax
      (Set_add MainConfig.ThemeGui (Set_add MainConfig.ThemeTerminal neededThemeTypes))
  else if negb (indexOf (λ a b, bool_decide (a = b)) refreshThemeTypeList
                  MainConfig.ThemeTerminal =? -1)%Z then
    Set_add MainConfig.ThemeGui neededThemeTypes
  else neededThemeTypes.

(** *** Themes to refresh when the configuration changes *)

Section ConfigurationChange.

(** [oldGeneralConfig[key] !== newGeneralConfig[key]], whatever the two
    configurations are. *)
Variable changed : string → bool.

(** The list [refreshThemeTypeList] that [applyConfiguration] builds when
    there is an old configuration. *)
Definition refreshThemeTypeList : list MainConfig.ThemeType :=
  let refreshThemeTypeList := [] in
  let refreshThemeTypeList :=
    if changed "themeSyntax" then refreshThemeTypeList ++ [MainConfig.ThemeSyntax]
    else refreshThemeTypeList in
  let refreshThemeTypeList :=
    if changed "themeGUI" || changed "terminalMarginStyle" || changed "windowBackgroundMode"
       || changed "windowBackgroundTransparencyPercent" || changed "themeTerminal"
    then refreshThemeTypeList ++ [MainConfig.ThemeGui]
    else refreshThemeTypeList in
  let refreshThemeTypeList :=
    if changed "themeTerminal" || changed "gpuDriverWorkaround"
    then refreshThemeTypeList ++ [MainConfig.ThemeTerminal]
    else refreshThemeTypeList in
  refreshThemeTypeList.

(** The theme types requested for such a change:
    [if (refreshThemeTypeList.length !== 0) { await asyncRequestThemeContents(refreshThemeTypeList); }] *)
Definition themes_requested_on_change : list MainConfig.ThemeType :=
  if negb (length refreshThemeTypeList =? 0)%nat
  then neededThemeTypes refreshThemeTypeList
  else [].

End ConfigurationChange.

(** *** The keybindings manager, with the state of the mapping object *)

(** A [TermKeybindingsMapping] object: its identity, and the flag that its
    [setEnabled] sets. *)
Record MappingObject := {
  mapping_id : nat;
  mapping_enabled : bool;
}.

(** [class KeybindingsManagerImpl] with everything its methods write: the
    private fields [#keybindingsMapping] and [#enabled], the number of
    [onChange] events fired and the calls of
    [WebIpc.enableGlobalKeybindings]. *)
Record KeybindingsManagerState := {
  keybindingsMappingObject : option MappingObject;
  enabled : bool;
  changesFired : nat;
  globalKeybindingsCalls : list bool;
}.

(** The fields' initialisers. *)
Definition new_KeybindingsManagerImpl : KeybindingsManagerState :=
  {| keybindingsMappingObject := None; enabled := true; changesFired := 0;
     globalKeybindingsCalls := [] |}.

(** [setKeybindingsMapping(newKeybindingContexts)] *)
Definition setKeybindingsMapping (newKeybindingContexts : MappingObject)
    : Eff KeybindingsManagerState unit :=
  modify (λ this,
    {| keybindingsMappingObject := Some newKeybindingContexts; enabled := enabled this;
       changesFired := changesFired this;
       globalKeybindingsCalls := globalKeybindingsCalls this |}) ;;
  modify (λ this,
    {| keybindingsMappingObject :=
         (λ mapping, {| mapping_id := mapping_id mapping; mapping_enabled := enabled this |})
           <$> keybindingsMappingObject this;
       enabled := enabled this; changesFired := changesFired this;
       globalKeybindingsCalls := globalKeybindingsCalls this |}) ;;
  modify (λ this,
    {| keybindingsMappingObject := keybindingsMappingObject this; enabled := enabled this;
       changesFired := S (changesFired this);
       globalKeybindingsCalls := globalKeybindingsCalls this |}).

(** [setEnabled(enabled)] *)
Definition setEnabled (on : bool) : Eff KeybindingsManagerState unit :=
  modify (λ this,
    {| keybindingsMappingObject := keybindingsMappingObject this; enabled := on;
       changesFired := changesFired this;
       globalKeybindingsCalls := globalKeybindingsCalls this |}) ;;
  modify (λ this,
    {| keybindingsMappingObject :=
         (λ mapping, {| mapping_id := mapping_id mapping; mapping_enabled := enabled this |})
           <$> keybindingsMappingObject this;
       enabled := enabled this; changesFired := changesFired this;
       globalKeybindingsCalls := globalKeybindingsCalls this |}) ;;
  modify (λ this,
    {| keybindingsMappingObject := keybindingsMappingObject this; enabled := enabled this;
       changesFired := changesFired this;
       globalKeybindingsCalls := globalKeybindingsCalls this ++ [on] |}).

(** The calls that reach the manager from outside: [applyConfiguration]
    installs a mapping, the settings page disables the keybindings while a
    key is being recorded. *)
Inductive ManagerCall :=
| CallSetKeybindingsMapping (newKeybindingContexts : MappingObject)
| CallSetEnabled (on : bool).

Definition run_call (call : ManagerCall) : Eff KeybindingsManagerState unit :=
  match call with
  | CallSetKeybindingsMapping newKeybindingContexts =>
      setKeybindingsMapping newKeybindingContexts
  | CallSetEnabled on => setEnabled on
  end.

Fixpoint run_calls (calls : list ManagerCall) : Eff KeybindingsManagerState unit :=
  match calls with
  | [] => ret tt
  | call :: rest => run_call call ;; run_calls rest
  end.

End MainWebRest.

(* ===================================================================== *)
(** ** KeybindingsSettings: the commands of the key bindings page *)
(* ===================================================================== *)

Module KeybindingsSettings.
Import MainWeb.
Local Open Scope string_scope.
Local Open Scope list_scope.

(** The properties that an object literal [{}] inherits from
    [Object.prototype]: reading one of them from a new object gives a
    function or an object, not [undefined]. *)
Definition Object_prototype_properties : list string :=
  [ "constructor"; "__defineGetter__"; "__defineSetter__"; "hasOwnProperty";
    "__lookupGetter__"; "__lookupSetter__"; "isPrototypeOf"; "propertyIsEnumerable";
    "toString"; "valueOf"; "__proto__"; "toLocaleString" ].

Definition NOT_A_FUNCTION : Js.exception :=
  Js.Error "TypeError: commandsByCategory[contrib.category].push is not a function".

(** The loop of [_buildCommandsByCategory]; the map holds the own properties
    of [commandsByCategory]. *)
Fixpoint _buildCommandsByCategory_loop
    (allCommands : list ExtensionContext.ExtensionCommandContribution)
    (commandsByCategory : gmap string (list ExtensionContext.ExtensionCommandContribution))
    : Completion (gmap string (list ExtensionContext.ExtensionCommandContribution)) :=
  match allCommands with
  | [] => Normal commandsByCategory
  | contrib :: rest =>
      let category := ExtensionContext.category contrib in
      match commandsByCategory !! category with
      | Some commands =>
          _buildCommandsByCategory_loop rest
            (<[category := commands ++ [contrib]]> commandsByCategory)
      | None =>
          if bool_decide (category ∈ Object_prototype_properties) then Throw NOT_A_FUNCTION
          else
            let commandsByCategory := <[category := []]> commandsByCategory in
            _buildCommandsByCategory_loop rest
              (<[category := [] ++ [contrib]]> commandsByCategory)
      end
  end.

(** [_buildCommandsByCategory(extensionManager)] *)
Definition _buildCommandsByCategory {M : Type} `{ExtensionManager M} (extensionManager : M)
    : Completion (gmap string (list ExtensionContext.ExtensionCommandContribution)) :=
  let allCommands :=
    queryCommands {| commands := None; categories := None; when := false |}
      extensionManager in
  _buildCommandsByCategory_loop allCommands ∅.

End KeybindingsSettings.

(* ===================================================================== *)
(** ** The sanitation pass on whatever the configuration database holds *)
(* ===================================================================== *)

Module ConfigCopies.
Import MainConfig MainConfigRest.
Local Open Scope string_scope.
Local Open Scope list_scope.
Local Open Scope eff_scope.

(** An object of the heap as the sanitation leaves it: a plain object with
    its properties, or an array with its elements and the properties that
    were set on it by name.  (An array is an object: [array["name"] = ""]
    gives it a property.) *)
Inductive ObjectValue :=
| PlainObject (props : gmap string Js.value)
| ArrayObject (items : list Js.value) (props : gmap string Js.value).

Definition properties (object : ObjectValue) : gmap string Js.value :=
  match object with
  | PlainObject props => props
  | ArrayObject _ props => props
  end.

(** Reading a property of [null] or [undefined] throws. *)
Definition TYPE_ERROR_READ : Js.exception :=
  Js.Error "TypeError: Cannot read properties of null or undefined".

(** The module is strict code, in which setting a property on a number, a
    string or a boolean throws. *)
Definition TYPE_ERROR_CREATE : Js.exception :=
  Js.Error "TypeError: Cannot create property on a primitive value".

(** A run of sanitation statements on the value [object], [statements] being
    what they do to the properties of an object.  Each of the three runs
    below starts with a [sanitizeField] or a [sanitizeStringEnumField] on a
    key that only an object can have ("autoCopySelectionToClipboard", "name",
    "frameRule"), and this first statement decides what happens to a value
    that is not an object:
    - on [null] and [undefined], reading [object[key]] throws;
    - on a number, a string or a boolean, [object[key]] is [undefined], so
      the default is assigned, and the assignment throws;
    - on an array, which as data from a JSON file has no property with a
      name yet, the statements run as on an object without properties. *)
Definition on_object {S} (statements : gmap string Js.value → Eff S (gmap string Js.value))
    (object : Js.value) : Eff S ObjectValue :=
  match object with
  | Js.VObject props =>
      props' <- statements props ;;
      ret (PlainObject props')
  | Js.VArray items =>
      props' <- statements ∅ ;;
      ret (ArrayObject items props')
  | Js.VNull | Js.VUndefined => throw TYPE_ERROR_READ
  | Js.VBool _ | Js.VNum _ | Js.VStr _ => throw TYPE_ERROR_CREATE
  end.

Section GeneralConfig.
Variable platform : string.
Variable AllLogicalKeybindingsNames : list string.
Variable FALLBACK_TERMINAL_THEME : string.
Variable FALLBACK_SYNTAX_THEME : string.
Variable getTheme : string → option ThemeInfo.

(** [function sanitizeGeneralConfig(configDatabase, themeManager,
    availableFonts)], from the value that [getGeneralConfigCopy()] returns to
    the object that is passed to [setGeneralConfig]:
    [const generalConfig = configDatabase.getGeneralConfigCopy() ?? {};]
    and then the statements of [MainConfig.sanitizeGeneralConfig]. *)
Definition sanitizeGeneralConfig (copy : Js.value) (availableFonts : list FontInfo)
    : Eff unit ObjectValue :=
  let generalConfig := if Js.is_nullish copy then Js.VObject ∅ else copy in
  on_object
    (λ props,
       ret (MainConfig.sanitizeGeneralConfig platform AllLogicalKeybindingsNames
              FALLBACK_TERMINAL_THEME FALLBACK_SYNTAX_THEME getTheme (Some props)
              availableFonts))
    generalConfig.

End GeneralConfig.

(** [Array.isArray(v)] *)
Definition isArray (v : Js.value) : bool :=
  match v with
  | Js.VArray _ => true
  | _ => false
  end.

(** The elements of a value that is an array. *)
Definition elements (v : Js.value) : list Js.value :=
  match v with
  | Js.VArray items => items
  | _ => []
  end.

(** The loop of [sanitizeSessionConfig] over the elements of the array. *)
Fixpoint sanitizeSessionConfig_loop (sessionConfigs : list Js.value)
    : Eff UuidSource (list ObjectValue) :=
  match sessionConfigs with
  | [] => ret []
  | sessionConfiguration :: rest =>
      sanitized <- on_object sanitizeSessionConfiguration sessionConfiguration ;;
      rest' <- sanitizeSessionConfig_loop rest ;;
      ret (sanitized :: rest')
  end.

(** [function sanitizeSessionConfig(configDatabase)], from the value that
    [getSessionConfigCopy()] returns to the array that is passed to
    [setSessionConfig]. *)
Definition sanitizeSessionConfig (copy : Js.value) : Eff UuidSource (list ObjectValue) :=
  let sessionConfigs :=
    if Js.is_nullish copy || negb (isArray copy) then [] else elements copy in
  sanitizeSessionConfig_loop sessionConfigs.

(** The loop of [sanitizeCommandLineActionsConfig]. *)
Fixpoint sanitizeCommandLineActionsConfig_loop (commandLineActions : list Js.value)
    : Eff unit (list ObjectValue) :=
  match commandLineActions with
  | [] => ret []
  | action :: rest =>
      sanitized <- on_object (λ props, ret (sanitizeCommandLineAction props)) action ;;
      rest' <- sanitizeCommandLineActionsConfig_loop rest ;;
      ret (sanitized :: rest')
  end.

(** [function sanitizeCommandLineActionsConfig(configDatabase)], from the
    value that [getCommandLineActionConfigCopy()] returns to the array that
    is passed to [setCommandLineActionConfig]. *)
Definition sanitizeCommandLineActionsConfig (copy : Js.value) : Eff unit (list ObjectValue) :=
  if negb (isArray copy) then ret [PlainObject DEFAULT_COMMAND_LINE_ACTION]
  else sanitizeCommandLineActionsConfig_loop (elements copy).

End ConfigCopies.

(* ===================================================================== *)
(** ** Vocabulary of further statements about the configuration module *)
(* ===================================================================== *)

Module ConfigStatementsMore.
Import MainConfig ConfigStatements MainConfigRest.
Local Open Scope string_scope.
Local Open Scope list_scope.

(** What a chain of statements on one field does to the value of the field. *)
Definition sanitized_by (defaultValue : Js.value) : Js.value → Js.value :=
  λ v, if malformed defaultValue v then defaultValue else v.

Definition sanitized_enum (availableValues : list string) (defaultValue : Js.value)
    : Js.value → Js.value :=
  λ v, if Js.is_nullish v || negb (includes availableValues v) then defaultValue else v.

Definition unless (accepted : Js.value → bool) (fallback : Js.value) : Js.value → Js.value :=
  λ v, if accepted v then v else fallback.

Definition on_number (f : Js.number → Js.number) : Js.value → Js.value :=
  λ v, match v with
       | Js.VNum n => Js.VNum (f n)
       | Js.VUndefined => Js.VUndefined
       | Js.VNull => Js.VNull
       | Js.VBool b => Js.VBool b
       | Js.VStr s => Js.VStr s
       | Js.VArray items => Js.VArray items
       | Js.VObject props => Js.VObject props
       end.

Fixpoint assoc {A} (key : string) (table : list (string * A)) : option A :=
  match table with
  | [] => None
  | (k, a) :: rest => if String.eqb k key then Some a else assoc key rest
  end.

Section Fieldwise.
Variable platform : string.
Variable AllLogicalKeybindingsNames : list string.
Variable FALLBACK_TERMINAL_THEME : string.
Variable FALLBACK_SYNTAX_THEME : string.
Variable getTheme : string → option ThemeInfo.
Variable availableFonts : list FontInfo.

Definition font_available (terminalFont : Js.value) : bool :=
  existsb (λ font, is_string (postscriptName font) terminalFont) availableFonts.

Definition is_theme (type : ThemeType) (v : Js.value) : bool :=
  isThemeType (theme_of getTheme v) type.

(** For each field that [sanitizeGeneralConfig] has statements about, what
    these statements together do to its value. *)
Definition generalConfigTransformers : list (string * (Js.value → Js.value)) :=
  [ ("autoCopySelectionToClipboard", sanitized_by (Js.VBool true));
    ("blinkingCursor", sanitized_by (Js.VBool false));
    ("cursorStyle", sanitized_enum ["block"; "underscore"; "beam"] (Js.VStr "block"));
    ("frameByDefault", sanitized_by (Js.VBool true));
    ("frameRule", sanitized_enum frameRules (Js.VStr "frame_if_lines"));
    ("frameRuleLines", sanitized_by (num 10));
    ("gpuDriverWorkaround", sanitized_enum ["none"; "no_blend"] (Js.VStr "none"));
    ("isHardwareAccelerated", λ _, Js.VBool true);
    ("keybindingsName",
       λ v, unless (includes AllLogicalKeybindingsNames)
              (Js.VStr (default_keybindingsName platform))
              (sanitized_by (Js.VStr (default_keybindingsName platform)) v));
    ("minimizeToTray", sanitized_by (Js.VBool false));
    ("scrollbackMaxFrames", sanitized_by (num 100));
    ("scrollbackMaxLines", sanitized_by (num 500000));
    ("showTips", sanitized_enum ["always"; "daily"; "never"] (Js.VStr "always"));
    ("showTrayIcon", sanitized_by (Js.VBool false));
    ("terminalFont",
       λ v, unless font_available (Js.VStr DEFAULT_TERMINALFONT)
              (sanitized_by (Js.VStr DEFAULT_TERMINALFONT) v));
    ("terminalFontSize", λ v, on_number clamp_terminalFontSize (sanitized_by (num 13) v));
    ("terminalDisplayLigatures", sanitized_by (Js.VBool true));
    ("terminalMarginStyle",
       sanitized_enum ["normal"; "none"; "thick"; "thin"] (Js.VStr "normal"));
    ("tipCounter", sanitized_by (num 0));
    ("tipTimestamp", sanitized_by (num 0));
    ("titleBarStyle", sanitized_enum ["compact"; "native"; "theme"] (Js.VStr "compact"));
    ("uiScalePercent", λ v, on_number clamp_uiScalePercent (sanitized_by (num 100) v));
    ("windowBackgroundMode", sanitized_enum ["opaque"; "blur"] (Js.VStr "opaque"));
    ("windowBackgroundTransparencyPercent",
       λ v, on_number clamp_windowBackgroundTransparencyPercent (sanitized_by (num 50) v));
    ("closeWindowWhenEmpty", sanitized_by (Js.VBool true));
    ("middleMouseButtonAction", sanitized_by (Js.VStr "paste"));
    ("middleMouseButtonShiftAction", sanitized_by (Js.VStr "paste"));
    ("middleMouseButtonControlAction", sanitized_by (Js.VStr "paste"));
    ("rightMouseButtonAction", sanitized_by (Js.VStr "context_menu"));
    ("rightMouseButtonShiftAction", sanitized_by (Js.VStr "context_menu"));
    ("rightMouseButtonControlAction", sanitized_by (Js.VStr "context_menu"));
    ("activeExtensions", sanitized_by (Js.VObject ∅));
    ("themeTerminal",
       λ v, unless (is_theme ThemeTerminal) (Js.VStr FALLBACK_TERMINAL_THEME)
              (sanitized_by (Js.VStr FALLBACK_TERMINAL_THEME) v));
    ("themeSyntax",
       λ v, unless (is_theme ThemeSyntax) (Js.VStr FALLBACK_SYNTAX_THEME)
              (sanitized_by (Js.VStr FALLBACK_SYNTAX_THEME) v));
    ("themeGUI",
       λ v, unless (λ v, negb (is_string "default" v) && is_theme ThemeGui v)
              (Js.VStr "two-dark-ui")
              (sanitized_by (Js.VStr "two-dark-ui") v)) ].

(** What [sanitizeGeneralConfig] does to the value of the field [key]:
    nothing, when it has no statement about the field. *)
Definition transformer_of (key : string) : Js.value → Js.value :=
  default id (assoc key generalConfigTransformers).

End Fieldwise.

(** A command line action as the sanitation leaves it. *)
Definition well_formed_action (action : gmap string Js.value) : Prop :=
  includes frameRules (Js.get action "frameRule") = true
  ∧ Js.typeof (Js.get action "frameRuleLines") = Js.TNumber
  ∧ Js.typeof (Js.get action "match") = Js.TString
  ∧ includes ["name"; "regexp"] (Js.get action "matchType") = true.

(** A session configuration as the sanitation leaves it. *)
Definition well_formed_session (session : gmap string Js.value) : Prop :=
  Js.typeof (Js.get session "name") = Js.TString
  ∧ Js.typeof (Js.get session "uuid") = Js.TString
  ∧ Js.typeof (Js.get session "type") = Js.TString
  ∧ (session !! "initialDirectory" = Some Js.VNull
     ∨ Js.typeof (Js.get session "initialDirectory") = Js.TString)
  ∧ Js.typeof (Js.get session "args") = Js.TString.

Definition example_process (file : PathsConfigFile) : Process :=
  {| path_join := λ a b, a +:+ "/" +:+ b; exeDir := "/opt/extraterm";
     appData := "/home/user/.config"; pathsConfigFile := file;
     userSettingsPath := None; _log := [] |}.

End ConfigStatementsMore.

(* ===================================================================== *)
(** ** Vocabulary of the statements about sanitation of stored values *)
(* ===================================================================== *)

Module CopyStatements.
Import MainConfig ConfigStatements MainConfigRest ConfigCopies.
Local Open Scope string_scope.
Local Open Scope list_scope.

(** Is [v] an object?  (An array is one; [null] is not.) *)
Definition is_object (v : Js.value) : bool :=
  match v with
  | Js.VObject _ | Js.VArray _ => true
  | _ => false
  end.

(** The properties that the stored value [v] has by name. *)
Definition fields_of (v : Js.value) : gmap string Js.value :=
  match v with
  | Js.VObject props => props
  | _ => ∅
  end.

(** The stored value [v], an object or nothing, with the properties [props]
    for its own. *)
Definition with_fields (v : Js.value) (props : gmap string Js.value) : ObjectValue :=
  match v with
  | Js.VArray items => ArrayObject items props
  | _ => PlainObject props
  end.

(** What sanitation throws at a value that is not an object. *)
Definition type_error_at (v : Js.value) : Js.exception :=
  if Js.is_nullish v then TYPE_ERROR_READ else TYPE_ERROR_CREATE.

(** The run has returned. *)
Definition ends_normally {S A} (outcome : Completion A * S) : Prop :=
  ∃ a, outcome.1 = Normal a.

(** The fields of the general configuration on which
    [sanitizeGeneralConfig] has a statement besides [sanitizeField] or
    [sanitizeStringEnumField], so that a value of the right type may still
    be replaced. *)
Definition adjustedFields : list string :=
  [ "isHardwareAccelerated"; "keybindingsName"; "terminalFont"; "terminalFontSize";
    "uiScalePercent"; "windowBackgroundTransparencyPercent";
    "themeTerminal"; "themeSyntax"; "themeGUI" ].

(** Stored session configurations: a session followed by [null], a single
    number, and two sessions. *)
Definition session_then_null : Js.value :=
  Js.VArray [Js.VObject {[ "name" := Js.VStr "bash" ]}; Js.VNull].

Definition number_for_a_session : Js.value := Js.VArray [num 5].

Definition two_session_objects : list Js.value :=
  [Js.VObject {[ "name" := Js.VStr "bash"; "type" := num 3 ]}; Js.VObject ∅].

Definition two_sessions : Js.value := Js.VArray two_session_objects.

(** Stored command line actions: an action followed by [null], and two
    actions. *)
Definition action_then_null : Js.value :=
  Js.VArray [Js.VObject {[ "match" := Js.VStr "ls" ]}; Js.VNull].

Definition two_actions : Js.value :=
  Js.VArray [Js.VObject {[ "match" := Js.VStr "ls"; "frameRule" := Js.VStr "sometimes" ]};
             Js.VArray []].

End CopyStatements.

(* ===================================================================== *)
(** ** Vocabulary of the statements about the settings directory *)
(* ===================================================================== *)

Module PathStatements.
Import MainConfigRest.
Local Open Scope string_scope.
Local Open Scope list_scope.

(** The process after [entries] were written to the module's logger. *)
Definition logged (p : Process) (entries : ExtensionContext.Logger) : Process :=
  {| path_join := path_join p; exeDir := exeDir p; appData := appData p;
     pathsConfigFile := pathsConfigFile p; userSettingsPath := userSettingsPath p;
     _log := _log p ++ entries |}.

(** The process with another paths configuration file on the disk. *)
Definition with_file (p : Process) (file : PathsConfigFile) : Process :=
  {| path_join := path_join p; exeDir := exeDir p; appData := appData p;
     pathsConfigFile := file; userSettingsPath := userSettingsPath p;
     _log := _log p |}.

(** The process with the module variable [userSettingsPath] set. *)
Definition settled (p : Process) (dir : string) : Process :=
  {| path_join := path_join p; exeDir := exeDir p; appData := appData p;
     pathsConfigFile := pathsConfigFile p; userSettingsPath := Some dir;
     _log := _log p |}.

(** The directory that the paths configuration file asks for: the file is
    there, parses to an object, and the object has a non-empty string under
    the key. *)
Definition configured_override (p : Process) : option string :=
  match pathsConfigFile p with
  | Parsed (Js.VObject props) =>
      match props !! PATHS_USER_SETTINGS_KEY with
      | Some (Js.VStr value) =>
          if bool_decide (value = "") then None else Some (path_join p (exeDir p) value)
      | _ => None
      end
  | _ => None
  end.

(** The file is there but reading it, parsing it or reading the key
    throws. *)
Definition unusable (file : PathsConfigFile) : bool :=
  match file with
  | Unreadable _ | Parsed Js.VNull | Parsed Js.VUndefined => true
  | _ => false
  end.

End PathStatements.

(* ===================================================================== *)
(** ** More values for the examples about the window *)
(* ===================================================================== *)

Module WindowStatementsMore.
Import MainWeb WindowStatements.
Local Open Scope string_scope.
Local Open Scope list_scope.

Definition copy_request : ExecuteCommandMessage :=
  {| uuid := "request-2"; commandName := "ext:copy"; args := Js.VUndefined |}.

(** A keybindings manager that maps every key to a command nobody has
    contributed. *)
Definition unbound_bindings : KeybindingsManagerImpl :=
  {| keybindingsMapping := Some (λ _, ["ext:unknown"]); enabled := true |}.

End WindowStatementsMore.

(* ===================================================================== *)
(** ** Vocabulary of the statements about the rest of the main module *)
(* ===================================================================== *)

Module MainWebStatements.
Import MainWebRest.
Local Open Scope string_scope.
Local Open Scope list_scope.

(** The six fields of the general configuration that hold what a mouse
    button does. *)
Definition mouseButtonActionKeys : list string :=
  [ "middleMouseButtonAction"; "middleMouseButtonShiftAction";
    "middleMouseButtonControlAction"; "rightMouseButtonAction";
    "rightMouseButtonShiftAction"; "rightMouseButtonControlAction" ].

(** The arguments of the calls of [setEnabled], oldest first. *)
Definition enabled_arguments (calls : list ManagerCall) : list bool :=
  omap (λ call, match call with
                | CallSetEnabled on => Some on
                | CallSetKeybindingsMapping _ => None
                end) calls.

(** The mapping objects given to [setKeybindingsMapping], oldest first. *)
Definition installed_mappings (calls : list ManagerCall) : list MappingObject :=
  omap (λ call, match call with
                | CallSetKeybindingsMapping mapping => Some mapping
                | CallSetEnabled _ => None
                end) calls.

Definition middle_click : MouseEvent :=
  {| buttons := 4; which := 2; ctrlKey := false; shiftKey := true |}.

Definition fresh_page : Page :=
  {| clipboardReadRequests := 0; defaultPrevented := false; propagationStopped := false |}.

End MainWebStatements.

(* ===================================================================== *)
(** ** More vocabulary of the statements about the context *)
(* ===================================================================== *)

Module ContextStatementsMore.
Import ExtensionContext ContextStatements.
Local Open Scope string_scope.
Local Open Scope list_scope.

(** The tab title widget contributions that have a factory once one was
    registered under [widgetName]. *)
Definition registered_widgets_with (this : ExtensionContextImpl) (widgetName : string)
    : list ExtensionTabTitlesWidgetContribution :=
  filter (λ contrib, name contrib = widgetName
                     ∨ is_Some (tabTitleWidgetFactoryMap this !! name contrib))
    (contributes_tabTitleWidgets (_extensionMetadata this)).

End ContextStatementsMore.

(* ===================================================================== *)
(** * Properties *)
(* ===================================================================== *)

Section ArrayFacts.
Context {A : Type}.

Lemma indexOf_from_absent (same : A → A → bool) l x i :
  Forall (λ y, same y x = false) l → indexOf_from same l x i = (-1)%Z.
Proof.
  intros H. revert i. induction H as [|y l Hy _ IH]; intros i; simpl; [done|].
  by rewrite Hy, IH.
Qed.

Lemma indexOf_from_app_absent (same : A → A → bool) l l' x i :
  Forall (λ y, same y x = false) l →
  indexOf_from same (l ++ l') x i = indexOf_from same l' x (i + Z.of_nat (length l))%Z.
Proof.
  intros H. revert i. induction H as [|y l Hy _ IH]; intros i; simpl.
  - f_equal. lia.
  - rewrite Hy, IH. f_equal. lia.
Qed.

Lemma indexOf_pushed (same : A → A → bool) l x :
  same x x = true →
  Forall (λ y, same y x = false) l →
  indexOf same (l ++ [x]) x = Z.of_nat (length l).
Proof.
  intros Hx Hl. unfold indexOf. rewrite indexOf_from_app_absent by done.
  simpl. by rewrite Hx.
Qed.

Lemma splice_last (l : list A) (x : A) :
  splice (l ++ [x]) (Z.of_nat (length l)) 1 = l.
Proof.
  unfold splice. rewrite length_app. simpl.
  assert (Hlt : (Z.of_nat (length l) <? 0)%Z = false) by (apply Z.ltb_ge; lia).
  rewrite Hlt.
  replace (Z.min (Z.of_nat (length l)) (Z.of_nat (length l + 1))) with (Z.of_nat (length l)) by lia.
  replace (Z.min (Z.max 1 0) (Z.of_nat (length l + 1) - Z.of_nat (length l))) with 1%Z by lia.
  replace (Z.to_nat (Z.of_nat (length l) + 1)) with (length l + 1) by lia.
  rewrite Nat2Z.id.
  rewrite take_app_length.
  rewrite drop_ge; [by rewrite app_nil_r|].
  rewrite length_app. simpl. lia.
Qed.

End ArrayFacts.

Section ExtensionContextFacts.
Import ExtensionContext ContextStatements.
Local Open Scope string_scope.
Local Open Scope list_scope.

(** C5: in the render process every read of [backend] writes a warning to the
    extension's logger and then throws the error with the same message; it
    never returns a value (its type has none) and leaves the rest of the
    context as it was. *)
Theorem backend_warns_then_throws (this : ExtensionContextImpl) :
  backend this
  = (Throw (Js.Error BACKEND_MESSAGE),
     set_logger (logger this ++ [(LogWarn, BACKEND_MESSAGE)]) this)
  ∧ (∀ v : Empty_set, fst (backend this) ≠ Normal v)
  ∧ logger (snd (backend this)) = logger this ++ [(LogWarn, BACKEND_MESSAGE)].
Proof.
  split; [reflexivity|]. split; [|reflexivity].
  intros v. destruct v.
Qed.

Lemma registerTabTitleWidget_loop_unknown widgetName factory meta this :
  widgetName ∉ name <$> meta →
  _registerTabTitleWidget_loop widgetName factory meta this
  = (Normal tt, set_logger (logger this ++ [(LogWarn, unknown_widget_message widgetName)]) this).
Proof.
  induction meta as [|data rest IH]; intros Hnot; simpl; [reflexivity|].
  rewrite fmap_cons in Hnot. apply not_elem_of_cons in Hnot as [Hne Hrest].
  destruct (String.eqb_spec (name data) widgetName) as [Heq|_]; [congruence|].
  by apply IH.
Qed.

Lemma registerTabTitleWidget_loop_known widgetName factory meta this :
  widgetName ∈ name <$> meta →
  _registerTabTitleWidget_loop widgetName factory meta this
  = (Normal tt,
     set_tabTitleWidgetFactoryMap
       (<[widgetName := factory]> (tabTitleWidgetFactoryMap this)) this).
Proof.
  induction meta as [|data rest IH]; intros Hin; simpl.
  - by apply elem_of_nil in Hin.
  - destruct (String.eqb_spec (name data) widgetName) as [Heq|Hne]; [reflexivity|].
    rewrite fmap_cons in Hin. apply elem_of_cons in Hin as [Heq|Hin]; [congruence|].
    by apply IH.
Qed.

(** C7: [_registerTabTitleWidget] never throws.  When the name is one of the
    metadata's tab title widgets the factory is stored under that name and
    nothing is logged; when it is not, the factory map is unchanged and one
    warning that quotes the name is logged. *)
Theorem registerTabTitleWidget_known_or_warned (this : ExtensionContextImpl)
    (widgetName : string) (factory : TabTitleWidgetFactory) :
  ∃ this',
    _registerTabTitleWidget widgetName factory this = (Normal tt, this')
    ∧ if bool_decide (widgetName ∈ name <$> contributes_tabTitleWidgets (_extensionMetadata this))
      then tabTitleWidgetFactoryMap this'
             = <[widgetName := factory]> (tabTitleWidgetFactoryMap this)
           ∧ tabTitleWidgetFactoryMap this' !! widgetName = Some factory
           ∧ logger this' = logger this
      else tabTitleWidgetFactoryMap this' = tabTitleWidgetFactoryMap this
           ∧ logger this' = logger this ++ [(LogWarn, unknown_widget_message widgetName)].
Proof.
  unfold _registerTabTitleWidget, bind, gets. simpl.
  case_bool_decide as Hin.
  - rewrite registerTabTitleWidget_loop_known by done.
    eexists. split; [reflexivity|]. simpl.
    split; [done|]. split; [apply lookup_insert_eq|done].
  - rewrite registerTabTitleWidget_loop_unknown by done.
    eexists. split; [reflexivity|]. done.
Qed.

(** C8: when the registry has no entry list for the command id,
    [_setCommandMenu] returns normally with the context unchanged; when it has
    one, every entry of the list has the flag of the menu type set to the
    given value afterwards, each entry keeping its contribution and its other
    flags, and nothing else in the context changes. *)
Theorem setCommandMenu_sets_every_entry (this : ExtensionContextImpl)
    (commandName : string) (menuType : MenuType) (on : bool) :
  match _commandToMenuEntryMap (commands this) !! commandName with
  | None => _setCommandMenu commandName menuType on this = (Normal tt, this)
  | Some entryList =>
      ∃ this' entryList',
        _setCommandMenu commandName menuType on this = (Normal tt, this')
        ∧ _commandToMenuEntryMap (commands this') !! commandName = Some entryList'
        ∧ Forall (λ entry, menu_flag menuType entry = on) entryList'
        ∧ Forall2 (λ entry entry',
                     commandContribution entry' = commandContribution entry
                     ∧ ∀ other, other ≠ menuType → menu_flag other entry' = menu_flag other entry)
            entryList entryList'
        ∧ (∀ otherCommand, otherCommand ≠ commandName →
             _commandToMenuEntryMap (commands this') !! otherCommand
             = _commandToMenuEntryMap (commands this) !! otherCommand)
        ∧ _commandToFunctionMap (commands this') = _commandToFunctionMap (commands this)
        ∧ _extensionMetadata this' = _extensionMetadata this
        ∧ tabTitleWidgetFactoryMap this' = tabTitleWidgetFactoryMap this
        ∧ logger this' = logger this
        ∧ _extensionManager this' = _extensionManager this
  end.
Proof.
  unfold _setCommandMenu, bind, gets. simpl.
  destruct (_commandToMenuEntryMap (commands this) !! commandName) as [entryList|] eqn:Hget.
  - eexists _, (set_menu_flag menuType on <$> entryList).
    split; [reflexivity|]. simpl.
    split; [apply lookup_insert_eq|].
    split.
    { apply Forall_fmap, Forall_forall. intros entry _. by destruct menuType. }
    split.
    { apply Forall2_fmap_r, Forall_Forall2_diag, Forall_forall. intros entry _.
      split; [by destruct menuType|].
      intros other Hne. by destruct menuType, other. }
    split; [|done].
    intros otherCommand Hne. by rewrite lookup_insert_ne.
  - reflexivity.
Qed.

End ExtensionContextFacts.

Section TabTitleWidgetFacts.
Import ExtensionContext ContextStatements.
Local Open Scope string_scope.
Local Open Scope list_scope.

Lemma same_widgets_refl (this : ExtensionContextImpl) : same_widgets this this.
Proof. by split. Qed.

(** The containers that the loop builds from position [index] on, when the
    factories behave: the loop ends within [fuel] steps as soon as [fuel] is
    more than the number of contributions that are left. *)
Lemma createTabTitleWidgets_loop_result (code : ExtensionCode) (this : ExtensionContextImpl)
    (terminal : EtTerminal) :
  factories_return code this →
  ∀ (fuel index : nat) (result : list ExtensionContainerElement) (host : Host),
    same_widgets (hostContext host) this →
    (length (contributes_tabTitleWidgets (_extensionMetadata this)) - index < fuel)%nat →
    ∃ new calls host',
      _createTabTitleWidgets_loop code fuel terminal index result host
      = Some (Normal (result ++ new), host')
      ∧ same_widgets (hostContext host') this
      ∧ _extensionCss <$> new
        = css <$> filter (λ contrib, is_Some (tabTitleWidgetFactoryMap this !! name contrib))
                    (drop index (contributes_tabTitleWidgets (_extensionMetadata this)))
      ∧ Forall (λ element,
                  tagName element = TAG_NAME
                  ∧ (nextElementId (renderProcess host) ≤ elementId element)%nat
                  ∧ (elementId element < nextElementId (renderProcess host'))%nat) new
      ∧ NoDup (elementId <$> new)
      ∧ (nextElementId (renderProcess host) ≤ nextElementId (renderProcess host'))%nat
      ∧ factoryCalls (renderProcess host') = factoryCalls (renderProcess host) ++ calls
      ∧ call_widget <$> calls
        = name <$> filter (λ contrib, is_Some (tabTitleWidgetFactoryMap this !! name contrib))
                     (drop index (contributes_tabTitleWidgets (_extensionMetadata this)))
      ∧ call_container <$> calls = elementId <$> new.
Proof.
  intros Hcode fuel.
  induction fuel as [|fuel IH]; intros index result host Hsame Hfuel; [lia|].
  destruct Hsame as [Hlist Hmap]. simpl. rewrite Hlist, Hmap.
  destruct (contributes_tabTitleWidgets (_extensionMetadata this) !! index)
    as [contrib|] eqn:Hcontrib.
  - pose proof (lookup_lt_Some _ _ _ Hcontrib) as Hlt.
    rewrite (drop_S _ contrib index Hcontrib).
    destruct (tabTitleWidgetFactoryMap this !! name contrib) as [factory|] eqn:Hfactory.
    + rewrite filter_cons_True by (by rewrite Hfactory).
      unfold call_factory. simpl.
      set (element := {| elementId := nextElementId (renderProcess host);
                         tagName := TAG_NAME;
                         _extensionContext := extensionName (_extensionMetadata (hostContext host));
                         _extensionCss := css contrib |}).
      destruct (Hcode (hostContext host) contrib factory (getTerminalProxy terminal)
                  {| _extensionContainerElement := element |})
        as (v & Hcompletion & Hafter).
      { by split. }
      { by eapply list_elem_of_lookup_2. }
      { exact Hfactory. }
      rewrite Hcompletion.
      match goal with
      | |- context [_createTabTitleWidgets_loop code fuel terminal (S index) _ ?h] =>
          destruct (IH (S index) (result ++ [element]) h) as
            (new & calls & host' & Hrun & Hsame' & Hcss & Hnew & Hdup & Hnext & Hcalls
             & Hnames & Hcontainers)
      end.
      { exact Hafter. }
      { lia. }
      simpl in Hnew, Hnext, Hcalls.
      exists (element :: new),
        ({| call_widget := name contrib; call_terminal := getTerminalProxy terminal;
            call_container := elementId element |} :: calls), host'.
      split; [by rewrite Hrun, <- app_assoc|].
      split; [exact Hsame'|].
      split; [by rewrite !fmap_cons, Hcss|].
      split.
      { constructor.
        - simpl. split; [done|]. lia.
        - eapply Forall_impl; [exact Hnew|]. simpl. intros e (? & ? & ?).
          split; [done|]. lia. }
      split.
      { rewrite fmap_cons. constructor; [|exact Hdup].
        intros Hin. apply list_elem_of_fmap in Hin as (e & Hid & He).
        rewrite Forall_forall in Hnew. destruct (Hnew e He) as (_ & Hge & _).
        rewrite <- Hid in Hge. unfold element in Hge. simpl in Hge. lia. }
      split; [lia|].
      split; [by rewrite Hcalls, <- app_assoc|].
      split; [by rewrite !fmap_cons, Hnames|].
      by rewrite !fmap_cons, Hcontainers.
    + rewrite filter_cons_False by (rewrite Hfactory; by intros [? ?]).
      apply IH; [by split|lia].
  - apply lookup_ge_None in Hcontrib. rewrite drop_ge by done.
    exists [], [], host. rewrite !app_nil_r. simpl.
    repeat split; try done; constructor.
Qed.

(** C4 (as amended): when the factories that are registered for the
    metadata's tab title widgets return and leave the list of contributions
    and the factory map alone, [_createTabTitleWidgets] returns (the loop ends
    as soon as it has one step more than there are contributions) exactly one
    container for each contribution of the metadata whose name has a
    registered factory, in the order of the metadata: the containers carry
    the css of those contributions and are pairwise distinct new elements,
    and the factories were called once each, in that order, with their own
    container.  Contributions without a factory give nothing and no error. *)
Theorem createTabTitleWidgets_one_container_per_registered_widget
    (code : ExtensionCode) (this : ExtensionContextImpl) (terminal : EtTerminal)
    (rp : RenderProcess) (fuel : nat) :
  factories_return code this →
  (length (contributes_tabTitleWidgets (_extensionMetadata this)) < fuel)%nat →
  ∃ result host',
    _createTabTitleWidgets code fuel terminal {| hostContext := this; renderProcess := rp |}
    = Some (Normal result, host')
    ∧ length result = length (registered_widgets this)
    ∧ _extensionCss <$> result = css <$> registered_widgets this
    ∧ Forall (λ element,
                tagName element = TAG_NAME ∧ (nextElementId rp ≤ elementId element)%nat)
        result
    ∧ NoDup (elementId <$> result)
    ∧ call_widget <$> drop (length (factoryCalls rp)) (factoryCalls (renderProcess host'))
        = name <$> registered_widgets this
    ∧ call_container <$> drop (length (factoryCalls rp)) (factoryCalls (renderProcess host'))
        = elementId <$> result.
Proof.
  intros Hcode Hfuel.
  destruct (createTabTitleWidgets_loop_result code this terminal Hcode fuel 0 []
              {| hostContext := this; renderProcess := rp |})
    as (new & calls & host' & Hrun & _ & Hcss & Hnew & Hdup & _ & Hcalls & Hnames
        & Hcontainers).
  { apply same_widgets_refl. }
  { simpl. lia. }
  rewrite drop_0 in Hcss, Hnames. fold (registered_widgets this) in Hcss, Hnames.
  simpl in Hrun, Hnew, Hcalls.
  exists new, host'. split; [exact Hrun|].
  split.
  { rewrite <- (length_fmap _extensionCss new), Hcss. by rewrite length_fmap. }
  split; [exact Hcss|].
  split.
  { eapply Forall_impl; [exact Hnew|]. simpl. by intros e (? & ? & ?). }
  split; [exact Hdup|].
  rewrite Hcalls, drop_app_length. by split.
Qed.

End TabTitleWidgetFacts.

Section TabTitleWidgetExamples.
Import ExtensionContext ContextStatements.
Local Open Scope string_scope.
Local Open Scope list_scope.

Lemma building_code_returns (this : ExtensionContextImpl) :
  factories_return building_code this.
Proof.
  intros during contrib factory proxy widget Hsame _ _.
  exists Js.VUndefined. by split.
Qed.

(** Two contributions of which the first has a factory, and an extension
    whose factory builds two elements of its own: one container, for the
    first contribution. *)
Lemma createTabTitleWidgets_one_container_per_registered_widget_witness :
  factories_return building_code (context_of [] [widget_a; widget_b] {[ "a" := 0 ]})
  ∧ (length (contributes_tabTitleWidgets
               (_extensionMetadata (context_of [] [widget_a; widget_b] {[ "a" := 0 ]}))) < 3)%nat
  ∧ ∃ result host',
      _createTabTitleWidgets building_code 3 7
        {| hostContext := context_of [] [widget_a; widget_b] {[ "a" := 0 ]};
           renderProcess := empty_document |}
      = Some (Normal result, host')
      ∧ length result = length (registered_widgets (context_of [] [widget_a; widget_b] {[ "a" := 0 ]}))
      ∧ _extensionCss <$> result
        = css <$> registered_widgets (context_of [] [widget_a; widget_b] {[ "a" := 0 ]})
      ∧ Forall (λ element, tagName element = TAG_NAME
                           ∧ (nextElementId empty_document ≤ elementId element)%nat) result
      ∧ NoDup (elementId <$> result)
      ∧ call_widget <$> drop (length (factoryCalls empty_document))
                          (factoryCalls (renderProcess host'))
        = name <$> registered_widgets (context_of [] [widget_a; widget_b] {[ "a" := 0 ]})
      ∧ call_container <$> drop (length (factoryCalls empty_document))
                             (factoryCalls (renderProcess host'))
        = elementId <$> result.
Proof.
  split; [apply building_code_returns|].
  split; [simpl; lia|].
  apply (createTabTitleWidgets_one_container_per_registered_widget building_code
           (context_of [] [widget_a; widget_b] {[ "a" := 0 ]}) 7 empty_document 3).
  - apply building_code_returns.
  - simpl. lia.
Defined.

Example createTabTitleWidgets_building_code :
  _createTabTitleWidgets building_code 3 7
    {| hostContext := context_of [] [widget_a; widget_b] {[ "a" := 0 ]};
       renderProcess := empty_document |}
  = Some (Normal [ {| elementId := 0; tagName := TAG_NAME; _extensionContext := "ext";
                      _extensionCss := Js.VStr "a.css" |} ],
          {| hostContext := context_of [] [widget_a; widget_b] {[ "a" := 0 ]};
             renderProcess :=
               {| nextElementId := 3;
                  factoryCalls := [ {| call_widget := "a"; call_terminal := getTerminalProxy 7;
                                       call_container := 0 |} ] |} |}).
Proof. vm_compute. reflexivity. Qed.

(** A factory that throws: the exception leaves [_createTabTitleWidgets],
    which returns no list.  And a factory that registers a factory for the
    second contribution while the loop runs: the loop finds it, and the list
    has a container for a contribution that had no factory when
    [_createTabTitleWidgets] was called. *)
Lemma createTabTitleWidgets_at_the_mercy_of_factories :
  ¬ one_container_per_registered_widget throwing_code
      (context_of [] [widget_a; widget_b] {[ "a" := 0 ]}) 7 empty_document
  ∧ ¬ one_container_per_registered_widget registering_code
        (context_of [] [widget_a; widget_b] {[ "a" := 0 ]}) 7 empty_document.
Proof.
  split.
  - intros (fuel & result & host' & Hrun & _).
    destruct fuel as [|fuel]; vm_compute in Hrun; discriminate Hrun.
  - intros (fuel & result & host' & Hrun & Hcss).
    destruct fuel as [|[|[|fuel]]]; vm_compute in Hrun; try discriminate Hrun.
    injection Hrun as <- _. vm_compute in Hcss. discriminate Hcss.
Qed.

Example createTabTitleWidgets_throwing_code :
  _createTabTitleWidgets throwing_code 3 7
    {| hostContext := context_of [] [widget_a; widget_b] {[ "a" := 0 ]};
       renderProcess := empty_document |}
  = Some (Throw (Js.Error "factory failed"),
          {| hostContext := context_of [] [widget_a; widget_b] {[ "a" := 0 ]};
             renderProcess :=
               {| nextElementId := 1;
                  factoryCalls := [ {| call_widget := "a"; call_terminal := getTerminalProxy 7;
                                       call_container := 0 |} ] |} |}).
Proof. vm_compute. reflexivity. Qed.

Example createTabTitleWidgets_registering_code :
  ∃ host',
    _createTabTitleWidgets registering_code 3 7
      {| hostContext := context_of [] [widget_a; widget_b] {[ "a" := 0 ]};
         renderProcess := empty_document |}
    = Some (Normal [ {| elementId := 0; tagName := TAG_NAME; _extensionContext := "ext";
                        _extensionCss := Js.VStr "a.css" |};
                     {| elementId := 1; tagName := TAG_NAME; _extensionContext := "ext";
                        _extensionCss := Js.VStr "b.css" |} ],
            host')
    ∧ registered_widgets (context_of [] [widget_a; widget_b] {[ "a" := 0 ]}) = [widget_a].
Proof. eexists. split; vm_compute; reflexivity. Qed.

End TabTitleWidgetExamples.

Section RegistrationFacts.
Import ExtensionContext ContextStatements.
Local Open Scope string_scope.
Local Open Scope list_scope.
Variable commandFunctionOf : ExtensionCommandContribution → CommandFunction.

Lemma same_contribution_refl c : same_contribution c c = true.
Proof. apply Nat.eqb_refl. Qed.

Lemma registerCommandContribution_state this c :
  snd (_registerCommandContribution commandFunctionOf c this) = registered commandFunctionOf this c.
Proof.
  unfold _registerCommandContribution, registered, entry_of, bind, push_contribution, on_commands, zoom,
    registerCommandContribution, commandRegistrationChanged, modify, ret. simpl.
  unfold set_extensionManager, set_commands, set_contributes_commands. simpl.
  rewrite fmap_app. reflexivity.
Qed.

Lemma registerCommandContribution_normal this c :
  ∃ d, _registerCommandContribution commandFunctionOf c this = (Normal d, registered commandFunctionOf this c)
       ∧ dispose d
         = (commandRegistrationChanged ;;
            on_commands (modify (λ registry,
                 {| _commandToFunctionMap :=
                      delete (command c) (_commandToFunctionMap registry);
                    _commandToMenuEntryMap :=
                      delete (command c) (_commandToMenuEntryMap registry) |})) ;;
            splice_contribution c)%eff.
Proof.
  eexists. split.
  - unfold _registerCommandContribution, registered, entry_of, bind, push_contribution, on_commands, zoom,
      registerCommandContribution, commandRegistrationChanged, modify, ret. simpl.
    unfold set_extensionManager, set_commands, set_contributes_commands. simpl.
    rewrite fmap_app. reflexivity.
  - reflexivity.
Qed.

Lemma dispose_after_registration this c d :
  dispose d
    = (commandRegistrationChanged ;;
       on_commands (modify (λ registry,
            {| _commandToFunctionMap :=
                 delete (command c) (_commandToFunctionMap registry);
               _commandToMenuEntryMap :=
                 delete (command c) (_commandToMenuEntryMap registry) |})) ;;
       splice_contribution c)%eff →
  dispose d (registered commandFunctionOf this c)
  = (Normal tt,
     {| logger := logger this;
        commands :=
          {| _commandToFunctionMap :=
               delete (command c)
                 (<[command c := commandFunctionOf c]> (_commandToFunctionMap (commands this)));
             _commandToMenuEntryMap :=
               delete (command c)
                 (<[command c := [entry_of c]]> (_commandToMenuEntryMap (commands this))) |};
        _extensionManager :=
          {| registrationChanges :=
               registrationChanges (_extensionManager this)
               ++ [(command <$> contributes_commands (_extensionMetadata this)) ++ [command c];
                   (command <$> contributes_commands (_extensionMetadata this)) ++ [command c]] |};
        _extensionMetadata :=
          {| extensionName := extensionName (_extensionMetadata this);
             path := path (_extensionMetadata this);
             contributes_commands :=
               splice (contributes_commands (_extensionMetadata this) ++ [c])
                 (indexOf same_contribution
                    (contributes_commands (_extensionMetadata this) ++ [c]) c) 1;
             contributes_tabTitleWidgets :=
               contributes_tabTitleWidgets (_extensionMetadata this) |};
        tabTitleWidgetFactoryMap := tabTitleWidgetFactoryMap this |}).
Proof.
  intros ->.
  unfold registered, entry_of, bind, splice_contribution, on_commands, zoom,
    commandRegistrationChanged, modify, gets. simpl.
  unfold set_extensionManager, set_commands, set_contributes_commands. simpl.
  rewrite fmap_app, <- app_assoc. reflexivity.
Qed.

(** C1 (as amended): for a contribution object that is not yet in the
    metadata's command list and whose command id the registry does not know
    yet, [_registerCommandContribution] appends it to the end of the list and
    makes [getCommandFunction] of its id non-null, and [dispose] on the
    returned disposable brings the list and the registry's command ids back to
    what they were, [getCommandFunction] of the id being null again. *)
Theorem register_then_dispose_round_trip (this : ExtensionContextImpl)
    (contribution : ExtensionCommandContribution) :
  fresh_contribution this contribution →
  register_dispose_round_trip commandFunctionOf this contribution.
Proof.
  intros (Hlist & Hfun & Hmenu).
  destruct (registerCommandContribution_normal this contribution) as (d & Hreg & Hd).
  exists d, (registered commandFunctionOf this contribution). eexists.
  split; [exact Hreg|].
  split; [reflexivity|].
  split.
  { unfold getCommandFunction. simpl. by rewrite lookup_insert_eq. }
  split; [apply (dispose_after_registration this contribution d Hd)|].
  simpl.
  rewrite indexOf_pushed by (done || apply same_contribution_refl).
  rewrite splice_last.
  rewrite delete_insert_id by done.
  split; [done|]. split; [done|].
  exact Hfun.
Qed.

(** C9 (as amended): for a contribution that is not yet in the metadata's
    command list and whose command id the registry does not know yet, the
    disposer that [_registerCommandContribution] returns reverses the three
    steps of registration: after it the metadata's command list is what it
    was before the append, the registry is what it was before the
    registration, nothing else of the context has changed, and the
    registration-changed notification has been fired once more. *)
Theorem disposer_reverses_fresh_registration (this : ExtensionContextImpl)
    (contribution : ExtensionCommandContribution) :
  fresh_contribution this contribution →
  disposer_reverses_registration commandFunctionOf this contribution.
Proof.
  intros (Hlist & Hfun & Hmenu).
  destruct (registerCommandContribution_normal this contribution) as (d & Hreg & Hd).
  exists d, (registered commandFunctionOf this contribution). eexists.
  split; [exact Hreg|].
  split; [simpl; rewrite length_app; simpl; lia|].
  split; [apply (dispose_after_registration this contribution d Hd)|].
  simpl.
  rewrite indexOf_pushed by (done || apply same_contribution_refl).
  rewrite splice_last.
  rewrite !delete_insert_id by done.
  split; [done|]. split; [by destruct (commands this)|].
  split; [by destruct (_extensionMetadata this)|].
  split; [done|]. split; [done|].
  rewrite !length_app. simpl. lia.
Qed.

End RegistrationFacts.

Section RegistrationExamples.
Import ExtensionContext ContextStatements.
Local Open Scope string_scope.
Local Open Scope list_scope.

Lemma fresh_contribution_c :
  fresh_contribution (context_of [contribution_a; contribution_b] [] ∅) contribution_c.
Proof. split; [by repeat constructor|]. by split; vm_compute. Qed.

(** The example of the specification: with commands ext:a and ext:b declared,
    registering ext:c gives the list a, b, c, and disposing gives a, b. *)
Lemma register_then_dispose_round_trip_witness :
  fresh_contribution (context_of [contribution_a; contribution_b] [] ∅) contribution_c
  ∧ register_dispose_round_trip (λ _, no_op)
      (context_of [contribution_a; contribution_b] [] ∅) contribution_c.
Proof.
  split; [exact fresh_contribution_c|].
  apply (register_then_dispose_round_trip (λ _, no_op)
           (context_of [contribution_a; contribution_b] [] ∅) contribution_c).
  exact fresh_contribution_c.
Defined.

Lemma disposer_reverses_fresh_registration_witness :
  fresh_contribution (context_of [contribution_a; contribution_b] [] ∅) contribution_c
  ∧ disposer_reverses_registration (λ _, no_op)
      (context_of [contribution_a; contribution_b] [] ∅) contribution_c.
Proof.
  split; [exact fresh_contribution_c|].
  apply (disposer_reverses_fresh_registration (λ _, no_op)
           (context_of [contribution_a; contribution_b] [] ∅) contribution_c).
  exact fresh_contribution_c.
Defined.

(** Registering the object that is already first in the list and disposing
    of the registration takes out the first occurrence, not the one that was
    pushed. *)
Lemma list_after_registering_a_listed_contribution
    (this : ExtensionContextImpl) (c : ExtensionCommandContribution)
    (d : Disposable ExtensionContextImpl) (this1 this2 : ExtensionContextImpl) :
  _registerCommandContribution (λ _, no_op) c this = (Normal d, this1) →
  dispose d this1 = (Normal tt, this2) →
  contributes_commands (_extensionMetadata this2)
  = splice (contributes_commands (_extensionMetadata this) ++ [c])
      (indexOf same_contribution (contributes_commands (_extensionMetadata this) ++ [c]) c) 1.
Proof.
  intros Hreg Hdispose.
  destruct (registerCommandContribution_normal (λ _, no_op) this c) as (d' & Hreg' & Hd').
  rewrite Hreg' in Hreg. injection Hreg as Hd Hthis. subst d this1.
  rewrite (dispose_after_registration (λ _, no_op) this c d' Hd') in Hdispose.
  by injection Hdispose as <-.
Qed.

Lemma register_then_dispose_listed_contribution :
  ¬ register_dispose_round_trip (λ _, no_op)
      (context_of [contribution_a; contribution_b] [] ∅) contribution_a.
Proof.
  intros (d & this1 & this2 & Hreg & _ & _ & Hdispose & Hlist & _).
  rewrite (list_after_registering_a_listed_contribution _ _ _ _ _ Hreg Hdispose) in Hlist.
  vm_compute in Hlist. discriminate Hlist.
Qed.

(** Two inputs on which the disposer does not do what the specification
    says of it.  With the commands a, b, c listed, registering the object a
    again and disposing leaves b, c, a: the append is not undone.  And for a
    contribution that is new, the disposer has fired its notification before
    it took the contribution out: what was to be seen at the notification is
    a, b, c, the list it leaves is a, b. *)
Lemma disposer_removes_the_earlier_occurrence :
  ¬ disposer_reverses_registration (λ _, no_op)
      (context_of [contribution_a; contribution_b; contribution_c] [] ∅) contribution_a
  ∧ ¬ disposer_notifies_last (λ _, no_op)
        (context_of [contribution_a; contribution_b] [] ∅) contribution_c.
Proof.
  split.
  - intros (d & this1 & this2 & Hreg & _ & Hdispose & Hlist & _).
    rewrite (list_after_registering_a_listed_contribution _ _ _ _ _ Hreg Hdispose) in Hlist.
    vm_compute in Hlist. discriminate Hlist.
  - intros (d & this1 & this2 & Hreg & Hdispose & Hlast).
    destruct (registerCommandContribution_normal (λ _, no_op)
                (context_of [contribution_a; contribution_b] [] ∅) contribution_c)
      as (d' & Hreg' & Hd').
    rewrite Hreg' in Hreg. injection Hreg as Hd Hthis. subst d this1.
    rewrite (dispose_after_registration (λ _, no_op) _ contribution_c d' Hd') in Hdispose.
    injection Hdispose as <-.
    vm_compute in Hlast. discriminate Hlast.
Qed.

Example notification_of_the_disposer :
  ∃ disposable this1 this2,
    _registerCommandContribution (λ _, no_op) contribution_c
      (context_of [contribution_a; contribution_b] [] ∅) = (Normal disposable, this1)
    ∧ dispose disposable this1 = (Normal tt, this2)
    ∧ registrationChanges (_extensionManager this2)
      = [ ["ext:a"; "ext:b"; "ext:c"]; ["ext:a"; "ext:b"; "ext:c"] ]
    ∧ command <$> contributes_commands (_extensionMetadata this2) = ["ext:a"; "ext:b"].
Proof.
  destruct (registerCommandContribution_normal (λ _, no_op)
              (context_of [contribution_a; contribution_b] [] ∅) contribution_c)
    as (d & Hreg & Hd).
  exists d. eexists _, _. split; [exact Hreg|].
  split; [apply (dispose_after_registration (λ _, no_op) _ contribution_c d Hd)|].
  split; vm_compute; reflexivity.
Qed.

Example list_after_round_trip_of_listed_contribution :
  splice ([contribution_a; contribution_b] ++ [contribution_a])
    (indexOf same_contribution ([contribution_a; contribution_b] ++ [contribution_a])
       contribution_a) 1
  = [contribution_b; contribution_a].
Proof. reflexivity. Qed.

End RegistrationExamples.

Section WindowFacts.
Import MainWeb WindowStatements.
Local Open Scope string_scope.
Local Open Scope list_scope.
Context {M : Type} `{ExtensionManager M}.

(** What [handleExecuteCommand] does, by what [executeCommand] gives back. *)
Lemma handleExecuteCommand_outcome (msg : ExecuteCommandMessage) (w : Window M) :
  handleExecuteCommand msg w
  = let '(r, m) := executeCommand (commandName msg) (args msg) (extensionManager w) in
    let executed' := executed w ++ [(commandName msg, args msg)] in
    match r with
    | Returns v => (Normal tt, responded (uuid msg) (Plain v) None m executed' w)
    | ReturnsPromise (Fulfilled v) =>
        (Normal tt, responded (uuid msg) (Plain v) None m executed' w)
    | ReturnsPromise (Rejected e) =>
        (Normal tt, responded (uuid msg) (PromiseObject (Rejected e)) (Some e) m executed' w)
    | ReturnsPromise Pending =>
        (Suspended,
         {| extensionManager := m; sent := sent w; _log := _log w; executed := executed';
            propagationStopped := propagationStopped w; defaultPrevented := defaultPrevented w;
            result := PromiseObject Pending; exception := None |})
    | Throws e => (Normal tt, responded (uuid msg) (Plain Js.VNull) (Some e) m executed' w)
    end.
Proof.
  unfold handleExecuteCommand, bind, later, ret, modify, try_catch, call_executeCommand,
    commandResponse, gets, await, throw. simpl.
  destruct (executeCommand (commandName msg) (args msg) (extensionManager w)) as [r m].
  destruct r as [v|[v|e|]|e]; reflexivity.
Qed.

Lemma handleExecuteCommand_failure (msg : ExecuteCommandMessage) (w : Window M)
    (e : Js.exception) (m : M) :
  executeCommand (commandName msg) (args msg) (extensionManager w) = (Throws e, m)
  ∨ executeCommand (commandName msg) (args msg) (extensionManager w)
    = (ReturnsPromise (Rejected e), m) →
  ∃ w' leftover,
    handleExecuteCommand msg w = (Normal tt, w')
    ∧ sent w' = sent w ++ [{| response_uuid := uuid msg; response_result := leftover;
                               response_exception := Some e |}].
Proof.
  intros Hcall. rewrite handleExecuteCommand_outcome.
  destruct Hcall as [-> | ->]; eexists _, _; (split; [reflexivity|]); reflexivity.
Qed.

End WindowFacts.

Section WindowFailures.
Import MainWeb WindowStatements.
Local Open Scope string_scope.
Local Open Scope list_scope.

(** C2 (as amended): when [executeCommand] throws a value, or returns a
    promise that rejects with a value, and the value is not [null] or
    [undefined], [handleExecuteCommand] itself ends normally and has sent
    exactly one command response, which pairs that value with the uuid of
    the request: this for every extension manager.  And for the manager of
    the specification a command id that is not registered is such a case:
    the response carries the "not found" error. *)
Theorem handleExecuteCommand_reports_failure :
  (∀ (M : Type) (manager : ExtensionManager M) (msg : ExecuteCommandMessage) (w : Window M)
     (e : Js.exception) (m : M),
     is_error_value e = true →
     executeCommand (commandName msg) (args msg) (extensionManager w) = (Throws e, m)
     ∨ executeCommand (commandName msg) (args msg) (extensionManager w)
       = (ReturnsPromise (Rejected e), m) →
     failure_reported msg w (handleExecuteCommand msg w)
     ∧ ∃ w' leftover,
         handleExecuteCommand msg w = (Normal tt, w')
         ∧ sent w' = sent w ++ [{| response_uuid := uuid msg; response_result := leftover;
                                    response_exception := Some e |}])
  ∧ (∀ (msg : ExecuteCommandMessage) (w : Window TableManager),
       table (extensionManager w) !! commandName msg = None →
       failure_reported msg w (handleExecuteCommand msg w)
       ∧ ∃ w' leftover,
           handleExecuteCommand msg w = (Normal tt, w')
           ∧ sent w' = sent w ++ [{| response_uuid := uuid msg; response_result := leftover;
                                      response_exception := Some (not_found (commandName msg)) |}]).
Proof.
  assert (Hgeneral : ∀ (M : Type) (manager : ExtensionManager M) (msg : ExecuteCommandMessage)
            (w : Window M) (e : Js.exception) (m : M),
            is_error_value e = true →
            executeCommand (commandName msg) (args msg) (extensionManager w) = (Throws e, m)
            ∨ executeCommand (commandName msg) (args msg) (extensionManager w)
              = (ReturnsPromise (Rejected e), m) →
            failure_reported msg w (handleExecuteCommand msg w)
            ∧ ∃ w' leftover,
                handleExecuteCommand msg w = (Normal tt, w')
                ∧ sent w' = sent w ++ [{| response_uuid := uuid msg;
                                           response_result := leftover;
                                           response_exception := Some e |}]).
  { intros M manager msg w e m Herror Hcall.
    destruct (handleExecuteCommand_failure msg w e m Hcall) as (w' & leftover & Hrun & Hsent).
    split; [|by exists w', leftover].
    exists leftover, e. rewrite Hrun. by repeat split. }
  split; [exact Hgeneral|].
  intros msg w Hmissing.
  apply (Hgeneral TableManager _ msg w (not_found (commandName msg)) (extensionManager w)).
  - reflexivity.
  - left. unfold executeCommand, TableManager_ExtensionManager.
    case_match eqn:Hfound; [|reflexivity].
    discriminate (eq_trans (eq_sym Hfound) Hmissing).
Qed.

End WindowFailures.

Section StringFacts.
Import MainWeb WindowStatements.
Local Open Scope string_scope.
Local Open Scope list_scope.

Lemma append_assoc (a b c : string) : (a +:+ b) +:+ c = a +:+ (b +:+ c).
Proof.
  induction a as [|x a IH]; [reflexivity|].
  change (String x ((a +:+ b) +:+ c) = String x (a +:+ (b +:+ c))). by f_equal.
Qed.

Lemma append_empty_r (a : string) : a +:+ "" = a.
Proof.
  induction a as [|x a IH]; [reflexivity|].
  change (String x (a +:+ "") = String x a). by f_equal.
Qed.

Lemma occurs_in_wrap (needle text before after : string) :
  occurs_in needle text → occurs_in needle (before +:+ text +:+ after).
Proof.
  intros (b & a & ->). exists (before +:+ b), (a +:+ after).
  by rewrite !append_assoc.
Qed.

Lemma occurs_in_join (separator x : string) (l : list string) :
  x ∈ l → occurs_in x (join separator l).
Proof.
  induction l as [|y l IH]; intros Hin; [by apply elem_of_nil in Hin|].
  destruct l as [|z l].
  - apply list_elem_of_singleton in Hin as ->. simpl.
    exists "", "". simpl. by rewrite append_empty_r.
  - change (join separator (y :: z :: l)) with (y +:+ separator +:+ join separator (z :: l)).
    apply elem_of_cons in Hin as [->|Hin].
    + exists "", (separator +:+ join separator (z :: l)). done.
    + apply IH in Hin. destruct Hin as (b & a & ->).
      exists (y +:+ separator +:+ b), a. by rewrite !append_assoc.
Qed.

End StringFacts.

Section KeyCaptureFacts.
Import MainWeb WindowStatements.
Local Open Scope string_scope.
Local Open Scope list_scope.
Context {M : Type} `{ExtensionManager M}.

(** C3: when the commands bound to the key event and enabled are a non-empty
    list, [handleKeyCapture] calls [executeCommand] exactly once, on the first
    of them; when there is more than one, it logs one warning before, and the
    warning's text contains the id of every command of the list. *)
Theorem handleKeyCapture_runs_first_match_and_names_conflicts
    (keybindingsManager : KeybindingsManagerImpl) (ev : KeyboardEvent) (w : Window M)
    (mapping : TermKeybindingsMapping)
    (first : ExtensionContext.ExtensionCommandContribution)
    (others : list ExtensionContext.ExtensionCommandContribution) :
  getKeybindingsMapping keybindingsManager = Some mapping →
  (let m := updateExtensionWindowStateFromEvent ev (extensionManager w) in
   queryCommands
     {| commands := Some (mapping ev);
        categories := if isInputFieldFocus m then Some ["application"; "window"] else None;
        when := true |} m) = first :: others →
  let w' := snd (handleKeyCapture keybindingsManager ev w) in
  executed w' = executed w ++ [(ExtensionContext.command first, Js.VUndefined)]
  ∧ _log w'
    = _log w ++ match others with
                | [] => []
                | _ :: _ => [(ExtensionContext.LogWarn, conflict_message (first :: others))]
                end
  ∧ Forall (λ c, occurs_in (ExtensionContext.command c) (conflict_message (first :: others)))
      (first :: others).
Proof.
  intros Hmapping Hquery. simpl in Hquery.
  split; [|split].
  - unfold handleKeyCapture, bind, gets, modify, ret. rewrite Hmapping. simpl.
    rewrite Hquery. simpl.
    unfold call_executeCommand, _log_warn, stopPropagation, preventDefault, modify, ret.
    destruct others as [|second others]; simpl;
      destruct (executeCommand _ _ _) as [[v|p|e] m']; reflexivity.
  - unfold handleKeyCapture, bind, gets, modify, ret. rewrite Hmapping. simpl.
    rewrite Hquery. simpl.
    unfold call_executeCommand, _log_warn, stopPropagation, preventDefault, modify, ret.
    destruct others as [|second others]; simpl;
      destruct (executeCommand _ _ _) as [[v|p|e] m']; simpl;
      try reflexivity; by rewrite app_nil_r.
  - apply Forall_forall. intros c Hc. unfold conflict_message.
    apply (occurs_in_wrap _ _ "Commands " " have conflicting keybindings.").
    apply occurs_in_join. by apply list_elem_of_fmap_2.
Qed.

End KeyCaptureFacts.

Section WindowExamples.
Import MainWeb WindowStatements.
Local Open Scope string_scope.
Local Open Scope list_scope.

(** A request for a command that the manager does not have: the response
    carries the "not found" error and the uuid of the request. *)
Lemma handleExecuteCommand_reports_failure_witness :
  table (extensionManager (empty_window two_commands)) !! commandName missing_command_request
  = None
  ∧ failure_reported missing_command_request (empty_window two_commands)
      (handleExecuteCommand missing_command_request (empty_window two_commands))
  ∧ ∃ w' leftover,
      handleExecuteCommand missing_command_request (empty_window two_commands)
      = (Normal tt, w')
      ∧ sent w' = sent (empty_window two_commands)
                  ++ [{| response_uuid := uuid missing_command_request;
                         response_result := leftover;
                         response_exception :=
                           Some (not_found (commandName missing_command_request)) |}].
Proof.
  split; [reflexivity|].
  apply (proj2 handleExecuteCommand_reports_failure missing_command_request
           (empty_window two_commands)).
  reflexivity.
Defined.

(** A command whose promise is rejected without a reason: the response that
    is sent has [undefined] where the error should be, which is what a
    response without an error has there too. *)
Lemma handleExecuteCommand_rejection_without_reason :
  ¬ failure_reported rejecting_request (empty_window rejecting_manager)
      (handleExecuteCommand rejecting_request (empty_window rejecting_manager)).
Proof.
  intros (leftover & ex & _ & Hsent & Herror).
  vm_compute in Hsent. injection Hsent as _ <-.
  vm_compute in Herror. discriminate Herror.
Qed.

Example handleExecuteCommand_rejecting_request :
  sent (snd (handleExecuteCommand rejecting_request (empty_window rejecting_manager)))
  = [{| response_uuid := "request-3";
        response_result := PromiseObject (Rejected (Js.Thrown Js.VUndefined));
        response_exception := Some (Js.Thrown Js.VUndefined) |}].
Proof. vm_compute. reflexivity. Qed.

Lemma handleKeyCapture_runs_first_match_and_names_conflicts_witness :
  let w' := snd (handleKeyCapture conflicting_bindings key_c (empty_window two_commands)) in
  executed w' = [("ext:copy", Js.VUndefined)]
  ∧ _log w' = [(ExtensionContext.LogWarn,
                "Commands ext:copy, ext:paste have conflicting keybindings.")]
  ∧ Forall (λ c, occurs_in (ExtensionContext.command c)
                   "Commands ext:copy, ext:paste have conflicting keybindings.")
      [copy_contribution; paste_contribution].
Proof.
  apply (handleKeyCapture_runs_first_match_and_names_conflicts conflicting_bindings key_c
           (empty_window two_commands) (λ _, ["ext:copy"; "ext:paste"])
           copy_contribution [paste_contribution]).
  - reflexivity.
  - reflexivity.
Defined.

End WindowExamples.

Section FieldFacts.
Import MainConfig ConfigStatements.
Local Open Scope string_scope.
Local Open Scope list_scope.
Implicit Types (object : gmap string Js.value) (key other : string) (v : Js.value).

Lemma get_set_field_eq object key v : Js.get (set_field object key v) key = v.
Proof. unfold Js.get, set_field. by rewrite lookup_insert_eq. Qed.

Lemma lookup_set_field_ne object key other v :
  key ≠ other → set_field object key v !! other = object !! other.
Proof. intros Hne. unfold set_field. by rewrite lookup_insert_ne. Qed.

Lemma get_set_field_ne object key other v :
  key ≠ other → Js.get (set_field object key v) other = Js.get object other.
Proof. intros Hne. unfold Js.get. by rewrite lookup_set_field_ne. Qed.

Lemma get_sanitizeField_eq object key v :
  Js.get (sanitizeField object key v) key
  = if malformed v (Js.get object key) then v else Js.get object key.
Proof.
  unfold sanitizeField, malformed.
  destruct (_ || _); [apply get_set_field_eq|done].
Qed.

Lemma lookup_sanitizeField_ne object key other v :
  key ≠ other → sanitizeField object key v !! other = object !! other.
Proof.
  intros Hne. unfold sanitizeField.
  destruct (_ || _); [by apply lookup_set_field_ne|done].
Qed.

Lemma get_sanitizeField_ne object key other v :
  key ≠ other → Js.get (sanitizeField object key v) other = Js.get object other.
Proof. intros Hne. unfold Js.get. by rewrite lookup_sanitizeField_ne. Qed.

Lemma sanitizeField_well_typed object key v :
  malformed v (Js.get object key) = false → sanitizeField object key v = object.
Proof. unfold sanitizeField, malformed. by intros ->. Qed.

Lemma get_sanitizeStringEnumField_eq object key availableValues v :
  Js.get (sanitizeStringEnumField object key availableValues v) key
  = if Js.is_nullish (Js.get object key) || negb (includes availableValues (Js.get object key))
    then v else Js.get object key.
Proof.
  unfold sanitizeStringEnumField.
  destruct (Js.is_nullish _); simpl; [apply get_set_field_eq|].
  destruct (includes _ _); simpl; [done|apply get_set_field_eq].
Qed.

Lemma lookup_sanitizeStringEnumField_ne object key other availableValues v :
  key ≠ other →
  sanitizeStringEnumField object key availableValues v !! other = object !! other.
Proof.
  intros Hne. unfold sanitizeStringEnumField.
  destruct (Js.is_nullish _); [by apply lookup_set_field_ne|].
  destruct (negb _); [by apply lookup_set_field_ne|done].
Qed.

Lemma get_sanitizeStringEnumField_ne object key other availableValues v :
  key ≠ other →
  Js.get (sanitizeStringEnumField object key availableValues v) other = Js.get object other.
Proof. intros Hne. unfold Js.get. by rewrite lookup_sanitizeStringEnumField_ne. Qed.

Lemma get_reset_unless_eq accepted object key v :
  Js.get (reset_unless accepted object key v) key
  = if accepted (Js.get object key) then Js.get object key else v.
Proof.
  unfold reset_unless. destruct (accepted _); simpl; [done|apply get_set_field_eq].
Qed.

Lemma lookup_reset_unless_ne accepted object key other v :
  key ≠ other → reset_unless accepted object key v !! other = object !! other.
Proof.
  intros Hne. unfold reset_unless. destruct (negb _); [by apply lookup_set_field_ne|done].
Qed.

Lemma get_reset_unless_ne accepted object key other v :
  key ≠ other → Js.get (reset_unless accepted object key v) other = Js.get object other.
Proof. intros Hne. unfold Js.get. by rewrite lookup_reset_unless_ne. Qed.

Lemma get_update_number_eq f object key :
  Js.get (update_number f object key) key
  = match Js.get object key with
    | Js.VNum n => Js.VNum (f n)
    | v => v
    end.
Proof.
  unfold update_number.
  destruct (Js.get object key) eqn:Hget; try (by rewrite Hget).
  apply get_set_field_eq.
Qed.

Lemma lookup_update_number_ne f object key other :
  key ≠ other → update_number f object key !! other = object !! other.
Proof.
  intros Hne. unfold update_number.
  destruct (Js.get object key); try done. by apply lookup_set_field_ne.
Qed.

Lemma get_update_number_ne f object key other :
  key ≠ other → Js.get (update_number f object key) other = Js.get object other.
Proof. intros Hne. unfold Js.get. by rewrite lookup_update_number_ne. Qed.

(** After [sanitizeField] with a number as default the field holds a number. *)
Lemma sanitizeField_number object key (d : Js.number) :
  Js.get (sanitizeField object key (Js.VNum d)) key = Js.VNum (number_or d (Js.get object key)).
Proof.
  rewrite get_sanitizeField_eq. unfold malformed.
  destruct (Js.get object key); simpl; try done.
Qed.

Lemma malformed_includes availableValues (d : string) v :
  malformed (Js.VStr d) v = true →
  Js.is_nullish v || negb (includes availableValues v) = true.
Proof. destruct v; simpl; try done. Qed.

End FieldFacts.

(** Reading one field of the object that a chain of sanitation statements
    leaves: statements on other fields are skipped, those on the field itself
    are applied. *)
Ltac read_field :=
  repeat first
    [ rewrite get_sanitizeField_ne by done
    | rewrite get_sanitizeStringEnumField_ne by done
    | rewrite get_reset_unless_ne by done
    | rewrite get_update_number_ne by done
    | rewrite get_set_field_ne by done
    | rewrite get_set_field_eq
    | rewrite get_update_number_eq
    | rewrite get_reset_unless_eq
    | rewrite get_sanitizeStringEnumField_eq
    | rewrite get_sanitizeField_eq ].

(** The same for a field that no statement of the chain is about. *)
Ltac skip_statements :=
  repeat first
    [ rewrite lookup_sanitizeField_ne by congruence
    | rewrite lookup_sanitizeStringEnumField_ne by congruence
    | rewrite lookup_reset_unless_ne by congruence
    | rewrite lookup_update_number_ne by congruence
    | rewrite lookup_set_field_ne by congruence ].

Section ClampFacts.
Import MainConfig ConfigStatements.

Lemma Qle_bool_false (x y : Q) : Qle_bool x y = false → (y < x)%Q.
Proof.
  intros Hxy. apply Qnot_le_lt. intros Hle.
  apply Qle_bool_iff in Hle. congruence.
Qed.

Lemma Qle_bool_true (x y : Q) : Qle_bool x y = true → (x <= y)%Q.
Proof. apply Qle_bool_iff. Qed.

(** The cases of a comparison of the program, as inequalities. *)
Ltac compare_numbers :=
  repeat match goal with
         | |- context [Qle_bool ?a ?b] =>
             let H := fresh "Hle" in
             destruct (Qle_bool a b) eqn:H; simpl;
             [apply Qle_bool_true in H|apply Qle_bool_false in H]
         end.

Ltac clamped_here :=
  split; [split; lra|];
  first [ reflexivity
        | eexists; split; [reflexivity|]; repeat split; intros; lra ].

Lemma clamp_terminalFontSize_clamped (x : Js.number) :
  x ≠ Js.NaN →
  Js.in_range 4 1024 (clamp_terminalFontSize x)
  ∧ clamped 4 1024 x (clamp_terminalFontSize x).
Proof.
  intros Hnan.
  unfold clamp_terminalFontSize, Js.Math_max, Js.Math_min, n1024, n4.
  destruct x as [|x| |]; simpl; [| | |done]; compare_numbers; clamped_here.
Qed.

Lemma clamp_uiScalePercent_clamped (x : Js.number) :
  Js.in_range 5 500 (clamp_uiScalePercent x)
  ∧ clamped 5 500 (truthy_or n100 x) (clamp_uiScalePercent x).
Proof.
  unfold clamp_uiScalePercent, truthy_or, Js.Math_max, Js.Math_min, n500, n5, n100.
  destruct x as [|x| |]; simpl; try clamped_here.
  destruct (negb (Qeq_bool x 0)); simpl; compare_numbers; clamped_here.
Qed.

Lemma clamp_windowBackgroundTransparencyPercent_clamped (x : Js.number) :
  x ≠ Js.NaN →
  Js.in_range 0 100 (clamp_windowBackgroundTransparencyPercent x)
  ∧ clamped 0 100 x (clamp_windowBackgroundTransparencyPercent x).
Proof.
  intros Hnan.
  unfold clamp_windowBackgroundTransparencyPercent, Js.Math_max, Js.Math_min, n100, n0.
  destruct x as [|x| |]; simpl; [| | |done]; compare_numbers; clamped_here.
Qed.

Lemma number_or_not_NaN (d : Js.number) (v : Js.value) :
  d ≠ Js.NaN → is_NaN v = false → number_or d v ≠ Js.NaN.
Proof. intros Hd Hv. destruct v as [| | |[]| | |]; simpl; try done. Qed.

End ClampFacts.

Section GeneralConfigFacts.
Import MainConfig ConfigStatements.
Local Open Scope string_scope.
Local Open Scope list_scope.
Variable platform : string.
Variable AllLogicalKeybindingsNames : list string.
Variable FALLBACK_TERMINAL_THEME : string.
Variable FALLBACK_SYNTAX_THEME : string.
Variable getTheme : string → option ThemeInfo.

#[local] Abbreviation sanitize :=
  (sanitizeGeneralConfig platform AllLogicalKeybindingsNames
     FALLBACK_TERMINAL_THEME FALLBACK_SYNTAX_THEME getTheme).

Lemma generalConfig_terminalFontSize stored availableFonts :
  Js.get (sanitize stored availableFonts) "terminalFontSize"
  = Js.VNum (clamp_terminalFontSize
               (number_or (Js.Finite 13) (Js.get (default ∅ stored) "terminalFontSize"))).
Proof.
  unfold sanitizeGeneralConfig. cbv zeta. read_field. unfold num.
  rewrite <- get_sanitizeField_eq, sanitizeField_number. reflexivity.
Qed.

Lemma generalConfig_uiScalePercent stored availableFonts :
  Js.get (sanitize stored availableFonts) "uiScalePercent"
  = Js.VNum (clamp_uiScalePercent
               (number_or (Js.Finite 100) (Js.get (default ∅ stored) "uiScalePercent"))).
Proof.
  unfold sanitizeGeneralConfig. cbv zeta. read_field. unfold num.
  rewrite <- get_sanitizeField_eq, sanitizeField_number. reflexivity.
Qed.

Lemma generalConfig_windowBackgroundTransparencyPercent stored availableFonts :
  Js.get (sanitize stored availableFonts) "windowBackgroundTransparencyPercent"
  = Js.VNum (clamp_windowBackgroundTransparencyPercent
               (number_or (Js.Finite 50)
                  (Js.get (default ∅ stored) "windowBackgroundTransparencyPercent"))).
Proof.
  unfold sanitizeGeneralConfig. cbv zeta. read_field. unfold num.
  rewrite <- get_sanitizeField_eq, sanitizeField_number. reflexivity.
Qed.

Lemma generalConfig_defaults stored availableFonts :
  Forall (λ rule,
            breaks rule (Js.get (default ∅ stored) (field rule)) = true →
            Js.get (sanitize stored availableFonts) (field rule) = default_value rule)
    (generalConfigRules platform FALLBACK_TERMINAL_THEME FALLBACK_SYNTAX_THEME).
Proof.
  unfold generalConfigRules.
  repeat apply Forall_cons_2; try apply Forall_nil_2;
    unfold breaks, plain, enum, malformed; simpl;
    unfold sanitizeGeneralConfig; cbv zeta; read_field;
    unfold malformed;
    match goal with
    | |- context [Js.get (default ∅ ?st) ?key] => generalize (Js.get (default ∅ st) key)
    end;
    intros v; destruct v; simpl;
    intros Hbreaks; rewrite ?Hbreaks; try done;
    try (by repeat case_match).
Qed.

Lemma generalConfig_other_fields stored availableFonts other :
  other ∉ field <$> generalConfigRules platform FALLBACK_TERMINAL_THEME FALLBACK_SYNTAX_THEME →
  sanitize stored availableFonts !! other = default ∅ stored !! other.
Proof.
  intros Hother. unfold generalConfigRules in Hother. simpl in Hother.
  repeat (apply not_elem_of_cons in Hother as [? Hother]).
  unfold sanitizeGeneralConfig. cbv zeta. skip_statements. reflexivity.
Qed.

(** C10 (as amended): for every stored general configuration in which
    terminalFontSize and windowBackgroundTransparencyPercent are not NaN,
    after [sanitizeGeneralConfig] the three numeric fields are numbers
    clamped into their ranges.  terminalFontSize lies in [4, 1024], and is
    the stored number (13 when there was none) if that lies in the range and
    the bound it is beyond otherwise; in the same way
    windowBackgroundTransparencyPercent (50 when there was none) lies in
    [0, 100]; and uiScalePercent lies in [5, 500] and is the clamped stored
    number, 100 taking the place of a missing number, of zero and of NaN. *)
Theorem sanitizeGeneralConfig_clamps_numbers (stored : option (gmap string Js.value))
    (availableFonts : list FontInfo) :
  is_NaN (Js.get (default ∅ stored) "terminalFontSize") = false →
  is_NaN (Js.get (default ∅ stored) "windowBackgroundTransparencyPercent") = false →
  numbers_in_range (sanitize stored availableFonts)
  ∧ ∃ terminalFontSize uiScalePercent windowBackgroundTransparencyPercent,
      Js.get (sanitize stored availableFonts) "terminalFontSize" = Js.VNum terminalFontSize
      ∧ clamped 4 1024
          (number_or (Js.Finite 13) (Js.get (default ∅ stored) "terminalFontSize"))
          terminalFontSize
      ∧ Js.get (sanitize stored availableFonts) "uiScalePercent" = Js.VNum uiScalePercent
      ∧ clamped 5 500
          (truthy_or (Js.Finite 100)
             (number_or (Js.Finite 100) (Js.get (default ∅ stored) "uiScalePercent")))
          uiScalePercent
      ∧ Js.get (sanitize stored availableFonts) "windowBackgroundTransparencyPercent"
        = Js.VNum windowBackgroundTransparencyPercent
      ∧ clamped 0 100
          (number_or (Js.Finite 50)
             (Js.get (default ∅ stored) "windowBackgroundTransparencyPercent"))
          windowBackgroundTransparencyPercent.
Proof.
  intros Hsize Htransparency.
  pose proof (clamp_terminalFontSize_clamped _
                (number_or_not_NaN (Js.Finite 13) _ ltac:(done) Hsize)) as [Hr1 Hc1].
  pose proof (clamp_uiScalePercent_clamped
                (number_or (Js.Finite 100) (Js.get (default ∅ stored) "uiScalePercent")))
    as [Hr2 Hc2].
  pose proof (clamp_windowBackgroundTransparencyPercent_clamped _
                (number_or_not_NaN (Js.Finite 50) _ ltac:(done) Htransparency)) as [Hr3 Hc3].
  split.
  - eexists _, _, _.
    split; [apply generalConfig_terminalFontSize|]. split; [exact Hr1|].
    split; [apply generalConfig_uiScalePercent|]. split; [exact Hr2|].
    split; [apply generalConfig_windowBackgroundTransparencyPercent|]. exact Hr3.
  - eexists _, _, _.
    split; [apply generalConfig_terminalFontSize|]. split; [exact Hc1|].
    split; [apply generalConfig_uiScalePercent|]. split; [exact Hc2|].
    split; [apply generalConfig_windowBackgroundTransparencyPercent|]. exact Hc3.
Qed.

End GeneralConfigFacts.

Section ClampExamples.
Import MainConfig ConfigStatements.
Local Open Scope string_scope.
Local Open Scope list_scope.

(** The corrupt configuration has 4000, 0 and -3 in the three fields: they
    become 1024, 100 and 0. *)
Lemma sanitizeGeneralConfig_clamps_numbers_witness :
  is_NaN (Js.get (default ∅ (Some corrupt_general_config)) "terminalFontSize") = false
  ∧ is_NaN (Js.get (default ∅ (Some corrupt_general_config))
              "windowBackgroundTransparencyPercent") = false
  ∧ numbers_in_range
      (sanitizeGeneralConfig "linux" ["pc-style"; "macos-style"] "default-terminal"
         "default-syntax" (λ _, None) (Some corrupt_general_config) []).
Proof.
  split; [reflexivity|]. split; [reflexivity|].
  apply (sanitizeGeneralConfig_clamps_numbers "linux" ["pc-style"; "macos-style"]
           "default-terminal" "default-syntax" (λ _, None) (Some corrupt_general_config) []);
    reflexivity.
Defined.

(** A NaN in terminalFontSize or in windowBackgroundTransparencyPercent
    goes through [Math.min] and [Math.max] as it is: the field is NaN
    afterwards, which lies in no range. *)
Lemma sanitizeGeneralConfig_keeps_NaN :
  ¬ numbers_in_range
      (sanitizeGeneralConfig "linux" ["pc-style"; "macos-style"] "default-terminal"
         "default-syntax" (λ _, None) (Some nan_font_size) [])
  ∧ ¬ numbers_in_range
        (sanitizeGeneralConfig "linux" ["pc-style"; "macos-style"] "default-terminal"
           "default-syntax" (λ _, None) (Some nan_transparency) []).
Proof.
  split.
  - intros (a & b & c & Ha & Hrange & _).
    vm_compute in Ha. injection Ha as <-. exact Hrange.
  - intros (a & b & c & _ & _ & _ & _ & Hc & Hrange).
    vm_compute in Hc. injection Hc as <-. exact Hrange.
Qed.

Example sanitizeGeneralConfig_NaN_fields :
  Js.get (sanitizeGeneralConfig "linux" ["pc-style"; "macos-style"] "default-terminal"
            "default-syntax" (λ _, None) (Some nan_font_size) []) "terminalFontSize"
  = Js.VNum Js.NaN
  ∧ Js.get (sanitizeGeneralConfig "linux" ["pc-style"; "macos-style"] "default-terminal"
              "default-syntax" (λ _, None) (Some nan_transparency) [])
      "windowBackgroundTransparencyPercent"
    = Js.VNum Js.NaN
  ∧ Js.get (sanitizeGeneralConfig "linux" ["pc-style"; "macos-style"] "default-terminal"
              "default-syntax" (λ _, None) (Some nan_scale) []) "uiScalePercent"
    = num 100.
Proof. vm_compute. repeat split. Qed.

End ClampExamples.

Section FieldwiseFacts.
Import MainConfig ConfigStatements MainConfigRest ConfigStatementsMore.
Local Open Scope string_scope.
Local Open Scope list_scope.
Variable platform : string.
Variable AllLogicalKeybindingsNames : list string.
Variable FALLBACK_TERMINAL_THEME : string.
Variable FALLBACK_SYNTAX_THEME : string.
Variable getTheme : string → option ThemeInfo.
Variable availableFonts : list FontInfo.

#[local] Abbreviation sanitize :=
  (sanitizeGeneralConfig platform AllLogicalKeybindingsNames
     FALLBACK_TERMINAL_THEME FALLBACK_SYNTAX_THEME getTheme).
#[local] Abbreviation transformers :=
  (generalConfigTransformers platform AllLogicalKeybindingsNames
     FALLBACK_TERMINAL_THEME FALLBACK_SYNTAX_THEME getTheme availableFonts).
#[local] Abbreviation transformer :=
  (transformer_of platform AllLogicalKeybindingsNames
     FALLBACK_TERMINAL_THEME FALLBACK_SYNTAX_THEME getTheme availableFonts).
#[local] Abbreviation rules :=
  (generalConfigRules platform FALLBACK_TERMINAL_THEME FALLBACK_SYNTAX_THEME).

Lemma assoc_None {A} (key : string) (table : list (string * A)) :
  key ∉ table.*1 → assoc key table = None.
Proof.
  induction table as [|[k a] rest IH]; intros Hkey; simpl; [done|].
  simpl in Hkey. apply not_elem_of_cons in Hkey as [Hne Hrest].
  destruct (String.eqb_spec k key) as [->|_]; [done|]. by apply IH.
Qed.

Lemma transformers_keys : transformers.*1 = field <$> rules.
Proof. reflexivity. Qed.

Lemma generalConfig_fieldwise_listed stored :
  Forall (λ entry, Js.get (sanitize stored availableFonts) entry.1
                   = entry.2 (Js.get (default ∅ stored) entry.1))
    transformers.
Proof.
  unfold generalConfigTransformers.
  repeat apply Forall_cons_2; try apply Forall_nil_2;
    simpl; unfold sanitizeGeneralConfig; cbv zeta; read_field; reflexivity.
Qed.

Lemma assoc_listed {A} (key : string) (table : list (string * A)) :
  key ∈ table.*1 → ∃ a, assoc key table = Some a ∧ (key, a) ∈ table.
Proof.
  induction table as [|[k a] rest IH]; intros Hkey; simpl in *.
  - by apply elem_of_nil in Hkey.
  - destruct (String.eqb_spec k key) as [->|Hne].
    + exists a. split; [done|]. apply elem_of_cons. by left.
    + apply elem_of_cons in Hkey as [->|Hkey]; [done|].
      destruct (IH Hkey) as (a' & Hassoc & Hin). exists a'. split; [done|].
      apply elem_of_cons. by right.
Qed.

(** The fields of the sanitized configuration one by one: each is the
    value that the stored configuration has in that field, put through the
    field's transformer. *)
Lemma generalConfig_fieldwise (stored : option (gmap string Js.value))
    (key : string) :
  Js.get (sanitize stored availableFonts) key = transformer key (Js.get (default ∅ stored) key).
Proof.
  unfold transformer_of.
  destruct (decide (key ∈ transformers.*1)) as [Hin|Hout].
  - destruct (assoc_listed key transformers Hin) as (G & -> & Hentry). simpl.
    pose proof (generalConfig_fieldwise_listed stored) as Hall.
    rewrite Forall_forall in Hall. apply (Hall (key, G) Hentry).
  - rewrite (assoc_None key transformers Hout). simpl.
    unfold Js.get. f_equal.
    apply generalConfig_other_fields. by rewrite <- transformers_keys.
Qed.

End FieldwiseFacts.

Section TransformerFacts.
Import MainConfig ConfigStatements MainConfigRest ConfigStatementsMore.
Local Open Scope string_scope.
Local Open Scope list_scope.

(** Unfold the comparisons of numbers, but not those of rationals. *)
Ltac number_cases := cbv beta iota delta [Js.number_leb Js.Math_max Js.Math_min Js.number_truthy].

Lemma clamp_terminalFontSize_idempotent (x : Js.number) :
  clamp_terminalFontSize (clamp_terminalFontSize x) = clamp_terminalFontSize x.
Proof.
  unfold clamp_terminalFontSize, n1024, n4.
  destruct x as [|x| |]; try reflexivity. number_cases.
  destruct (Qle_bool 1024 x) eqn:Hhi; number_cases; [reflexivity|].
  destruct (Qle_bool x 4) eqn:Hlo; number_cases; [reflexivity|].
  by rewrite Hhi, Hlo.
Qed.

Lemma clamp_uiScalePercent_idempotent (x : Js.number) :
  clamp_uiScalePercent (clamp_uiScalePercent x) = clamp_uiScalePercent x.
Proof.
  unfold clamp_uiScalePercent, n500, n5, n100.
  destruct x as [|x| |]; try reflexivity. number_cases.
  destruct (negb (Qeq_bool x 0)) eqn:Hzero; number_cases; [|reflexivity].
  destruct (Qle_bool 5 x) eqn:Hlo; number_cases.
  - destruct (Qle_bool 500 x) eqn:Hhi; number_cases; [reflexivity|].
    by rewrite Hzero, Hlo, Hhi.
  - reflexivity.
Qed.

Lemma clamp_windowBackgroundTransparencyPercent_idempotent (x : Js.number) :
  clamp_windowBackgroundTransparencyPercent (clamp_windowBackgroundTransparencyPercent x)
  = clamp_windowBackgroundTransparencyPercent x.
Proof.
  unfold clamp_windowBackgroundTransparencyPercent, n100, n0.
  destruct x as [|x| |]; try reflexivity. number_cases.
  destruct (Qle_bool 100 x) eqn:Hhi; number_cases; [reflexivity|].
  destruct (Qle_bool x 0) eqn:Hlo; number_cases; [reflexivity|].
  by rewrite Hhi, Hlo.
Qed.

Lemma get_lookup (object : gmap string Js.value) (key : string) :
  Js.get object key ≠ Js.VUndefined → object !! key = Some (Js.get object key).
Proof. unfold Js.get. by destruct (object !! key). Qed.

Lemma malformed_default (d : Js.value) :
  Js.is_nullish d = false → malformed d d = false.
Proof. intros Hd. unfold malformed. rewrite Hd. simpl. by rewrite bool_decide_eq_true_2. Qed.

Lemma sanitized_by_idempotent (d v : Js.value) :
  sanitized_by d (sanitized_by d v) = sanitized_by d v.
Proof.
  unfold sanitized_by. destruct (malformed d v) eqn:Hv; [|by rewrite Hv].
  by destruct (malformed d d).
Qed.

Lemma sanitized_by_well_typed (d v : Js.value) :
  Js.is_nullish d = false → malformed d (sanitized_by d v) = false.
Proof.
  intros Hd. unfold sanitized_by. destruct (malformed d v) eqn:Hv; [|done].
  by apply malformed_default.
Qed.

Lemma sanitized_enum_idempotent (l : list string) (d v : Js.value) :
  sanitized_enum l d (sanitized_enum l d v) = sanitized_enum l d v.
Proof.
  unfold sanitized_enum.
  destruct (Js.is_nullish v || negb (includes l v)) eqn:Hv; [|by rewrite Hv].
  by destruct (Js.is_nullish d || negb (includes l d)).
Qed.

Lemma sanitized_enum_allowed (l : list string) (d : string) (v : Js.value) :
  d ∈ l → includes l (sanitized_enum l (Js.VStr d) v) = true.
Proof.
  intros Hd. unfold sanitized_enum.
  destruct (Js.is_nullish v || negb (includes l v)) eqn:Hv.
  - simpl. by apply bool_decide_eq_true_2.
  - apply orb_false_iff in Hv as [_ Hv]. by apply negb_false_iff in Hv.
Qed.

Lemma sanitized_enum_keeps_rule (l : list string) (d : string) (v : Js.value) :
  d ∈ l →
  malformed (Js.VStr d) (sanitized_enum l (Js.VStr d) v)
  || negb (includes l (sanitized_enum l (Js.VStr d) v)) = false.
Proof.
  intros Hd. pose proof (sanitized_enum_allowed l d v Hd) as Hin.
  rewrite Hin. simpl. rewrite orb_false_r.
  by destruct (sanitized_enum l (Js.VStr d) v).
Qed.

Lemma includes_well_typed (l : list string) (d : string) (v : Js.value) :
  includes l v = true → malformed (Js.VStr d) v = false.
Proof. by destruct v. Qed.

Lemma unless_idempotent (accepted : Js.value → bool) (d v : Js.value) :
  unless accepted d (sanitized_by d (unless accepted d (sanitized_by d v)))
  = unless accepted d (sanitized_by d v).
Proof.
  unfold unless at 2 3.
  destruct (accepted (sanitized_by d v)) eqn:Hv.
  - rewrite sanitized_by_idempotent. unfold unless. by rewrite Hv.
  - unfold unless, sanitized_by. by destruct (malformed d d), (accepted d).
Qed.

Lemma unless_well_typed (accepted : Js.value → bool) (d v : Js.value) :
  Js.is_nullish d = false → malformed d (unless accepted d (sanitized_by d v)) = false.
Proof.
  intros Hd. unfold unless. destruct (accepted _).
  - by apply sanitized_by_well_typed.
  - by apply malformed_default.
Qed.

Lemma on_number_idempotent (f : Js.number → Js.number) (d : Js.number) (v : Js.value) :
  (∀ x, f (f x) = f x) →
  on_number f (sanitized_by (Js.VNum d) (on_number f (sanitized_by (Js.VNum d) v)))
  = on_number f (sanitized_by (Js.VNum d) v).
Proof.
  intros Hf. unfold sanitized_by, malformed.
  destruct v; simpl; by rewrite ?Hf.
Qed.

Lemma on_number_well_typed (f : Js.number → Js.number) (d : Js.number) (v : Js.value) :
  malformed (Js.VNum d) (on_number f (sanitized_by (Js.VNum d) v)) = false.
Proof. unfold sanitized_by, malformed. by destruct v. Qed.

Lemma on_number_number (f : Js.number → Js.number) (d : Js.number) (v : Js.value) :
  on_number f (sanitized_by (Js.VNum d) v) = Js.VNum (f (number_or d v)).
Proof. unfold sanitized_by, malformed. by destruct v. Qed.

End TransformerFacts.

Section GeneralConfigInvariants.
Import MainConfig ConfigStatements MainConfigRest ConfigStatementsMore.
Local Open Scope string_scope.
Local Open Scope list_scope.
Variable platform : string.
Variable AllLogicalKeybindingsNames : list string.
Variable FALLBACK_TERMINAL_THEME : string.
Variable FALLBACK_SYNTAX_THEME : string.
Variable getTheme : string → option ThemeInfo.
Variable availableFonts : list FontInfo.

#[local] Abbreviation sanitize :=
  (sanitizeGeneralConfig platform AllLogicalKeybindingsNames
     FALLBACK_TERMINAL_THEME FALLBACK_SYNTAX_THEME getTheme).
#[local] Abbreviation transformers :=
  (generalConfigTransformers platform AllLogicalKeybindingsNames
     FALLBACK_TERMINAL_THEME FALLBACK_SYNTAX_THEME getTheme availableFonts).
#[local] Abbreviation transformer :=
  (transformer_of platform AllLogicalKeybindingsNames
     FALLBACK_TERMINAL_THEME FALLBACK_SYNTAX_THEME getTheme availableFonts).
#[local] Abbreviation rules :=
  (generalConfigRules platform FALLBACK_TERMINAL_THEME FALLBACK_SYNTAX_THEME).

Lemma transformers_idempotent :
  Forall (λ entry, ∀ v, entry.2 (entry.2 v) = entry.2 v) transformers.
Proof.
  unfold generalConfigTransformers.
  repeat apply Forall_cons_2; try apply Forall_nil_2; simpl; intros v;
    first
      [ apply sanitized_by_idempotent
      | apply sanitized_enum_idempotent
      | apply unless_idempotent
      | apply on_number_idempotent, clamp_terminalFontSize_idempotent
      | apply on_number_idempotent, clamp_uiScalePercent_idempotent
      | apply on_number_idempotent, clamp_windowBackgroundTransparencyPercent_idempotent
      | reflexivity ].
Qed.

Lemma transformer_idempotent key v : transformer key (transformer key v) = transformer key v.
Proof.
  unfold transformer_of.
  destruct (decide (key ∈ transformers.*1)) as [Hin|Hout].
  - destruct (assoc_listed key transformers Hin) as (G & -> & Hentry). simpl.
    pose proof transformers_idempotent as Hall.
    rewrite Forall_forall in Hall. apply (Hall (key, G) Hentry).
  - by rewrite (assoc_None key transformers Hout).
Qed.

(** Every field with a rule holds, after sanitation, a value that does not
    break the rule. *)
Lemma transformers_keep_rules :
  Forall2 (λ rule entry, field rule = entry.1 ∧ ∀ v, breaks rule (entry.2 v) = false)
    rules transformers.
Proof.
  unfold generalConfigRules, generalConfigTransformers.
  repeat apply Forall2_cons_2; try apply Forall2_nil_2; (split; [reflexivity|]);
    intros v; unfold breaks, plain, enum; simpl;
    rewrite ?orb_false_r;
    first
      [ by apply sanitized_by_well_typed
      | by apply unless_well_typed
      | apply on_number_well_typed
      | reflexivity
      | (apply sanitized_enum_keeps_rule; unfold frameRules; set_solver) ].
Qed.

End GeneralConfigInvariants.

Section SessionConfigFacts.
Import MainConfig ConfigStatements.
Local Open Scope string_scope.
Local Open Scope list_scope.

Lemma sanitizeSessionConfiguration_statements (before : gmap string Js.value)
    (source : UuidSource) :
  sanitizeSessionConfiguration before source
  = (Normal
       (sanitizeField
          (reset_unless
             (λ v, negb (Js.is_nullish v) && bool_decide (Js.typeof v = Js.TString))
             (reset_unless (λ v, bool_decide (Js.typeof v = Js.TString))
                (sanitizeField (sanitizeField before "name" (Js.VStr "")) "uuid"
                   (Js.VStr (uuid_of source (uuid_next source))))
                "type" (Js.VStr ""))
             "initialDirectory" Js.VNull)
          "args" (Js.VStr "")),
     {| uuid_of := uuid_of source; uuid_next := S (uuid_next source) |}).
Proof.
  unfold sanitizeSessionConfiguration, bind, createUuid, ret, reset_unless.
  do 3 f_equal.
  rewrite negb_andb, negb_involutive. reflexivity.
Qed.

Lemma sanitizeSessionConfiguration_result (before : gmap string Js.value) (source : UuidSource) :
  ∃ after,
    sanitizeSessionConfiguration before source
    = (Normal after, {| uuid_of := uuid_of source; uuid_next := S (uuid_next source) |})
    ∧ session_sanitized (uuid_of source (uuid_next source)) before after.
Proof.
  eexists. split; [apply sanitizeSessionConfiguration_statements|].
  unfold session_sanitized.
  repeat split.
  - by read_field.
  - by read_field.
  - read_field. by destruct (bool_decide _).
  - read_field. destruct (Js.get before "initialDirectory"); simpl; try done.
  - by read_field.
  - intros other Hother. unfold sessionFields in Hother.
    repeat (apply not_elem_of_cons in Hother as [? Hother]).
    by skip_statements.
Qed.

Lemma sanitizeSessionConfig_loop_result (sessionConfigs : list (gmap string Js.value))
    (source : UuidSource) :
  ∃ sanitized,
    sanitizeSessionConfig_loop sessionConfigs source
    = (Normal sanitized,
       {| uuid_of := uuid_of source; uuid_next := uuid_next source + length sessionConfigs |})
    ∧ length sanitized = length sessionConfigs
    ∧ ∀ i before after,
        sessionConfigs !! i = Some before → sanitized !! i = Some after →
        session_sanitized (uuid_of source (uuid_next source + i)) before after.
Proof.
  revert source. induction sessionConfigs as [|first rest IH]; intros source.
  - exists []. split; [|split; [done|]].
    + destruct source. unfold sanitizeSessionConfig_loop, ret. simpl. by rewrite Nat.add_0_r.
    + intros i before after Hbefore. by rewrite lookup_nil in Hbefore.
  - destruct (sanitizeSessionConfiguration_result first source) as (first' & Hfirst & Hsan).
    destruct (IH {| uuid_of := uuid_of source; uuid_next := S (uuid_next source) |})
      as (rest' & Hrest & Hlen & Hall).
    exists (first' :: rest'). split; [|split].
    + simpl. unfold bind. rewrite Hfirst, Hrest. unfold ret. simpl.
      do 2 f_equal. lia.
    + simpl. by rewrite Hlen.
    + intros [|i] before after Hbefore Hafter; simpl in *.
      * injection Hbefore as <-. injection Hafter as <-. by rewrite Nat.add_0_r.
      * specialize (Hall i before after Hbefore Hafter). simpl in Hall.
        by replace (uuid_next source + S i) with (S (uuid_next source + i)) by lia.
Qed.

End SessionConfigFacts.

Section CopyFacts.
Import MainConfig ConfigStatements MainConfigRest ConfigCopies CopyStatements.
Local Open Scope string_scope.
Local Open Scope list_scope.

Lemma properties_with_fields (v : Js.value) (props : gmap string Js.value) :
  properties (with_fields v props) = props.
Proof. by destruct v. Qed.

(** A run of statements that return, on an object. *)
Lemma on_object_returns {S} (statements : gmap string Js.value → Eff S (gmap string Js.value))
    (v : Js.value) (s s' : S) (after : gmap string Js.value) :
  is_object v = true →
  statements (fields_of v) s = (Normal after, s') →
  on_object statements v s = (Normal (with_fields v after), s').
Proof.
  intros Hobject Hrun.
  destruct v; try discriminate Hobject; unfold on_object, bind, ret;
    simpl in Hrun; by rewrite Hrun.
Qed.

(** On what is not an object they do not get past their first line. *)
Lemma on_object_throws {S} (statements : gmap string Js.value → Eff S (gmap string Js.value))
    (v : Js.value) (s : S) :
  is_object v = false →
  on_object statements v s = (Throw (type_error_at v), s).
Proof. intros Hobject. by destruct v. Qed.

Lemma sanitizeSessionConfig_loop_objects (sessionConfigs : list Js.value)
    (source : UuidSource) :
  Forall (λ v, is_object v = true) sessionConfigs →
  ∃ sanitized,
    ConfigCopies.sanitizeSessionConfig_loop sessionConfigs source
    = (Normal sanitized,
       {| uuid_of := uuid_of source; uuid_next := uuid_next source + length sessionConfigs |})
    ∧ length sanitized = length sessionConfigs
    ∧ ∀ i before after,
        sessionConfigs !! i = Some before → sanitized !! i = Some after →
        after = with_fields before (properties after)
        ∧ session_sanitized (uuid_of source (uuid_next source + i))
            (fields_of before) (properties after).
Proof.
  intros Hall. revert source.
  induction Hall as [|first rest Hfirst _ IH]; intros source.
  - exists []. split; [|split; [done|]].
    + destruct source. unfold ConfigCopies.sanitizeSessionConfig_loop, ret. simpl.
      by rewrite Nat.add_0_r.
    + intros i before after Hbefore. by rewrite lookup_nil in Hbefore.
  - destruct (sanitizeSessionConfiguration_result (fields_of first) source)
      as (first' & Hrun & Hsan).
    destruct (IH {| uuid_of := uuid_of source; uuid_next := S (uuid_next source) |})
      as (rest' & Hrest & Hlen & Hrestall).
    exists (with_fields first first' :: rest'). split; [|split].
    + simpl. unfold bind at 1.
      rewrite (on_object_returns _ first source _ first' Hfirst Hrun).
      unfold bind. rewrite Hrest. unfold ret. simpl. do 2 f_equal. lia.
    + simpl. by rewrite Hlen.
    + intros [|i] before after Hbefore Hafter; simpl in *.
      * injection Hbefore as <-. injection Hafter as <-.
        rewrite properties_with_fields, Nat.add_0_r. by split.
      * specialize (Hrestall i before after Hbefore Hafter). simpl in Hrestall.
        by replace (uuid_next source + S i) with (S (uuid_next source + i)) by lia.
Qed.

Lemma sanitizeSessionConfig_loop_stops (good rest : list Js.value) (v : Js.value)
    (source : UuidSource) :
  Forall (λ v, is_object v = true) good →
  is_object v = false →
  ConfigCopies.sanitizeSessionConfig_loop (good ++ v :: rest) source
  = (Throw (type_error_at v),
     {| uuid_of := uuid_of source; uuid_next := uuid_next source + length good |}).
Proof.
  intros Hgood Hv. revert source.
  induction Hgood as [|first good Hfirst _ IH]; intros source.
  - simpl. unfold bind. rewrite (on_object_throws _ v source Hv).
    destruct source. simpl. by rewrite Nat.add_0_r.
  - destruct (sanitizeSessionConfiguration_result (fields_of first) source)
      as (first' & Hrun & _).
    simpl. unfold bind at 1.
    rewrite (on_object_returns _ first source _ first' Hfirst Hrun).
    unfold bind. rewrite IH. simpl. do 2 f_equal. lia.
Qed.

(** On an array of objects [ConfigCopies.sanitizeSessionConfig] is
    [MainConfig.sanitizeSessionConfig]. *)
Lemma sanitizeSessionConfig_of_objects (sessionConfigs : list (gmap string Js.value))
    (source : UuidSource) :
  ∃ sanitized source',
    MainConfig.sanitizeSessionConfig (SessionArray sessionConfigs) source
    = (Normal sanitized, source')
    ∧ ConfigCopies.sanitizeSessionConfig (Js.VArray (Js.VObject <$> sessionConfigs)) source
      = (Normal (PlainObject <$> sanitized), source').
Proof.
  unfold MainConfig.sanitizeSessionConfig, ConfigCopies.sanitizeSessionConfig.
  cbn [Js.is_nullish isArray orb negb elements].
  revert source. induction sessionConfigs as [|first rest IH]; intros source.
  - by exists [], source.
  - destruct (sanitizeSessionConfiguration_result first source) as (first' & Hrun & _).
    destruct (IH {| uuid_of := uuid_of source; uuid_next := S (uuid_next source) |})
      as (rest' & source' & Hrest & Hcopies).
    exists (first' :: rest'), source'. split.
    + cbn [MainConfig.sanitizeSessionConfig_loop]. unfold bind. by rewrite Hrun, Hrest.
    + rewrite fmap_cons. cbn [ConfigCopies.sanitizeSessionConfig_loop]. unfold bind at 1.
      rewrite (on_object_returns _ (Js.VObject first) source _ first' eq_refl Hrun).
      unfold bind. by rewrite Hcopies.
Qed.

End CopyFacts.

Section KeptFields.
Import MainConfig ConfigStatements MainConfigRest ConfigStatementsMore CopyStatements.
Local Open Scope string_scope.
Local Open Scope list_scope.

Lemma sanitized_by_kept (d v : Js.value) :
  malformed d v = false → sanitized_by d v = v.
Proof. intros Hv. unfold sanitized_by. by rewrite Hv. Qed.

Lemma sanitized_enum_kept (availableValues : list string) (d : string) (v : Js.value) :
  malformed (Js.VStr d) v || negb (includes availableValues v) = false →
  sanitized_enum availableValues (Js.VStr d) v = v.
Proof.
  intros Hv. apply orb_false_elim in Hv as [Hwell Hin].
  unfold malformed in Hwell. apply orb_false_elim in Hwell as [Hnull _].
  unfold sanitized_enum. by rewrite Hnull, Hin.
Qed.

End KeptFields.

Section SanitationFacts.
Import MainConfig ConfigStatements MainConfigRest ConfigStatementsMore ConfigCopies CopyStatements.
Local Open Scope string_scope.
Local Open Scope list_scope.
Variable platform : string.
Variable AllLogicalKeybindingsNames : list string.
Variable FALLBACK_TERMINAL_THEME : string.
Variable FALLBACK_SYNTAX_THEME : string.
Variable getTheme : string → option ThemeInfo.

#[local] Abbreviation rules :=
  (generalConfigRules platform FALLBACK_TERMINAL_THEME FALLBACK_SYNTAX_THEME).

(** A value that does not break the rule of its field, in a field for which
    there is no further statement, goes through the statements of the field
    as it is. *)
Lemma transformers_keep_well_formed (availableFonts : list FontInfo) :
  Forall2 (λ rule entry,
             field rule = entry.1
             ∧ ∀ v, breaks rule v = false → field rule ∉ adjustedFields → entry.2 v = v)
    rules
    (generalConfigTransformers platform AllLogicalKeybindingsNames
       FALLBACK_TERMINAL_THEME FALLBACK_SYNTAX_THEME getTheme availableFonts).
Proof.
  unfold generalConfigRules, generalConfigTransformers.
  repeat apply Forall2_cons_2; try apply Forall2_nil_2; (split; [reflexivity|]);
    intros v; unfold breaks, plain, enum; cbn [field default_value allowed fst snd];
    rewrite ?orb_false_r; intros Hv Hout;
    first
      [ by apply sanitized_by_kept
      | by apply sanitized_enum_kept
      | (exfalso; apply Hout; apply (bool_decide_unpack _); vm_compute; exact I) ].
Qed.

Lemma generalConfig_kept (stored : option (gmap string Js.value))
    (availableFonts : list FontInfo) :
  Forall (λ rule,
            breaks rule (Js.get (default ∅ stored) (field rule)) = false →
            field rule ∉ adjustedFields →
            Js.get (MainConfig.sanitizeGeneralConfig platform AllLogicalKeybindingsNames
                      FALLBACK_TERMINAL_THEME FALLBACK_SYNTAX_THEME getTheme stored
                      availableFonts) (field rule)
            = Js.get (default ∅ stored) (field rule))
    rules.
Proof.
  pose proof (transformers_keep_well_formed availableFonts) as Hrules.
  pose proof (generalConfig_fieldwise_listed platform AllLogicalKeybindingsNames
                FALLBACK_TERMINAL_THEME FALLBACK_SYNTAX_THEME getTheme availableFonts stored)
    as Hfields.
  generalize dependent (MainConfig.sanitizeGeneralConfig platform AllLogicalKeybindingsNames
                          FALLBACK_TERMINAL_THEME FALLBACK_SYNTAX_THEME getTheme stored
                          availableFonts).
  intros sanitized Hfields.
  induction Hrules as [|rule entry rules' entries' [Hfield Hkept] _ IH]; [constructor|].
  apply Forall_cons in Hfields as [Hentry Hfields].
  constructor; [|by apply IH].
  intros Hwell Hout. rewrite Hfield, Hentry, <- Hfield. by apply Hkept.
Qed.

Lemma sanitizeGeneralConfig_of_object (copy : Js.value) (availableFonts : list FontInfo) :
  Js.is_nullish copy || is_object copy = true →
  ConfigCopies.sanitizeGeneralConfig platform AllLogicalKeybindingsNames
    FALLBACK_TERMINAL_THEME FALLBACK_SYNTAX_THEME getTheme copy availableFonts tt
  = (Normal
       (with_fields copy
          (MainConfig.sanitizeGeneralConfig platform AllLogicalKeybindingsNames
             FALLBACK_TERMINAL_THEME FALLBACK_SYNTAX_THEME getTheme (Some (fields_of copy))
             availableFonts)),
     tt).
Proof.
  intros Hcopy. destruct copy; try discriminate Hcopy; reflexivity.
Qed.

(** C6 (as amended): sanitation works field by field, and on objects it
    always yields a configuration.
    [sanitizeField] sets a field that is missing, null or of another type
    than the default to the default, leaves a well-typed value (and then the
    whole object) as it is, and never touches another field.
    [sanitizeGeneralConfig], on a stored value that is an object or nothing,
    returns; it gives every field that breaks its rule the documented
    default, keeps the value of a field that follows its rule (unless there
    is a further statement about the field, which then decides), does to
    each field what the statements about that field say, and keeps the fields
    it has no rule for.
    [sanitizeSessionConfig] turns what is not an array into the empty list;
    on an array whose elements are objects it returns, having sanitized the
    five fields of each session and nothing else. *)
Theorem sanitation_replaces_malformed_fields_one_by_one :
  (∀ (object : gmap string Js.value) (key : string) (defaultValue : Js.value),
     Js.get (sanitizeField object key defaultValue) key
     = (if malformed defaultValue (Js.get object key) then defaultValue
        else Js.get object key)
     ∧ (malformed defaultValue (Js.get object key) = false →
        sanitizeField object key defaultValue = object)
     ∧ (∀ other, key ≠ other →
        sanitizeField object key defaultValue !! other = object !! other))
  ∧ (∀ (copy : Js.value) (availableFonts : list FontInfo),
     Js.is_nullish copy || is_object copy = true →
     ∃ sanitized,
       ConfigCopies.sanitizeGeneralConfig platform AllLogicalKeybindingsNames
         FALLBACK_TERMINAL_THEME FALLBACK_SYNTAX_THEME getTheme copy availableFonts tt
       = (Normal sanitized, tt)
       ∧ sanitized = with_fields copy (properties sanitized)
       ∧ Forall (λ rule,
                   breaks rule (Js.get (fields_of copy) (field rule)) = true →
                   Js.get (properties sanitized) (field rule) = default_value rule)
           rules
       ∧ Forall (λ rule,
                   breaks rule (Js.get (fields_of copy) (field rule)) = false →
                   field rule ∉ adjustedFields →
                   Js.get (properties sanitized) (field rule)
                   = Js.get (fields_of copy) (field rule))
           rules
       ∧ (∀ key,
            Js.get (properties sanitized) key
            = transformer_of platform AllLogicalKeybindingsNames FALLBACK_TERMINAL_THEME
                FALLBACK_SYNTAX_THEME getTheme availableFonts key
                (Js.get (fields_of copy) key))
       ∧ (∀ other, other ∉ field <$> rules →
            properties sanitized !! other = fields_of copy !! other))
  ∧ (∀ (copy : Js.value) (source : UuidSource),
     isArray copy = false →
     ConfigCopies.sanitizeSessionConfig copy source = (Normal [], source))
  ∧ (∀ (sessionConfigs : list Js.value) (source : UuidSource),
     Forall (λ v, is_object v = true) sessionConfigs →
     ∃ sanitized,
       ConfigCopies.sanitizeSessionConfig (Js.VArray sessionConfigs) source
       = (Normal sanitized,
          {| uuid_of := uuid_of source;
             uuid_next := uuid_next source + length sessionConfigs |})
       ∧ length sanitized = length sessionConfigs
       ∧ ∀ i before after,
           sessionConfigs !! i = Some before → sanitized !! i = Some after →
           after = with_fields before (properties after)
           ∧ session_sanitized (uuid_of source (uuid_next source + i))
               (fields_of before) (properties after)).
Proof.
  split; [|split; [|split]].
  - intros object key defaultValue. split; [apply get_sanitizeField_eq|].
    split; [apply sanitizeField_well_typed|].
    intros other Hne. by apply lookup_sanitizeField_ne.
  - intros copy availableFonts Hcopy.
    eexists. split; [exact (sanitizeGeneralConfig_of_object copy availableFonts Hcopy)|].
    rewrite properties_with_fields.
    split; [reflexivity|].
    split; [exact (generalConfig_defaults platform AllLogicalKeybindingsNames
                     FALLBACK_TERMINAL_THEME FALLBACK_SYNTAX_THEME getTheme
                     (Some (fields_of copy)) availableFonts)|].
    split; [exact (generalConfig_kept (Some (fields_of copy)) availableFonts)|].
    split.
    + intros key.
      exact (generalConfig_fieldwise platform AllLogicalKeybindingsNames
               FALLBACK_TERMINAL_THEME FALLBACK_SYNTAX_THEME getTheme availableFonts
               (Some (fields_of copy)) key).
    + intros other.
      exact (generalConfig_other_fields platform AllLogicalKeybindingsNames
               FALLBACK_TERMINAL_THEME FALLBACK_SYNTAX_THEME getTheme
               (Some (fields_of copy)) availableFonts other).
  - intros copy source Harray. unfold ConfigCopies.sanitizeSessionConfig.
    rewrite Harray, orb_true_r. reflexivity.
  - intros sessionConfigs source Hall.
    exact (sanitizeSessionConfig_loop_objects sessionConfigs source Hall).
Qed.

End SanitationFacts.

Section SanitationExamples.
Import MainConfig ConfigStatements ConfigCopies CopyStatements.
Local Open Scope string_scope.
Local Open Scope list_scope.

(** A corrupt stored configuration: each bad field gets its default, the
    numbers are clamped, and what was fine or unknown is kept. *)
Example sanitizeGeneralConfig_corrupt :
  let sanitized :=
    MainConfig.sanitizeGeneralConfig "linux" ["pc-style"; "macos-style"] "default-terminal"
      "default-syntax" (λ _, None) (Some corrupt_general_config) [] in
  Js.get sanitized "blinkingCursor" = Js.VBool false
  ∧ Js.get sanitized "cursorStyle" = Js.VStr "block"
  ∧ Js.get sanitized "frameRuleLines" = num 10
  ∧ Js.get sanitized "terminalFontSize" = num 1024
  ∧ Js.get sanitized "uiScalePercent" = num 100
  ∧ Js.get sanitized "windowBackgroundTransparencyPercent" = num 0
  ∧ Js.get sanitized "showTips" = Js.VStr "always"
  ∧ Js.get sanitized "tipCounter" = num 12
  ∧ Js.get sanitized "keybindingsName" = Js.VStr "pc-style"
  ∧ Js.get sanitized "themeGUI" = Js.VStr "two-dark-ui"
  ∧ Js.get sanitized "unknownField" = Js.VStr "kept".
Proof. vm_compute. repeat split. Qed.

Example sanitizeSessionConfig_fills_in :
  fst (MainConfig.sanitizeSessionConfig
         (SessionArray [ {[ "name" := Js.VStr "bash"; "type" := num 3 ]}; ∅ ])
         numbered_uuids)
  = Normal
      [ {[ "name" := Js.VStr "bash"; "uuid" := Js.VStr "uuid-0"; "type" := Js.VStr "";
           "initialDirectory" := Js.VNull; "args" := Js.VStr "" ]};
        {[ "name" := Js.VStr ""; "uuid" := Js.VStr "uuid-1"; "type" := Js.VStr "";
           "initialDirectory" := Js.VNull; "args" := Js.VStr "" ]} ].
Proof. vm_compute. reflexivity. Qed.

Example sanitizeSessionConfig_two_sessions :
  fst (ConfigCopies.sanitizeSessionConfig two_sessions numbered_uuids)
  = Normal
      [ PlainObject
          {[ "name" := Js.VStr "bash"; "uuid" := Js.VStr "uuid-0"; "type" := Js.VStr "";
             "initialDirectory" := Js.VNull; "args" := Js.VStr "" ]};
        PlainObject
          {[ "name" := Js.VStr ""; "uuid" := Js.VStr "uuid-1"; "type" := Js.VStr "";
             "initialDirectory" := Js.VNull; "args" := Js.VStr "" ]} ].
Proof. vm_compute. reflexivity. Qed.

(** Two sessions that are objects, with fields missing and of the wrong
    type: both are sanitized. *)
Lemma sanitation_replaces_malformed_fields_one_by_one_witness :
  Forall (λ v, is_object v = true) two_session_objects
  ∧ ∃ sanitized,
      ConfigCopies.sanitizeSessionConfig (Js.VArray two_session_objects) numbered_uuids
      = (Normal sanitized,
         {| uuid_of := uuid_of numbered_uuids;
            uuid_next := uuid_next numbered_uuids + length two_session_objects |})
      ∧ length sanitized = length two_session_objects
      ∧ ∀ i before after,
          two_session_objects !! i = Some before → sanitized !! i = Some after →
          after = with_fields before (properties after)
          ∧ session_sanitized (uuid_of numbered_uuids (uuid_next numbered_uuids + i))
              (fields_of before) (properties after).
Proof.
  split; [by repeat constructor|].
  apply (proj2 (proj2 (proj2 (sanitation_replaces_malformed_fields_one_by_one
                                "linux" ["pc-style"; "macos-style"] "default-terminal"
                                "default-syntax" (λ _, None))))).
  by repeat constructor.
Defined.

(** A session list with an element that is no object: the first session is
    sanitized, and at the element the loop throws; nothing is stored. *)
Lemma sanitizeSessionConfig_throws_at_null :
  ¬ ends_normally (ConfigCopies.sanitizeSessionConfig session_then_null numbered_uuids)
  ∧ ¬ ends_normally (ConfigCopies.sanitizeSessionConfig number_for_a_session numbered_uuids).
Proof.
  split; intros [sanitized Hrun]; vm_compute in Hrun; discriminate Hrun.
Qed.

Example sanitizeSessionConfig_type_errors :
  fst (ConfigCopies.sanitizeSessionConfig session_then_null numbered_uuids)
  = Throw TYPE_ERROR_READ
  ∧ fst (ConfigCopies.sanitizeSessionConfig number_for_a_session numbered_uuids)
    = Throw TYPE_ERROR_CREATE
  ∧ fst (ConfigCopies.sanitizeGeneralConfig "linux" ["pc-style"; "macos-style"]
           "default-terminal" "default-syntax" (λ _, None) (num 5) [] tt)
    = Throw TYPE_ERROR_CREATE.
Proof. vm_compute. repeat split. Qed.

End SanitationExamples.

(* ===================================================================== *)
(** * More properties of the code *)
(* ===================================================================== *)

Section GeneralConfigProperties.
Import MainConfig ConfigStatements MainConfigRest ConfigStatementsMore.
Local Open Scope string_scope.
Local Open Scope list_scope.
Variable platform : string.
Variable AllLogicalKeybindingsNames : list string.
Variable FALLBACK_TERMINAL_THEME : string.
Variable FALLBACK_SYNTAX_THEME : string.
Variable getTheme : string → option ThemeInfo.
Variable availableFonts : list FontInfo.

#[local] Abbreviation sanitize :=
  (sanitizeGeneralConfig platform AllLogicalKeybindingsNames
     FALLBACK_TERMINAL_THEME FALLBACK_SYNTAX_THEME getTheme).
#[local] Abbreviation transformers :=
  (generalConfigTransformers platform AllLogicalKeybindingsNames
     FALLBACK_TERMINAL_THEME FALLBACK_SYNTAX_THEME getTheme availableFonts).
#[local] Abbreviation transformer :=
  (transformer_of platform AllLogicalKeybindingsNames
     FALLBACK_TERMINAL_THEME FALLBACK_SYNTAX_THEME getTheme availableFonts).
#[local] Abbreviation rules :=
  (generalConfigRules platform FALLBACK_TERMINAL_THEME FALLBACK_SYNTAX_THEME).

Lemma Forall2_Forall_combine {A B} (P : A → B → Prop) (Q : B → Prop) (R : A → Prop)
    (l : list A) (k : list B) :
  Forall2 P l k → Forall Q k → (∀ a b, P a b → Q b → R a) → Forall R l.
Proof.
  intros HP HQ Himp. induction HP as [|a b l k Hab _ IH]; [constructor|].
  apply Forall_cons in HQ as [Hb HQ]. constructor; eauto.
Qed.

Lemma default_of_Some {A} (d x : A) : default d (Some x) = x.
Proof. reflexivity. Qed.

(** X1: what [sanitizeGeneralConfig] leaves in a field depends on what the
    stored configuration has in that same field, and on nothing else of the
    stored configuration. *)
Theorem sanitizeGeneralConfig_fields_independent
    (stored1 stored2 : option (gmap string Js.value)) (key : string) :
  Js.get (default ∅ stored1) key = Js.get (default ∅ stored2) key →
  Js.get (sanitize stored1 availableFonts) key = Js.get (sanitize stored2 availableFonts) key.
Proof.
  intros Hsame.
  rewrite (generalConfig_fieldwise platform AllLogicalKeybindingsNames
             FALLBACK_TERMINAL_THEME FALLBACK_SYNTAX_THEME getTheme availableFonts stored1 key).
  rewrite (generalConfig_fieldwise platform AllLogicalKeybindingsNames
             FALLBACK_TERMINAL_THEME FALLBACK_SYNTAX_THEME getTheme availableFonts stored2 key).
  by rewrite Hsame.
Qed.

Lemma generalConfig_no_rule_broken (stored : option (gmap string Js.value)) :
  Forall (λ rule, breaks rule (Js.get (sanitize stored availableFonts) (field rule)) = false)
    rules.
Proof.
  pose proof (transformers_keep_rules platform AllLogicalKeybindingsNames
                FALLBACK_TERMINAL_THEME FALLBACK_SYNTAX_THEME getTheme availableFonts)
    as Hrules.
  pose proof (generalConfig_fieldwise_listed platform AllLogicalKeybindingsNames
                FALLBACK_TERMINAL_THEME FALLBACK_SYNTAX_THEME getTheme availableFonts stored)
    as Hfields.
  eapply (Forall2_Forall_combine _ _ _ _ _ Hrules Hfields).
  clear Hrules Hfields.
  intros rule entry [Hfield Hkeeps] Hget.
  rewrite Hfield.
  generalize dependent (sanitize stored availableFonts). intros sanitized Hget.
  rewrite Hget. apply Hkeeps.
Qed.

(** A field that breaks no rule is not undefined: the object has it. *)
Lemma unbroken_field_present (rule : FieldRule) (object : gmap string Js.value) :
  breaks rule (Js.get object (field rule)) = false → is_Some (object !! field rule).
Proof.
  unfold Js.get. destruct (object !! field rule) as [v|]; [by eexists|].
  simpl. unfold breaks, malformed. simpl. discriminate.
Qed.

(** X2: the configuration that [sanitizeGeneralConfig] returns breaks none of
    the rules: every field of the table is present with a value of the type
    of its default, and every enumeration field holds one of its strings. *)
Theorem sanitizeGeneralConfig_keeps_rules (stored : option (gmap string Js.value)) :
  Forall (λ rule,
            breaks rule (Js.get (sanitize stored availableFonts) (field rule)) = false
            ∧ is_Some (sanitize stored availableFonts !! field rule))
    rules.
Proof.
  pose proof (generalConfig_no_rule_broken stored) as Hunbroken.
  generalize dependent (sanitize stored availableFonts). intros sanitized Hunbroken.
  eapply Forall_impl; [exact Hunbroken|].
  intros rule Hrule. split; [exact Hrule|].
  apply unbroken_field_present, Hrule.
Qed.

Lemma generalConfig_fieldwise_twice (stored : option (gmap string Js.value)) (key : string) :
  Js.get (sanitize (Some (sanitize stored availableFonts)) availableFonts) key
  = transformer key (Js.get (sanitize stored availableFonts) key).
Proof.
  pose proof (generalConfig_fieldwise platform AllLogicalKeybindingsNames
                FALLBACK_TERMINAL_THEME FALLBACK_SYNTAX_THEME getTheme availableFonts
                (Some (sanitize stored availableFonts)) key) as Htwice.
  rewrite default_of_Some in Htwice. exact Htwice.
Qed.

Lemma generalConfig_other_fields_twice (stored : option (gmap string Js.value))
    (key : string) :
  key ∉ field <$> rules →
  sanitize (Some (sanitize stored availableFonts)) availableFonts !! key
  = sanitize stored availableFonts !! key.
Proof.
  intros Hout.
  pose proof (generalConfig_other_fields platform AllLogicalKeybindingsNames
                FALLBACK_TERMINAL_THEME FALLBACK_SYNTAX_THEME getTheme
                (Some (sanitize stored availableFonts)) availableFonts key Hout) as Hother.
  rewrite default_of_Some in Hother. exact Hother.
Qed.

(** Two maps that agree outside of [keys], and on [keys] have entries that
    read the same, are equal. *)
Lemma maps_equal_by_fields (once twice : gmap string Js.value) (keys : list string) :
  (∀ key, key ∈ keys → is_Some (once !! key) ∧ is_Some (twice !! key)
                        ∧ Js.get twice key = Js.get once key) →
  (∀ key, key ∉ keys → twice !! key = once !! key) →
  twice = once.
Proof.
  intros Hin Hout. apply map_eq. intros key.
  destruct (decide (key ∈ keys)) as [Hkey|Hkey]; [|exact (Hout key Hkey)].
  destruct (Hin key Hkey) as ([v1 Hv1] & [v2 Hv2] & Hget).
  unfold Js.get in Hget. rewrite Hv1, Hv2 in Hget. simpl in Hget.
  rewrite Hv1, Hv2. f_equal. exact Hget.
Qed.

(** X3: sanitizing a sanitized general configuration changes nothing. *)
Theorem sanitizeGeneralConfig_idempotent (stored : option (gmap string Js.value)) :
  sanitize (Some (sanitize stored availableFonts)) availableFonts
  = sanitize stored availableFonts.
Proof.
  apply (maps_equal_by_fields _ _ (field <$> rules)).
  - intros key Hkey.
    apply list_elem_of_fmap_1 in Hkey as (rule & Hfield & Hrule).
    pose proof (generalConfig_no_rule_broken stored) as Hone.
    pose proof (generalConfig_no_rule_broken (Some (sanitize stored availableFonts)))
      as Htwo.
    rewrite Forall_forall in Hone, Htwo.
    pose proof (unbroken_field_present rule _ (Hone rule Hrule)) as Hsome1.
    pose proof (unbroken_field_present rule _ (Htwo rule Hrule)) as Hsome2.
    clear Hone Htwo.
    rewrite <- Hfield in Hsome1, Hsome2.
    split; [exact Hsome1|]. split; [exact Hsome2|].
    rewrite generalConfig_fieldwise_twice.
    rewrite (generalConfig_fieldwise platform AllLogicalKeybindingsNames
               FALLBACK_TERMINAL_THEME FALLBACK_SYNTAX_THEME getTheme availableFonts
               stored key).
    apply transformer_idempotent.
  - intros key. apply generalConfig_other_fields_twice.
Qed.

(** X4: after [sanitizeGeneralConfig] the fields that name something name
    something that exists, or hold the fallback: hardware acceleration is on;
    the keybindings name is one of the logical names or the platform's
    default; the terminal font is an available font or the default font; each
    theme is a theme of its kind or the fallback, and the GUI theme is never
    "default". *)
Theorem sanitizeGeneralConfig_names_exist (stored : option (gmap string Js.value)) :
  let sanitized := sanitize stored availableFonts in
  Js.get sanitized "isHardwareAccelerated" = Js.VBool true
  ∧ (∃ s, Js.get sanitized "keybindingsName" = Js.VStr s
          ∧ (s ∈ AllLogicalKeybindingsNames ∨ s = default_keybindingsName platform))
  ∧ (∃ s, Js.get sanitized "terminalFont" = Js.VStr s
          ∧ (s ∈ postscriptName <$> availableFonts ∨ s = DEFAULT_TERMINALFONT))
  ∧ (∃ s, Js.get sanitized "themeTerminal" = Js.VStr s
          ∧ ((∃ info, getTheme s = Some info ∧ themeType info = ThemeTerminal)
             ∨ s = FALLBACK_TERMINAL_THEME))
  ∧ (∃ s, Js.get sanitized "themeSyntax" = Js.VStr s
          ∧ ((∃ info, getTheme s = Some info ∧ themeType info = ThemeSyntax)
             ∨ s = FALLBACK_SYNTAX_THEME))
  ∧ (∃ s, Js.get sanitized "themeGUI" = Js.VStr s
          ∧ s ≠ "default"
          ∧ ((∃ info, getTheme s = Some info ∧ themeType info = ThemeGui)
             ∨ s = "two-dark-ui")).
Proof.
  intros sanitized. subst sanitized.
  pose proof (generalConfig_fieldwise platform AllLogicalKeybindingsNames
                FALLBACK_TERMINAL_THEME FALLBACK_SYNTAX_THEME getTheme availableFonts stored)
    as Hfield.
  rewrite (Hfield "isHardwareAccelerated"), (Hfield "keybindingsName"),
    (Hfield "terminalFont"), (Hfield "themeTerminal"), (Hfield "themeSyntax"),
    (Hfield "themeGUI").
  clear Hfield.
  generalize (Js.get (default ∅ stored) "keybindingsName") as keybindingsName.
  generalize (Js.get (default ∅ stored) "terminalFont") as terminalFont.
  generalize (Js.get (default ∅ stored) "themeTerminal") as themeTerminal.
  generalize (Js.get (default ∅ stored) "themeSyntax") as themeSyntax.
  generalize (Js.get (default ∅ stored) "themeGUI") as themeGUI.
  intros themeGUI themeSyntax themeTerminal terminalFont keybindingsName.
  unfold transformer_of. simpl.
  split; [reflexivity|].
  split.
  { unfold unless.
    destruct (includes _ _) eqn:Hacc; [|eexists; split; [reflexivity|by right]].
    destruct (sanitized_by _ _) as [| | | |s| |]; try done.
    exists s. split; [done|]. left. by apply bool_decide_eq_true_1 in Hacc. }
  split.
  { unfold unless.
    destruct (font_available _ _) eqn:Hacc; [|eexists; split; [reflexivity|by right]].
    destruct (sanitized_by _ _) as [| | | |s| |]; try (by rewrite existsb_const_false' in Hacc).
    all: unfold font_available in Hacc; apply existsb_exists in Hacc as (font & Hfont & His);
      simpl in His; try done.
    exists s. split; [done|]. left.
    apply bool_decide_eq_true_1 in His as <-.
    apply list_elem_of_fmap_2, list_elem_of_In, Hfont. }
  split.
  { unfold unless, is_theme, isThemeType.
    destruct (sanitized_by _ _) as [| | | |s| |]; simpl;
      try (eexists; split; [reflexivity|by right]).
    destruct (getTheme s) as [info|] eqn:Hinfo; [|eexists; split; [reflexivity|by right]].
    case_bool_decide as Htype; [|eexists; split; [reflexivity|by right]].
    exists s. split; [done|]. left. by exists info. }
  split.
  { unfold unless, is_theme, isThemeType.
    destruct (sanitized_by _ _) as [| | | |s| |]; simpl;
      try (eexists; split; [reflexivity|by right]).
    destruct (getTheme s) as [info|] eqn:Hinfo; [|eexists; split; [reflexivity|by right]].
    case_bool_decide as Htype; [|eexists; split; [reflexivity|by right]].
    exists s. split; [done|]. left. by exists info. }
  unfold unless, is_theme, isThemeType.
  destruct (sanitized_by _ _) as [| | | |s| |]; simpl;
    try (eexists; split; [reflexivity|split; [done|by right]]).
  case_bool_decide as Hdefault; simpl;
    [eexists; split; [reflexivity|split; [done|by right]]|].
  destruct (getTheme s) as [info|] eqn:Hinfo;
    [|eexists; split; [reflexivity|split; [done|by right]]].
  case_bool_decide as Htype; [|eexists; split; [reflexivity|split; [done|by right]]].
  exists s. split; [done|]. split; [congruence|]. left. by exists info.
Qed.

End GeneralConfigProperties.

Section GeneralConfigWitnesses.
Import MainConfig ConfigStatements.
Local Open Scope string_scope.
Local Open Scope list_scope.

Lemma sanitizeGeneralConfig_fields_independent_witness :
  Js.get (sanitizeGeneralConfig "linux" ["pc-style"; "macos-style"] "default-terminal"
            "default-syntax" (λ _, None) (Some corrupt_general_config) []) "tipCounter"
  = Js.get (sanitizeGeneralConfig "linux" ["pc-style"; "macos-style"] "default-terminal"
              "default-syntax" (λ _, None) (Some {[ "tipCounter" := num 12 ]}) []) "tipCounter".
Proof.
  apply (sanitizeGeneralConfig_fields_independent "linux" ["pc-style"; "macos-style"]
           "default-terminal" "default-syntax" (λ _, None) []
           (Some corrupt_general_config) (Some {[ "tipCounter" := num 12 ]}) "tipCounter").
  vm_compute. reflexivity.
Defined.

End GeneralConfigWitnesses.

Section SessionProperties.
Import MainConfig ConfigStatements MainConfigRest ConfigStatementsMore CopyStatements.
Local Open Scope string_scope.
Local Open Scope list_scope.

Lemma malformed_string (d : string) (v : Js.value) :
  malformed (Js.VStr d) v = negb (bool_decide (Js.typeof v = Js.TString)).
Proof. by destruct v. Qed.

Lemma typeof_string_or (v : Js.value) (d : string) :
  Js.typeof (if negb (bool_decide (Js.typeof v = Js.TString)) then Js.VStr d else v)
  = Js.TString.
Proof. by case_bool_decide. Qed.

Lemma typeof_or_string (v : Js.value) (d : string) :
  Js.typeof (if bool_decide (Js.typeof v = Js.TString) then v else Js.VStr d)
  = Js.TString.
Proof. by case_bool_decide. Qed.

Lemma session_sanitized_well_formed (uuid : string) (before after : gmap string Js.value) :
  session_sanitized uuid before after → well_formed_session after.
Proof.
  intros (Hname & Huuid & Htype & Hdir & Hargs & _).
  unfold well_formed_session.
  rewrite Hname, Huuid, Htype, Hargs, !malformed_string.
  clear Hname Huuid Htype Hargs.
  split; [apply typeof_string_or|]. split; [apply typeof_string_or|].
  split; [apply typeof_or_string|].
  split; [|apply typeof_string_or].
  destruct (bool_decide (Js.typeof (Js.get before "initialDirectory") = Js.TString)) eqn:Hd.
  - right. rewrite Hdir. by apply bool_decide_eq_true_1 in Hd.
  - left. rewrite <- Hdir. apply get_lookup. by rewrite Hdir.
Qed.

Lemma sessions_well_formed (stored : StoredSessionConfig) (source : UuidSource) :
  ∃ sanitized source',
    sanitizeSessionConfig stored source = (Normal sanitized, source')
    ∧ Forall well_formed_session sanitized.
Proof.
  destruct stored as [|sessionConfigs].
  - exists [], source. split; [reflexivity|constructor].
  - destruct (sanitizeSessionConfig_loop_result sessionConfigs source)
      as (sanitized & Hrun & Hlen & Hall).
    eexists _, _. split; [exact Hrun|].
    apply Forall_lookup. intros i after Hafter.
    destruct (lookup_lt_is_Some_2 sessionConfigs i) as [before Hbefore].
    { rewrite <- Hlen. by apply lookup_lt_Some in Hafter. }
    exact (session_sanitized_well_formed _ before after (Hall i before after Hbefore Hafter)).
Qed.

Lemma sessions_of_copy (copy : Js.value) :
  (if Js.is_nullish copy || negb (ConfigCopies.isArray copy)
   then [] else ConfigCopies.elements copy)
  = ConfigCopies.elements copy.
Proof. by destruct copy. Qed.

(** X5: [sanitizeSessionConfig] on whatever [getSessionConfigCopy] returns.
    When every element of the array is an object (and when there is no array,
    which counts as an empty one), it returns normally, with as many sessions
    as it was given and one call of [createUuid] for each; and in every
    session it returns the name, the uuid, the type and the arguments are
    strings and the initial directory is a string or an explicit null.  When
    an element of the array is not an object, it throws a TypeError at the
    first such element, after one call of [createUuid] for each session
    before it, and stores nothing. *)
Theorem sanitizeSessionConfig_well_formed (copy : Js.value) (source : UuidSource) :
  (Forall (λ v, is_object v = true) (ConfigCopies.elements copy) →
   ∃ sanitized source',
     ConfigCopies.sanitizeSessionConfig copy source = (Normal sanitized, source')
     ∧ Forall (λ session, well_formed_session (ConfigCopies.properties session)) sanitized
     ∧ length sanitized = length (ConfigCopies.elements copy)
     ∧ uuid_next source' = uuid_next source + length sanitized)
  ∧ (∀ good v rest,
       ConfigCopies.elements copy = good ++ v :: rest →
       Forall (λ v, is_object v = true) good →
       is_object v = false →
       ∃ source',
         ConfigCopies.sanitizeSessionConfig copy source = (Throw (type_error_at v), source')
         ∧ uuid_next source' = uuid_next source + length good).
Proof.
  unfold ConfigCopies.sanitizeSessionConfig. rewrite sessions_of_copy.
  generalize (ConfigCopies.elements copy). clear copy. intros sessionConfigs.
  split.
  - intros Hall.
    destruct (sanitizeSessionConfig_loop_objects sessionConfigs source Hall)
      as (sanitized & Hrun & Hlen & Heach).
    eexists _, _. split; [exact Hrun|].
    split; [|split; [exact Hlen|by rewrite Hlen]].
    apply Forall_lookup. intros i after Hafter.
    destruct (lookup_lt_is_Some_2 sessionConfigs i) as [before Hbefore].
    { rewrite <- Hlen. by apply lookup_lt_Some in Hafter. }
    destruct (Heach i before after Hbefore Hafter) as [_ Hsanitized].
    exact (session_sanitized_well_formed _ _ _ Hsanitized).
  - intros good v rest -> Hgood Hv.
    eexists. split; [exact (sanitizeSessionConfig_loop_stops good rest v source Hgood Hv)|].
    reflexivity.
Qed.

(** X6: a session whose uuid was missing or malformed gets the identifier
    that [createUuid] made for its position, so with a generator that never
    repeats itself two such sessions never share a uuid. *)
Theorem sanitizeSessionConfig_fresh_uuids_differ (sessionConfigs : list (gmap string Js.value))
    (source : UuidSource) (sanitized : list (gmap string Js.value)) (source' : UuidSource)
    (i j : nat) (before_i before_j after_i after_j : gmap string Js.value) :
  Inj (=) (=) (uuid_of source) →
  sanitizeSessionConfig (SessionArray sessionConfigs) source = (Normal sanitized, source') →
  sessionConfigs !! i = Some before_i → sanitized !! i = Some after_i →
  sessionConfigs !! j = Some before_j → sanitized !! j = Some after_j →
  malformed (Js.VStr "") (Js.get before_i "uuid") = true →
  malformed (Js.VStr "") (Js.get before_j "uuid") = true →
  i ≠ j →
  Js.get after_i "uuid" ≠ Js.get after_j "uuid".
Proof.
  intros Hinj Hrun Hbi Hai Hbj Haj Hmi Hmj Hij.
  destruct (sanitizeSessionConfig_loop_result sessionConfigs source)
    as (sanitized0 & Hrun0 & _ & Hall).
  unfold sanitizeSessionConfig in Hrun. rewrite Hrun0 in Hrun.
  injection Hrun as -> _.
  destruct (Hall i _ _ Hbi Hai) as (_ & Hui & _).
  destruct (Hall j _ _ Hbj Haj) as (_ & Huj & _).
  rewrite Hui, Huj, Hmi, Hmj. intros Heq.
  injection Heq as Heq. apply Hinj in Heq. lia.
Qed.

Lemma sanitizeSessionConfiguration_fixed (session : gmap string Js.value)
    (source : UuidSource) :
  well_formed_session session →
  fst (sanitizeSessionConfiguration session source) = Normal session.
Proof.
  intros (Hname & Huuid & Htype & Hdir & Hargs).
  rewrite sanitizeSessionConfiguration_statements. simpl. f_equal.
  rewrite (sanitizeField_well_typed session "name")
    by (by rewrite malformed_string, bool_decide_eq_true_2).
  rewrite (sanitizeField_well_typed session "uuid")
    by (by rewrite malformed_string, bool_decide_eq_true_2).
  assert (Hstep1 : reset_unless (λ v, bool_decide (Js.typeof v = Js.TString)) session
                     "type" (Js.VStr "") = session).
  { unfold reset_unless. by rewrite bool_decide_eq_true_2. }
  rewrite Hstep1.
  assert (Hstep2 : reset_unless
                     (λ v, negb (Js.is_nullish v) && bool_decide (Js.typeof v = Js.TString))
                     session "initialDirectory" Js.VNull = session).
  { unfold reset_unless. destruct Hdir as [Hnull|Hstring].
    - unfold Js.get. rewrite Hnull. simpl. unfold set_field. by apply insert_id.
    - rewrite (bool_decide_eq_true_2 _ Hstring).
      by destruct (Js.get session "initialDirectory"). }
  rewrite Hstep2.
  apply sanitizeField_well_typed. by rewrite malformed_string, bool_decide_eq_true_2.
Qed.

Lemma sanitizeSessionConfig_loop_fixed (sessions : list (gmap string Js.value))
    (source : UuidSource) :
  Forall well_formed_session sessions →
  fst (sanitizeSessionConfig_loop sessions source) = Normal sessions.
Proof.
  intros Hall. revert source. induction Hall as [|first rest Hfirst _ IH]; intros source.
  - reflexivity.
  - simpl. unfold bind.
    destruct (sanitizeSessionConfiguration_result first source) as (first' & Hrun & _).
    pose proof (sanitizeSessionConfiguration_fixed first source Hfirst) as Hfixed.
    rewrite Hrun in Hfixed. simpl in Hfixed. injection Hfixed as ->.
    rewrite Hrun.
    specialize (IH {| uuid_of := uuid_of source; uuid_next := S (uuid_next source) |}).
    destruct (sanitizeSessionConfig_loop rest _) as [[rest'| |] source']; simpl in IH;
      try discriminate.
    by injection IH as ->.
Qed.

(** X7: sanitizing the sessions a second time returns them as they are (only
    the uuid generator moves on): every session that [sanitizeSessionConfig]
    returns is a fixed point of it. *)
Theorem sanitizeSessionConfig_idempotent (stored : StoredSessionConfig)
    (source source2 : UuidSource) :
  ∃ sanitized source',
    sanitizeSessionConfig stored source = (Normal sanitized, source')
    ∧ fst (sanitizeSessionConfig (SessionArray sanitized) source2) = Normal sanitized.
Proof.
  destruct (sessions_well_formed stored source)
    as (sanitized & source' & Hrun & Hall).
  exists sanitized, source'. split; [exact Hrun|].
  by apply sanitizeSessionConfig_loop_fixed.
Qed.

End SessionProperties.

Section CommandLineActionProperties.
Import MainConfig ConfigStatements MainConfigRest ConfigStatementsMore CopyStatements.
Local Open Scope string_scope.
Local Open Scope list_scope.

Lemma sanitizeCommandLineAction_well_formed (action : gmap string Js.value) :
  well_formed_action (sanitizeCommandLineAction action).
Proof.
  unfold well_formed_action, sanitizeCommandLineAction. cbv zeta. read_field.
  split; [|split; [|split]].
  - apply (sanitized_enum_allowed frameRules "never_frame"). unfold frameRules. set_solver.
  - unfold malformed. by destruct (Js.get action "frameRuleLines").
  - unfold malformed. by destruct (Js.get action "match").
  - apply (sanitized_enum_allowed ["name"; "regexp"] "name"). set_solver.
Qed.

Lemma sanitizeStringEnumField_allowed (object : gmap string Js.value) (key : string)
    (availableValues : list string) (defaultValue : Js.value) :
  includes availableValues (Js.get object key) = true →
  sanitizeStringEnumField object key availableValues defaultValue = object.
Proof.
  intros Hin. unfold sanitizeStringEnumField. rewrite Hin.
  by destruct (Js.get object key).
Qed.

Lemma sanitizeCommandLineAction_fixed (action : gmap string Js.value) :
  well_formed_action action → sanitizeCommandLineAction action = action.
Proof.
  intros (Hrule & Hlines & Hmatch & Htype). unfold sanitizeCommandLineAction. cbv zeta.
  rewrite (sanitizeStringEnumField_allowed action "frameRule") by done.
  rewrite (sanitizeField_well_typed action "frameRuleLines")
    by (unfold malformed; by destruct (Js.get action "frameRuleLines")).
  rewrite (sanitizeField_well_typed action "match")
    by (by rewrite malformed_string, bool_decide_eq_true_2).
  by apply sanitizeStringEnumField_allowed.
Qed.

Lemma sanitizeCommandLineActionsConfig_loop_objects (commandLineActions : list Js.value) :
  Forall (λ v, is_object v = true) commandLineActions →
  ConfigCopies.sanitizeCommandLineActionsConfig_loop commandLineActions tt
  = (Normal ((λ action, with_fields action (sanitizeCommandLineAction (fields_of action)))
             <$> commandLineActions),
     tt).
Proof.
  intros Hall. induction Hall as [|action rest Haction _ IH]; [reflexivity|].
  cbn [ConfigCopies.sanitizeCommandLineActionsConfig_loop]. unfold bind at 1.
  rewrite (on_object_returns _ action tt tt (sanitizeCommandLineAction (fields_of action))
             Haction eq_refl).
  unfold bind. by rewrite IH.
Qed.

Lemma sanitizeCommandLineActionsConfig_loop_stops (good rest : list Js.value) (v : Js.value) :
  Forall (λ v, is_object v = true) good →
  is_object v = false →
  ConfigCopies.sanitizeCommandLineActionsConfig_loop (good ++ v :: rest) tt
  = (Throw (type_error_at v), tt).
Proof.
  intros Hgood Hv. induction Hgood as [|action good Haction _ IH].
  - cbn [app ConfigCopies.sanitizeCommandLineActionsConfig_loop]. unfold bind.
    by rewrite (on_object_throws _ v tt Hv).
  - cbn [app ConfigCopies.sanitizeCommandLineActionsConfig_loop]. unfold bind at 1.
    rewrite (on_object_returns _ action tt tt (sanitizeCommandLineAction (fields_of action))
               Haction eq_refl).
    unfold bind. by rewrite IH.
Qed.

(** X8: [sanitizeCommandLineActionsConfig] on whatever
    [getCommandLineActionConfigCopy] returns.  Something that is not an array
    becomes the one default action.  An array whose elements are objects
    keeps its length, and each of its actions comes out well formed (a frame
    rule and a match type out of their enumerations, a number of lines, a
    string to match) and such that the statements of the loop would change
    nothing in it.  At the first element of an array that is not an object it
    throws a TypeError and stores nothing. *)
Theorem sanitizeCommandLineActionsConfig_well_formed (copy : Js.value) :
  (ConfigCopies.isArray copy = false →
   ConfigCopies.sanitizeCommandLineActionsConfig copy tt
   = (Normal [ConfigCopies.PlainObject DEFAULT_COMMAND_LINE_ACTION], tt)
   ∧ well_formed_action DEFAULT_COMMAND_LINE_ACTION)
  ∧ (ConfigCopies.isArray copy = true →
     Forall (λ v, is_object v = true) (ConfigCopies.elements copy) →
     ∃ sanitized,
       ConfigCopies.sanitizeCommandLineActionsConfig copy tt = (Normal sanitized, tt)
       ∧ length sanitized = length (ConfigCopies.elements copy)
       ∧ Forall (λ action,
                   well_formed_action (ConfigCopies.properties action)
                   ∧ sanitizeCommandLineAction (ConfigCopies.properties action)
                     = ConfigCopies.properties action)
           sanitized)
  ∧ (∀ good v rest,
       ConfigCopies.isArray copy = true →
       ConfigCopies.elements copy = good ++ v :: rest →
       Forall (λ v, is_object v = true) good →
       is_object v = false →
       ConfigCopies.sanitizeCommandLineActionsConfig copy tt = (Throw (type_error_at v), tt)).
Proof.
  unfold ConfigCopies.sanitizeCommandLineActionsConfig.
  split; [|split].
  - intros ->. split; [reflexivity|]. by vm_compute.
  - intros -> Hall. cbn [negb].
    eexists. split; [exact (sanitizeCommandLineActionsConfig_loop_objects _ Hall)|].
    split; [apply length_fmap|].
    apply Forall_fmap, Forall_forall. intros action _. simpl.
    rewrite properties_with_fields.
    split; [apply sanitizeCommandLineAction_well_formed|].
    apply sanitizeCommandLineAction_fixed, sanitizeCommandLineAction_well_formed.
  - intros good v rest -> -> Hgood Hv. cbn [negb].
    exact (sanitizeCommandLineActionsConfig_loop_stops good rest v Hgood Hv).
Qed.

Example sanitizeCommandLineActionsConfig_two_actions :
  ConfigCopies.sanitizeCommandLineActionsConfig two_actions tt
  = (Normal
       [ ConfigCopies.PlainObject
           {[ "frameRule" := Js.VStr "never_frame"; "frameRuleLines" := num 5;
              "match" := Js.VStr "ls"; "matchType" := Js.VStr "name" ]};
         ConfigCopies.ArrayObject []
           {[ "frameRule" := Js.VStr "never_frame"; "frameRuleLines" := num 5;
              "match" := Js.VStr ""; "matchType" := Js.VStr "name" ]} ],
     tt)
  ∧ ConfigCopies.sanitizeCommandLineActionsConfig action_then_null tt
    = (Throw ConfigCopies.TYPE_ERROR_READ, tt).
Proof. vm_compute. split; reflexivity. Qed.

End CommandLineActionProperties.

Section SessionWitnesses.
Import MainConfig ConfigStatements MainConfigRest ConfigStatementsMore.
Local Open Scope string_scope.
Local Open Scope list_scope.

Lemma numbered_uuids_inj : Inj (=) (=) (uuid_of numbered_uuids).
Proof.
  intros m n Heq. simpl in Heq.
  apply (inj pretty). by apply (inj (String.append "uuid-")).
Qed.

Lemma sanitizeSessionConfig_fresh_uuids_differ_witness :
  Js.get ({[ "name" := Js.VStr "bash"; "uuid" := Js.VStr "uuid-0"; "type" := Js.VStr "";
             "initialDirectory" := Js.VNull; "args" := Js.VStr "" ]} : gmap string Js.value)
    "uuid"
  ≠ Js.get ({[ "name" := Js.VStr ""; "uuid" := Js.VStr "uuid-1"; "type" := Js.VStr "";
               "initialDirectory" := Js.VNull; "args" := Js.VStr "" ]} : gmap string Js.value)
      "uuid".
Proof.
  apply (sanitizeSessionConfig_fresh_uuids_differ
           [ {[ "name" := Js.VStr "bash"; "uuid" := num 7 ]}; ∅ ] numbered_uuids
           [ {[ "name" := Js.VStr "bash"; "uuid" := Js.VStr "uuid-0"; "type" := Js.VStr "";
                "initialDirectory" := Js.VNull; "args" := Js.VStr "" ]};
             {[ "name" := Js.VStr ""; "uuid" := Js.VStr "uuid-1"; "type" := Js.VStr "";
                "initialDirectory" := Js.VNull; "args" := Js.VStr "" ]} ]
           {| uuid_of := uuid_of numbered_uuids; uuid_next := 2 |}
           0 1 {[ "name" := Js.VStr "bash"; "uuid" := num 7 ]} ∅).
  - exact numbered_uuids_inj.
  - vm_compute. reflexivity.
  - reflexivity.
  - reflexivity.
  - reflexivity.
  - reflexivity.
  - vm_compute. reflexivity.
  - vm_compute. reflexivity.
  - lia.
Defined.

End SessionWitnesses.

Section SettingsDirectoryProperties.
Import MainConfig MainConfigRest PathStatements.
Local Open Scope string_scope.
Local Open Scope list_scope.

Lemma logged_nil (p : Process) : logged p [] = p.
Proof. destruct p. unfold logged. simpl. by rewrite app_nil_r. Qed.

Lemma pathsConfig_returns (p : Process) :
  ∃ entries,
    getUserSettingsDirectoryFromPathsConfig p
    = (Normal (configured_override p), logged p entries).
Proof.
  destruct p as [join exe data file cached lg].
  unfold getUserSettingsDirectoryFromPathsConfig, configured_override, logged.
  unfold bind, gets, log, modify, try_catch, read_and_parse, read_key, ret, throw, Js.get.
  simpl.
  destruct file as [|ex|[| |b|n|s|items|props]]; simpl;
    try (eexists; reflexivity);
    try (eexists; rewrite <- app_assoc; reflexivity).
  destruct (props !! PATHS_USER_SETTINGS_KEY) as [[| |b|n|s|items|inner]|]; simpl;
    try case_bool_decide; simpl;
    try (eexists; reflexivity);
    try (eexists; rewrite <- app_assoc; reflexivity).
Qed.

(** X9: [getUserSettingsDirectoryFromPathsConfig] never throws, whatever is
    in the paths configuration file, and changes nothing but the log.  It
    returns a directory only when the file parses to an object with a
    non-empty string under the key; it always logs where it looked first, and
    it logs the "unable to parse" warning exactly when the file is there and
    reading it throws. *)
Theorem getUserSettingsDirectoryFromPathsConfig_never_throws (p : Process) :
  ∃ entries,
    getUserSettingsDirectoryFromPathsConfig p
    = (Normal (configured_override p),
       logged p ((ExtensionContext.LogInfo,
                  looking_message (path_join p (exeDir p) PATHS_CONFIG_FILENAME)) :: entries))
    ∧ (length entries ≤ 1)%nat
    ∧ ((ExtensionContext.LogWarn,
        unable_message (path_join p (exeDir p) PATHS_CONFIG_FILENAME)) ∈ entries
       ↔ unusable (pathsConfigFile p) = true).
Proof.
  destruct p as [join exe data file cached lg].
  unfold getUserSettingsDirectoryFromPathsConfig, configured_override, logged.
  unfold bind, gets, log, modify, try_catch, read_and_parse, read_key, ret, throw, Js.get.
  simpl.
  destruct file as [|ex|[| |b|n|s|items|props]]; simpl.
  1: exists []; (split; [reflexivity|]); (split; [simpl; lia|]);
     (split; [by intros ?%elem_of_nil|done]).
  1,2,3: eexists [_]; (split; [rewrite <- app_assoc; reflexivity|]);
         (split; [simpl; lia|]);
         (split; [done|intros _; apply list_elem_of_singleton; reflexivity]).
  1,2,3,4: exists []; (split; [reflexivity|]); (split; [simpl; lia|]);
           (split; [by intros ?%elem_of_nil|done]).
  destruct (props !! PATHS_USER_SETTINGS_KEY) as [[| |b|n|s|items|inner]|] eqn:Hkey;
    simpl.
  1,2,8: exists []; (split; [reflexivity|]); (split; [simpl; lia|]);
         (split; [by intros ?%elem_of_nil|done]).
  1,2,4,5: eexists [_]; (split; [rewrite <- app_assoc; reflexivity|]);
           (split; [simpl; lia|]);
           (split; [intros Hin%list_elem_of_singleton; discriminate|done]).
  case_bool_decide; simpl.
  all: eexists [_]; (split; [rewrite <- app_assoc; reflexivity|]);
       (split; [simpl; lia|]);
       (split; [intros Hin%list_elem_of_singleton; discriminate|done]).
Qed.

Lemma getUserSettingsDirectory_settled (p : Process) (dir : string) :
  userSettingsPath p = Some dir → getUserSettingsDirectory p = (Normal dir, p).
Proof.
  intros Hcached. unfold getUserSettingsDirectory, bind, gets. by rewrite Hcached.
Qed.

Lemma getUserSettingsDirectory_first (p : Process) :
  userSettingsPath p = None →
  ∃ entries,
    getUserSettingsDirectory p
    = (Normal (default (path_join p (appData p) EXTRATERM_CONFIG_DIR) (configured_override p)),
       settled (logged p entries)
         (default (path_join p (appData p) EXTRATERM_CONFIG_DIR) (configured_override p))).
Proof.
  intros Hcached.
  destruct (pathsConfig_returns p) as (entries & Hrun).
  eexists. unfold getUserSettingsDirectory, bind, gets. rewrite Hcached, Hrun.
  destruct (configured_override p); reflexivity.
Qed.

Lemma getUserSettingsDirectory_result (p : Process) :
  ∃ p1,
    getUserSettingsDirectory p
    = (Normal (default (default (path_join p (appData p) EXTRATERM_CONFIG_DIR)
                          (configured_override p))
                 (userSettingsPath p)), p1)
    ∧ path_join p1 = path_join p
    ∧ userSettingsPath p1
      = Some (default (default (path_join p (appData p) EXTRATERM_CONFIG_DIR)
                         (configured_override p))
                (userSettingsPath p)).
Proof.
  destruct (userSettingsPath p) as [dir|] eqn:Hcached.
  - exists p. simpl. split; [by apply getUserSettingsDirectory_settled|by split].
  - destruct (getUserSettingsDirectory_first p Hcached) as (entries & Hrun).
    eexists. simpl. split; [exact Hrun|by split].
Qed.

(** X10: [getUserSettingsDirectory] returns the cached directory if there is
    one, else the directory the paths configuration file asks for, else
    [extraterm] below the application data directory.  It never throws, and
    it remembers the answer: whatever happens to the paths configuration file
    afterwards, the next call returns the same directory without looking at
    the file or logging anything. *)
Theorem getUserSettingsDirectory_remembers (p : Process) :
  ∃ p1,
    let dir := default (default (path_join p (appData p) EXTRATERM_CONFIG_DIR)
                          (configured_override p))
                 (userSettingsPath p) in
    getUserSettingsDirectory p = (Normal dir, p1)
    ∧ ∀ file, getUserSettingsDirectory (with_file p1 file) = (Normal dir, with_file p1 file).
Proof.
  destruct (getUserSettingsDirectory_result p) as (p1 & Hrun & _ & Hcached).
  exists p1. split; [exact Hrun|].
  intros file. by apply getUserSettingsDirectory_settled.
Qed.

(** X11: the configuration file, the keybindings directory and the theme
    directory are all below one and the same settings directory, also when
    the paths configuration file changes between the calls. *)
Theorem settings_paths_share_directory (p : Process) (file1 file2 : PathsConfigFile) :
  ∃ dir p1 p2 p3,
    getConfigurationFilename p = (Normal (path_join p dir "extraterm.json"), p1)
    ∧ getUserKeybindingsDirectory (with_file p1 file1)
      = (Normal (path_join p dir "keybindings"), p2)
    ∧ getUserThemeDirectory (with_file p2 file2) = (Normal (path_join p dir "themes"), p3).
Proof.
  destruct (getUserSettingsDirectory_result p) as (p1 & Hfirst & Hjoin & Hcached).
  eexists _, p1, (with_file p1 file1), (with_file (with_file p1 file1) file2).
  split; [|split].
  - unfold getConfigurationFilename, bind, gets. rewrite Hfirst. by rewrite Hjoin.
  - unfold getUserKeybindingsDirectory, bind, gets.
    rewrite (getUserSettingsDirectory_settled (with_file p1 file1) _ Hcached).
    simpl. by rewrite Hjoin.
  - unfold getUserThemeDirectory, bind, gets.
    rewrite (getUserSettingsDirectory_settled (with_file (with_file p1 file1) file2) _ Hcached).
    simpl. by rewrite Hjoin.
Qed.

End SettingsDirectoryProperties.

Section WindowProperties.
Import MainWeb WindowStatements.
Local Open Scope string_scope.
Local Open Scope list_scope.
Context {M : Type} `{ExtensionManager M}.

(** X12: [handleExecuteCommand] never throws, whatever the command does.  It
    calls [executeCommand] exactly once, with the name and the arguments of
    the message, touches neither the log nor the event flags, and when it
    ends it has sent exactly one response, which carries the uuid of the
    request.  Only while the command's promise is pending nothing has been
    sent. *)
Theorem handleExecuteCommand_one_call_one_response (msg : ExecuteCommandMessage)
    (w : Window M) :
  ∃ completion w',
    handleExecuteCommand msg w = (completion, w')
    ∧ (∀ e, completion ≠ Throw e)
    ∧ executed w' = executed w ++ [(commandName msg, args msg)]
    ∧ _log w' = _log w
    ∧ propagationStopped w' = propagationStopped w
    ∧ defaultPrevented w' = defaultPrevented w
    ∧ match completion with
      | Normal _ =>
          ∃ result exception,
            sent w' = sent w ++ [{| response_uuid := uuid msg; response_result := result;
                                    response_exception := exception |}]
      | _ =>
          sent w' = sent w
          ∧ fst (executeCommand (commandName msg) (args msg) (extensionManager w))
            = ReturnsPromise Pending
      end.
Proof.
  rewrite handleExecuteCommand_outcome.
  destruct (executeCommand (commandName msg) (args msg) (extensionManager w))
    as [[v|[v|e|]|e] m]; eexists _, _; (split; [reflexivity|]); simpl;
    repeat (split; [done|]); eauto.
Qed.

(** X13: when the command returns a value, or a promise that is fulfilled
    with a value, the one response of [handleExecuteCommand] carries that
    value and a null exception. *)
Theorem handleExecuteCommand_reports_result (msg : ExecuteCommandMessage) (w : Window M)
    (v : Js.value) (m : M) :
  executeCommand (commandName msg) (args msg) (extensionManager w) = (Returns v, m)
  ∨ executeCommand (commandName msg) (args msg) (extensionManager w)
    = (ReturnsPromise (Fulfilled v), m) →
  ∃ w',
    handleExecuteCommand msg w = (Normal tt, w')
    ∧ sent w' = sent w ++ [{| response_uuid := uuid msg; response_result := Plain v;
                               response_exception := None |}]
    ∧ extensionManager w' = m.
Proof.
  intros Hcall. rewrite handleExecuteCommand_outcome.
  destruct Hcall as [-> | ->]; eexists; (split; [reflexivity|]); by split.
Qed.

(** X14: when no enabled command is bound to the key, [handleKeyCapture]
    only tells the extension manager about the event: nothing is executed or
    logged, and the event is neither stopped nor prevented. *)
Theorem handleKeyCapture_without_match (keybindingsManager : KeybindingsManagerImpl)
    (ev : KeyboardEvent) (w : Window M) (mapping : TermKeybindingsMapping) :
  getKeybindingsMapping keybindingsManager = Some mapping →
  (let m := updateExtensionWindowStateFromEvent ev (extensionManager w) in
   queryCommands
     {| commands := Some (mapping ev);
        categories := if isInputFieldFocus m then Some ["application"; "window"] else None;
        when := true |} m) = [] →
  handleKeyCapture keybindingsManager ev w
  = (Normal tt,
     set_extensionManager (updateExtensionWindowStateFromEvent ev (extensionManager w)) w).
Proof.
  intros Hmapping Hquery. simpl in Hquery.
  unfold handleKeyCapture, bind, gets, modify, ret. rewrite Hmapping. simpl.
  by rewrite Hquery.
Qed.

(** X15: when a command matches, the event is stopped and its default
    prevented exactly when the call of [executeCommand] returns, be it with a
    promise that is never looked at; when the call throws, the exception
    leaves [handleKeyCapture] and the event is left as it was.  No response is
    sent either way. *)
Theorem handleKeyCapture_stops_event_unless_command_throws
    (keybindingsManager : KeybindingsManagerImpl) (ev : KeyboardEvent) (w : Window M)
    (mapping : TermKeybindingsMapping)
    (first : ExtensionContext.ExtensionCommandContribution)
    (others : list ExtensionContext.ExtensionCommandContribution) :
  getKeybindingsMapping keybindingsManager = Some mapping →
  (let m := updateExtensionWindowStateFromEvent ev (extensionManager w) in
   queryCommands
     {| commands := Some (mapping ev);
        categories := if isInputFieldFocus m then Some ["application"; "window"] else None;
        when := true |} m) = first :: others →
  let '(completion, w') := handleKeyCapture keybindingsManager ev w in
  sent w' = sent w
  ∧ match fst (executeCommand (ExtensionContext.command first) Js.VUndefined
                 (updateExtensionWindowStateFromEvent ev (extensionManager w))) with
    | Throws e =>
        completion = Throw e
        ∧ propagationStopped w' = propagationStopped w
        ∧ defaultPrevented w' = defaultPrevented w
    | _ =>
        completion = Normal tt
        ∧ propagationStopped w' = true
        ∧ defaultPrevented w' = true
    end.
Proof.
  intros Hmapping Hquery. simpl in Hquery.
  unfold handleKeyCapture, bind, gets, modify, ret. rewrite Hmapping. simpl.
  rewrite Hquery. simpl.
  unfold call_executeCommand, _log_warn, stopPropagation, preventDefault, modify, ret.
  destruct others as [|second others]; simpl;
    destruct (executeCommand _ _ _) as [[v|p|e] m']; simpl; done.
Qed.

End WindowProperties.

Section WindowWitnesses.
Import MainWeb WindowStatements WindowStatementsMore.
Local Open Scope string_scope.
Local Open Scope list_scope.

Lemma handleExecuteCommand_reports_result_witness :
  ∃ w',
    handleExecuteCommand copy_request (empty_window two_commands) = (Normal tt, w')
    ∧ sent w' = [{| response_uuid := "request-2"; response_result := Plain Js.VUndefined;
                    response_exception := None |}]
    ∧ extensionManager w' = two_commands.
Proof.
  apply (handleExecuteCommand_reports_result copy_request (empty_window two_commands)
           Js.VUndefined two_commands).
  left. reflexivity.
Defined.

Lemma handleKeyCapture_without_match_witness :
  handleKeyCapture unbound_bindings key_c (empty_window two_commands)
  = (Normal tt, empty_window two_commands).
Proof.
  exact (handleKeyCapture_without_match unbound_bindings key_c (empty_window two_commands)
           (λ _, ["ext:unknown"]) eq_refl eq_refl).
Defined.

Lemma handleKeyCapture_stops_event_unless_command_throws_witness :
  let '(completion, w') :=
    handleKeyCapture conflicting_bindings key_c (empty_window two_commands) in
  sent w' = []
  ∧ completion = Normal tt ∧ propagationStopped w' = true ∧ defaultPrevented w' = true.
Proof.
  exact (handleKeyCapture_stops_event_unless_command_throws conflicting_bindings key_c
           (empty_window two_commands) (λ _, ["ext:copy"; "ext:paste"])
           copy_contribution [paste_contribution] eq_refl eq_refl).
Defined.

End WindowWitnesses.

Section SplashProperties.
Import MainWebRest.

(** X16: [closeSplash] calls the function it was given at most once more:
    when the call returns, the function is forgotten and every later
    [closeSplash] does nothing at all; a function that throws is kept, and
    its exception leaves [closeSplash]. *)
Theorem closeSplash_closes_once (s : Splash) :
  match closeSplash s with
  | (Normal _, s1) =>
      closeSplashFunc s1 = None
      ∧ closeSplashCalls s1 = match closeSplashFunc s with
                              | Some _ => S (closeSplashCalls s)
                              | None => closeSplashCalls s
                              end
      ∧ closeSplash s1 = (Normal tt, s1)
  | (Throw ex, s1) =>
      closeSplashFunc s = Some (Some ex)
      ∧ closeSplashFunc s1 = closeSplashFunc s
      ∧ closeSplashCalls s1 = S (closeSplashCalls s)
  | (Suspended, _) => False
  end.
Proof.
  destruct s as [[[ex|]|] calls]; cbn; auto.
Qed.

End SplashProperties.

Section MouseButtonFacts.
Import MainConfig ConfigStatements ConfigStatementsMore MainWebRest MainWebStatements.
Local Open Scope string_scope.
Local Open Scope list_scope.

Lemma land_2_testbit (b : Z) : Z.land b 2 = 0%Z ↔ Z.testbit b 1 = false.
Proof.
  split.
  - intros Hland.
    assert (Hbit : Z.testbit (Z.land b 2) 1 = false) by (by rewrite Hland).
    rewrite Z.land_spec in Hbit. by rewrite andb_true_r in Hbit.
  - intros Hbit. apply Z.bits_inj'. intros n Hn.
    rewrite Z.land_spec, Z.bits_0.
    change 2%Z with (2 ^ 1)%Z. rewrite Z.pow2_bits_eqb by lia.
    destruct (Z.eqb_spec 1 n) as [<-|_]; [by rewrite Hbit|apply andb_false_r].
Qed.

Lemma typeof_sanitized_by_string (d : string) (v : Js.value) :
  Js.typeof (sanitized_by (Js.VStr d) v) = Js.TString.
Proof.
  unfold sanitized_by. rewrite malformed_string. by case_bool_decide.
Qed.

Lemma mousedown_listener_action (generalConfig : gmap string Js.value) (ev : MouseEvent)
    (key : string) (p : Page) (action : string) :
  which ev = 2%Z →
  mapEventToMouseButtonActionKey ev = Some key →
  Js.get generalConfig key = Js.VStr action →
  mousedown_listener generalConfig ev p
  = (Normal tt,
     {| clipboardReadRequests :=
          if bool_decide ("paste" = action) then S (clipboardReadRequests p)
          else clipboardReadRequests p;
        defaultPrevented := true; propagationStopped := true |}).
Proof.
  intros Hwhich Hkey Haction.
  unfold mousedown_listener. rewrite Hwhich, Hkey. cbn [Z.eqb Pos.eqb property_name].
  cbv zeta. rewrite Haction. unfold is_string, bind, modify, ret.
  by case_bool_decide.
Qed.

Lemma mapEventToMouseButtonActionKey_cases (ev : MouseEvent) :
  match mapEventToMouseButtonActionKey ev with
  | Some key =>
      key ∈ mouseButtonActionKeys
      ∧ String.prefix "middle" key = (buttons ev =? 4)%Z
      ∧ (buttons ev = 4%Z ∨ Z.testbit (buttons ev) 1 = true)
  | None => buttons ev ≠ 4%Z ∧ Z.testbit (buttons ev) 1 = false
  end.
Proof.
  unfold mapEventToMouseButtonActionKey. cbv zeta.
  destruct (Z.eqb_spec (buttons ev) 4) as [Hmiddle|Hmiddle]; simpl.
  - destruct (ctrlKey ev), (shiftKey ev); (split; [|split; [reflexivity|by left]]);
      unfold mouseButtonActionKeys; set_solver.
  - destruct (Z.eqb_spec (Z.land (buttons ev) 2) 0) as [Hright|Hright]; simpl.
    + split; [done|]. by apply land_2_testbit.
    + assert (Z.testbit (buttons ev) 1 = true) as Hbit.
      { destruct (Z.testbit (buttons ev) 1) eqn:Hbit; [done|].
        by apply land_2_testbit in Hbit. }
      destruct (ctrlKey ev), (shiftKey ev); (split; [|split; [reflexivity|by right]]);
        unfold mouseButtonActionKeys; set_solver.
Qed.

End MouseButtonFacts.

Section MouseProperties.
Import MainConfig ConfigStatements ConfigStatementsMore MainWebRest MainWebStatements.
Local Open Scope string_scope.
Local Open Scope list_scope.
Variable platform : string.
Variable AllLogicalKeybindingsNames : list string.
Variable FALLBACK_TERMINAL_THEME : string.
Variable FALLBACK_SYNTAX_THEME : string.
Variable getTheme : string → option ThemeInfo.
Variable availableFonts : list FontInfo.

#[local] Abbreviation sanitize :=
  (sanitizeGeneralConfig platform AllLogicalKeybindingsNames
     FALLBACK_TERMINAL_THEME FALLBACK_SYNTAX_THEME getTheme).
#[local] Abbreviation transformer :=
  (transformer_of platform AllLogicalKeybindingsNames FALLBACK_TERMINAL_THEME
     FALLBACK_SYNTAX_THEME getTheme availableFonts).

Lemma mouse_transformers (key : string) :
  key ∈ mouseButtonActionKeys →
  ∃ d, transformer key = sanitized_by (Js.VStr d)
       ∧ d = (if String.prefix "middle" key then "paste" else "context_menu").
Proof.
  intros Hkey. unfold mouseButtonActionKeys in Hkey.
  repeat (apply elem_of_cons in Hkey as [->|Hkey]); try (by apply elem_of_nil in Hkey);
    eexists; (split; [reflexivity|reflexivity]).
Qed.

(** X17: [mapEventToMouseButtonActionKey] returns null exactly when neither
    the middle button alone nor the right button is down; otherwise it names
    one of the six mouse button fields of the general configuration, each of
    which [sanitizeGeneralConfig] has made a string. *)
Theorem mapEventToMouseButtonActionKey_names_sanitized_field (ev : MouseEvent)
    (stored : option (gmap string Js.value)) :
  match mapEventToMouseButtonActionKey ev with
  | Some key =>
      (buttons ev = 4%Z ∨ Z.testbit (buttons ev) 1 = true)
      ∧ key ∈ mouseButtonActionKeys
      ∧ Js.typeof (Js.get (sanitize stored availableFonts) key) = Js.TString
  | None => buttons ev ≠ 4%Z ∧ Z.testbit (buttons ev) 1 = false
  end.
Proof.
  pose proof (mapEventToMouseButtonActionKey_cases ev) as Hcases.
  destruct (mapEventToMouseButtonActionKey ev) as [key|]; [|exact Hcases].
  destruct Hcases as (Hkey & _ & Hbuttons).
  split; [exact Hbuttons|]. split; [exact Hkey|].
  pose proof (generalConfig_fieldwise platform AllLogicalKeybindingsNames
                FALLBACK_TERMINAL_THEME FALLBACK_SYNTAX_THEME getTheme availableFonts
                stored key) as Hfield.
  destruct (mouse_transformers key Hkey) as (d & Htransformer & _).
  rewrite Htransformer in Hfield.
  generalize dependent (Js.get (sanitize stored availableFonts) key).
  intros sanitized ->. apply typeof_sanitized_by_string.
Qed.

(** X18: on a configuration that [sanitizeGeneralConfig] has filled in, a
    middle click pastes by default: when the stored configuration has no
    usable value in the field that the event names, the [mousedown] listener
    requests the clipboard exactly when that field is one of the middle
    button, and it prevents the default and stops the event either way. *)
Theorem mousedown_listener_default_action (ev : MouseEvent)
    (stored : option (gmap string Js.value)) (key : string) (p : Page) :
  which ev = 2%Z →
  mapEventToMouseButtonActionKey ev = Some key →
  Js.typeof (Js.get (default ∅ stored) key) ≠ Js.TString →
  mousedown_listener (sanitize stored availableFonts) ev p
  = (Normal tt,
     {| clipboardReadRequests :=
          if (buttons ev =? 4)%Z then S (clipboardReadRequests p)
          else clipboardReadRequests p;
        defaultPrevented := true; propagationStopped := true |}).
Proof.
  intros Hwhich Hkey Hstored.
  pose proof (mapEventToMouseButtonActionKey_cases ev) as Hcases.
  rewrite Hkey in Hcases. destruct Hcases as (Hin & Hmiddle & _).
  pose proof (generalConfig_fieldwise platform AllLogicalKeybindingsNames
                FALLBACK_TERMINAL_THEME FALLBACK_SYNTAX_THEME getTheme availableFonts
                stored key) as Hfield.
  destruct (mouse_transformers key Hin) as (d & Htransformer & Hd).
  rewrite Htransformer in Hfield. unfold sanitized_by in Hfield.
  rewrite malformed_string, bool_decide_eq_false_2 in Hfield by exact Hstored.
  rewrite Hmiddle in Hd.
  rewrite (mousedown_listener_action _ ev key p d Hwhich Hkey Hfield).
  subst d. by destruct (buttons ev =? 4)%Z.
Qed.

End MouseProperties.

Section FontProperties.
Import MainConfig ConfigStatements ConfigStatementsMore MainWebRest.
Local Open Scope string_scope.
Local Open Scope list_scope.

Lemma getFontFilePath_head (availableFonts : list FontInfo) (fontFamily : string) :
  getFontFilePath availableFonts fontFamily
  = fontPath <$> (matchingFonts availableFonts fontFamily !! 0%nat).
Proof.
  induction availableFonts as [|fontInfo rest IH]; simpl; [reflexivity|].
  rewrite (String.eqb_sym fontFamily).
  destruct (String.eqb (postscriptName fontInfo) fontFamily); [reflexivity|exact IH].
Qed.

(** X19: the two ways in which [applyConfiguration] looks up the file of a
    font agree: [matchingFonts[0].path] is what [getFontFilePath] returns, and
    it throws exactly where [getFontFilePath] returns null, that is, when no
    available font has the name. *)
Theorem getFontFilePath_first_matching_font {S : Type} (availableFonts : list FontInfo)
    (fontFamily : string) (s : S) :
  first_matching_font_path availableFonts fontFamily s
  = match getFontFilePath availableFonts fontFamily with
    | Some path => (Normal path, s)
    | None => (Throw (Js.Error "TypeError: Cannot read properties of undefined"), s)
    end
  ∧ (getFontFilePath availableFonts fontFamily = None
     ↔ fontFamily ∉ postscriptName <$> availableFonts)
  ∧ ∀ path, getFontFilePath availableFonts fontFamily = Some path →
            ∃ before fontInfo after,
              availableFonts = before ++ fontInfo :: after
              ∧ postscriptName fontInfo = fontFamily
              ∧ fontPath fontInfo = path
              ∧ fontFamily ∉ postscriptName <$> before.
Proof.
  split; [|split].
  - unfold first_matching_font_path. rewrite getFontFilePath_head.
    by destruct (matchingFonts availableFonts fontFamily !! 0%nat).
  - induction availableFonts as [|fontInfo rest IH]; simpl.
    + split; [intros _; apply not_elem_of_nil|done].
    + destruct (String.eqb_spec fontFamily (postscriptName fontInfo)) as [->|Hne].
      * split; [done|]. intros Hnot. exfalso. apply Hnot. apply elem_of_cons. by left.
      * rewrite IH, not_elem_of_cons. split; [by split|by intros [_ ?]].
  - induction availableFonts as [|fontInfo rest IH]; simpl; intros path Hpath; [done|].
    destruct (String.eqb_spec fontFamily (postscriptName fontInfo)) as [->|Hne].
    + injection Hpath as <-. exists [], fontInfo, rest.
      repeat split; try done. apply not_elem_of_nil.
    + destruct (IH path Hpath) as (before & found & after & -> & Hname & Hfile & Hnot).
      exists (fontInfo :: before), found, after. repeat split; try done.
      rewrite fmap_cons, not_elem_of_cons. by split.
Qed.

End FontProperties.

Section ThemeTypeProperties.
Import MainConfig MainWebRest.
Local Open Scope list_scope.

Lemma Set_add_NoDup (x : ThemeType) (s : list ThemeType) : NoDup s → NoDup (Set_add x s).
Proof.
  intros Hs. unfold Set_add. case_bool_decide as Hin; [done|].
  apply NoDup_app. split; [done|]. split; [|apply NoDup_singleton].
  intros y Hy ->%list_elem_of_singleton. done.
Qed.

Lemma Set_add_elem (x y : ThemeType) (s : list ThemeType) :
  y ∈ Set_add x s ↔ y = x ∨ y ∈ s.
Proof.
  unfold Set_add. case_bool_decide as Hin.
  - split; [by right|]. by intros [->|?].
  - rewrite elem_of_app, list_elem_of_singleton. tauto.
Qed.

Lemma new_Set_from (l s : list ThemeType) :
  NoDup s →
  NoDup (foldl (λ s x, Set_add x s) s l)
  ∧ ∀ y, y ∈ foldl (λ s x, Set_add x s) s l ↔ y ∈ s ∨ y ∈ l.
Proof.
  revert s. induction l as [|x l IH]; intros s Hs; simpl.
  - split; [done|]. intros y. rewrite elem_of_nil. tauto.
  - destruct (IH (Set_add x s) (Set_add_NoDup x s Hs)) as [Hnodup Helem].
    split; [done|]. intros y. rewrite Helem, Set_add_elem, elem_of_cons. tauto.
Qed.

Lemma indexOf_from_found {A} (same : A → A → bool) (l : list A) (x : A) (i : Z) :
  (0 ≤ i)%Z →
  (indexOf_from same l x i = -1)%Z ↔ Forall (λ y, same y x = false) l.
Proof.
  revert i. induction l as [|y l IH]; intros i Hi; simpl.
  - split; [constructor|done].
  - destruct (same y x) eqn:Hsame.
    + split; [lia|]. intros Hall. apply Forall_cons in Hall as [Hy _]. congruence.
    + rewrite IH by lia. split; [by constructor|]. by intros [_ ?]%Forall_cons.
Qed.

(** X20: the theme types that [asyncRequestThemeContents] requests: each one
    once; all three when the list given is empty; otherwise the ones of the
    list, and the GUI theme as well whenever the terminal theme is among
    them. *)
Theorem neededThemeTypes_requests (refreshThemeTypeList : list ThemeType) :
  NoDup (neededThemeTypes refreshThemeTypeList)
  ∧ (∀ themeType,
       themeType ∈ neededThemeTypes refreshThemeTypeList
       ↔ refreshThemeTypeList = []
         ∨ themeType ∈ refreshThemeTypeList
         ∨ (themeType = ThemeGui ∧ ThemeTerminal ∈ refreshThemeTypeList))
  ∧ (ThemeTerminal ∈ neededThemeTypes refreshThemeTypeList →
     ThemeGui ∈ neededThemeTypes refreshThemeTypeList).
Proof.
  destruct (new_Set_from refreshThemeTypeList [] (NoDup_nil_2)) as [Hnodup Helem].
  fold (new_Set refreshThemeTypeList) in Hnodup, Helem.
  assert (Hall : NoDup (neededThemeTypes refreshThemeTypeList)
                 ∧ ∀ themeType,
                     themeType ∈ neededThemeTypes refreshThemeTypeList
                     ↔ refreshThemeTypeList = []
                       ∨ themeType ∈ refreshThemeTypeList
                       ∨ (themeType = ThemeGui ∧ ThemeTerminal ∈ refreshThemeTypeList)).
  { unfold neededThemeTypes. cbv zeta.
    destruct refreshThemeTypeList as [|first rest] eqn:Hlist.
    - simpl. split; [repeat apply Set_add_NoDup; constructor|].
      intros themeType. split; [by left|]. intros _.
      rewrite !Set_add_elem. destruct themeType; tauto.
    - rewrite <- Hlist in *. replace (length refreshThemeTypeList =? 0)%nat with false
        by (by rewrite Hlist).
      destruct (Z.eqb_spec
                  (indexOf (λ a b, bool_decide (a = b)) refreshThemeTypeList ThemeTerminal)
                  (-1)) as [Habsent|Hpresent]; simpl.
      + apply indexOf_from_found in Habsent; [|done].
        assert (ThemeTerminal ∉ refreshThemeTypeList) as Hnot.
        { intros Hin. rewrite Forall_forall in Habsent. specialize (Habsent _ Hin).
          by rewrite bool_decide_eq_true_2 in Habsent. }
        split; [done|]. intros themeType. rewrite Helem, elem_of_nil.
        split; [tauto|]. intros [Hnil|[Hin|[_ Hin]]]; [congruence|tauto|done].
      + assert (ThemeTerminal ∈ refreshThemeTypeList) as Hin.
        { destruct (decide (ThemeTerminal ∈ refreshThemeTypeList)) as [Hin|Hnot]; [done|].
          exfalso. apply Hpresent. apply indexOf_from_found; [done|].
          apply Forall_forall. intros y Hy. apply bool_decide_eq_false_2.
          intros ->. done. }
        split; [by apply Set_add_NoDup|].
        intros themeType. rewrite Set_add_elem, Helem, elem_of_nil.
        split; [tauto|]. intros [Hnil|[Hin'|[-> _]]]; [congruence|tauto|tauto]. }
  destruct Hall as [Hnodup' Helem']. split; [done|]. split; [done|].
  rewrite !Helem'. intros [Hnil|[Hin|[Hcontra _]]]; [by left|right; right; by split|done].
Qed.

(** X27: the themes that [applyConfiguration] has rendered again when the
    general configuration changes: none when none of the seven fields it
    looks at differs; otherwise each at most once, the syntax theme exactly
    when [themeSyntax] differs, the terminal theme exactly when
    [themeTerminal] or [gpuDriverWorkaround] differs, and the GUI theme
    exactly when one of its five fields differs or the terminal theme is
    rendered again. *)
Theorem themes_requested_on_change_cover_the_change (changed : string → bool) :
  let requested := themes_requested_on_change changed in
  NoDup requested
  ∧ (ThemeSyntax ∈ requested ↔ changed "themeSyntax" = true)
  ∧ (ThemeTerminal ∈ requested
     ↔ changed "themeTerminal" = true ∨ changed "gpuDriverWorkaround" = true)
  ∧ (ThemeGui ∈ requested
     ↔ changed "themeGUI" = true ∨ changed "terminalMarginStyle" = true
       ∨ changed "windowBackgroundMode" = true
       ∨ changed "windowBackgroundTransparencyPercent" = true
       ∨ changed "themeTerminal" = true ∨ changed "gpuDriverWorkaround" = true).
Proof.
  unfold themes_requested_on_change, refreshThemeTypeList. cbv zeta.
  destruct (changed "themeSyntax"), (changed "themeGUI"), (changed "terminalMarginStyle"),
    (changed "windowBackgroundMode"), (changed "windowBackgroundTransparencyPercent"),
    (changed "themeTerminal"), (changed "gpuDriverWorkaround");
    apply (bool_decide_unpack _); vm_compute; exact I.
Qed.

End ThemeTypeProperties.

Section KeybindingsManagerProperties.
Import MainWebRest MainWebStatements.
Local Open Scope list_scope.

Lemma run_calls_app (calls1 calls2 : list ManagerCall) (this : KeybindingsManagerState) :
  run_calls (calls1 ++ calls2) this
  = run_calls calls2 (snd (run_calls calls1 this)).
Proof.
  revert this. induction calls1 as [|call rest IH]; intros this; simpl; [reflexivity|].
  unfold bind. destruct call as [mapping|on]; simpl; apply IH.
Qed.

(** X21: whatever calls of [setKeybindingsMapping] and [setEnabled] a new
    keybindings manager receives, none of them throws, and afterwards the
    manager holds the mapping installed last, the enabled flag of that
    mapping object is the manager's own, which is the one set last (true if
    none was), one change event was fired for each mapping, and the global
    keybindings were told of each [setEnabled] in turn. *)
Theorem keybindings_manager_keeps_mapping_in_step (calls : list ManagerCall) :
  ∃ this,
    run_calls calls new_KeybindingsManagerImpl = (Normal tt, this)
    ∧ enabled this = List.last (enabled_arguments calls) true
    ∧ mapping_id <$> keybindingsMappingObject this
      = mapping_id <$> last (installed_mappings calls)
    ∧ (∀ mapping, keybindingsMappingObject this = Some mapping →
                  mapping_enabled mapping = enabled this)
    ∧ changesFired this = length (installed_mappings calls)
    ∧ globalKeybindingsCalls this = enabled_arguments calls.
Proof.
  induction calls as [|call calls IH] using rev_ind.
  - eexists. split; [reflexivity|]. simpl. repeat split; try done.
  - destruct IH as (this & Hrun & Henabled & Hmapping & Hsync & Hfired & Hglobal).
    rewrite run_calls_app, Hrun. simpl.
    unfold enabled_arguments, installed_mappings in *.
    rewrite !omap_app. simpl.
    destruct call as [mapping|on]; simpl.
    + eexists. split; [reflexivity|]. simpl.
      rewrite !app_nil_r, last_snoc, length_app. simpl.
      split; [exact Henabled|]. split; [reflexivity|].
      split; [by intros ? [= <-]|]. split; [lia|exact Hglobal].
    + eexists. split; [reflexivity|]. simpl.
      rewrite !app_nil_r, List.last_last.
      split; [reflexivity|]. split.
      { rewrite <- Hmapping. by destruct (keybindingsMappingObject this). }
      split.
      { intros mapping Hsome. destruct (keybindingsMappingObject this); [|done].
        by injection Hsome as <-. }
      split; [exact Hfired|by rewrite Hglobal].
Qed.

End KeybindingsManagerProperties.

Section MouseWitnesses.
Import MainConfig ConfigStatements MainWebRest MainWebStatements.
Local Open Scope string_scope.
Local Open Scope list_scope.

Lemma mousedown_listener_default_action_witness :
  mousedown_listener
    (sanitizeGeneralConfig "linux" ["pc-style"; "macos-style"] "default-terminal"
       "default-syntax" (λ _, None) (Some corrupt_general_config) [])
    middle_click fresh_page
  = (Normal tt,
     {| clipboardReadRequests := 1; defaultPrevented := true; propagationStopped := true |}).
Proof.
  apply (mousedown_listener_default_action "linux" ["pc-style"; "macos-style"]
           "default-terminal" "default-syntax" (λ _, None) [] middle_click
           (Some corrupt_general_config) "middleMouseButtonShiftAction" fresh_page).
  - reflexivity.
  - reflexivity.
  - vm_compute. discriminate.
Defined.

End MouseWitnesses.

Section CommandMenuProperties.
Import ExtensionContext ContextStatements.
Local Open Scope string_scope.
Local Open Scope list_scope.

Lemma set_menu_flag_twice (menuType : MenuType) (a b : bool) (entry : CommandMenuEntry) :
  set_menu_flag menuType b (set_menu_flag menuType a entry) = set_menu_flag menuType b entry.
Proof. by destruct menuType. Qed.

Lemma set_menu_flag_commute (menuType1 menuType2 : MenuType) (a b : bool)
    (entry : CommandMenuEntry) :
  menuType1 ≠ menuType2 →
  set_menu_flag menuType2 b (set_menu_flag menuType1 a entry)
  = set_menu_flag menuType1 a (set_menu_flag menuType2 b entry).
Proof. by destruct menuType1, menuType2. Qed.

Lemma setCommandMenu_known (this : ExtensionContextImpl) (commandName : string)
    (menuType : MenuType) (on : bool) (entryList : list CommandMenuEntry) :
  _commandToMenuEntryMap (commands this) !! commandName = Some entryList →
  _setCommandMenu commandName menuType on this
  = (Normal tt,
     set_commands
       {| _commandToFunctionMap := _commandToFunctionMap (commands this);
          _commandToMenuEntryMap :=
            <[commandName := set_menu_flag menuType on <$> entryList]>
              (_commandToMenuEntryMap (commands this)) |}
       this).
Proof. intros Hget. unfold _setCommandMenu, bind, gets. by rewrite Hget. Qed.

Lemma setCommandMenu_unknown (this : ExtensionContextImpl) (commandName : string)
    (menuType : MenuType) (on : bool) :
  _commandToMenuEntryMap (commands this) !! commandName = None →
  _setCommandMenu commandName menuType on this = (Normal tt, this).
Proof. intros Hget. unfold _setCommandMenu, bind, gets. by rewrite Hget. Qed.

(** X22: of two calls of [_setCommandMenu] for the same command and the same
    menu the last one wins: the pair leaves the context exactly as the second
    call alone leaves it. *)
Theorem setCommandMenu_last_call_wins (this : ExtensionContextImpl) (commandName : string)
    (menuType : MenuType) (first second : bool) :
  bind (_setCommandMenu commandName menuType first)
    (λ _, _setCommandMenu commandName menuType second) this
  = _setCommandMenu commandName menuType second this.
Proof.
  unfold bind at 1.
  destruct (_commandToMenuEntryMap (commands this) !! commandName) as [entryList|] eqn:Hget.
  - rewrite (setCommandMenu_known this commandName menuType first entryList Hget).
    rewrite (setCommandMenu_known _ commandName menuType second
               (set_menu_flag menuType first <$> entryList))
      by (simpl; apply lookup_insert_eq).
    rewrite (setCommandMenu_known this commandName menuType second entryList Hget).
    simpl. unfold set_commands. simpl. do 3 f_equal.
    rewrite insert_insert_eq. f_equal.
    rewrite <- list_fmap_compose. apply list_fmap_ext. intros i entry _. simpl.
    apply set_menu_flag_twice.
  - rewrite (setCommandMenu_unknown this commandName menuType first Hget).
    reflexivity.
Qed.

(** X23: calls of [_setCommandMenu] that are about different commands, or
    about different menus of one command, can be made in either order. *)
Theorem setCommandMenu_calls_commute (this : ExtensionContextImpl)
    (commandName1 commandName2 : string) (menuType1 menuType2 : MenuType) (on1 on2 : bool) :
  commandName1 ≠ commandName2 ∨ menuType1 ≠ menuType2 →
  bind (_setCommandMenu commandName1 menuType1 on1)
    (λ _, _setCommandMenu commandName2 menuType2 on2) this
  = bind (_setCommandMenu commandName2 menuType2 on2)
      (λ _, _setCommandMenu commandName1 menuType1 on1) this.
Proof.
  intros Hdifferent. unfold bind.
  destruct (decide (commandName1 = commandName2)) as [<-|Hne].
  - destruct Hdifferent as [Hcontra|Hmenu]; [done|].
    destruct (_commandToMenuEntryMap (commands this) !! commandName1)
      as [entryList|] eqn:Hget.
    + rewrite (setCommandMenu_known this commandName1 menuType1 on1 entryList Hget).
      rewrite (setCommandMenu_known this commandName1 menuType2 on2 entryList Hget).
      rewrite (setCommandMenu_known _ commandName1 menuType2 on2
                 (set_menu_flag menuType1 on1 <$> entryList))
        by (simpl; apply lookup_insert_eq).
      rewrite (setCommandMenu_known _ commandName1 menuType1 on1
                 (set_menu_flag menuType2 on2 <$> entryList))
        by (simpl; apply lookup_insert_eq).
      simpl. unfold set_commands. simpl. do 3 f_equal.
      rewrite !insert_insert_eq. f_equal.
      rewrite <- !list_fmap_compose. apply list_fmap_ext. intros i entry _. simpl.
      by apply set_menu_flag_commute.
    + rewrite !(setCommandMenu_unknown this commandName1 _ _ Hget). reflexivity.
  - clear Hdifferent.
    destruct (_commandToMenuEntryMap (commands this) !! commandName1)
      as [entryList1|] eqn:Hget1;
      destruct (_commandToMenuEntryMap (commands this) !! commandName2)
        as [entryList2|] eqn:Hget2.
    + rewrite (setCommandMenu_known this commandName1 menuType1 on1 entryList1 Hget1).
      rewrite (setCommandMenu_known this commandName2 menuType2 on2 entryList2 Hget2).
      rewrite (setCommandMenu_known _ commandName2 menuType2 on2 entryList2)
        by (simpl; by rewrite lookup_insert_ne).
      rewrite (setCommandMenu_known _ commandName1 menuType1 on1 entryList1)
        by (simpl; by rewrite lookup_insert_ne).
      simpl. unfold set_commands. simpl. do 3 f_equal.
      by apply insert_insert_ne.
    + rewrite (setCommandMenu_known this commandName1 menuType1 on1 entryList1 Hget1).
      rewrite (setCommandMenu_unknown this commandName2 menuType2 on2 Hget2).
      rewrite (setCommandMenu_unknown _ commandName2 menuType2 on2)
        by (simpl; by rewrite lookup_insert_ne).
      cbv beta iota.
      by rewrite ?(setCommandMenu_known this commandName1 menuType1 on1 entryList1 Hget1).
    + rewrite (setCommandMenu_unknown this commandName1 menuType1 on1 Hget1).
      rewrite (setCommandMenu_known this commandName2 menuType2 on2 entryList2 Hget2).
      cbv beta iota.
      rewrite ?(setCommandMenu_known this commandName2 menuType2 on2 entryList2 Hget2).
      rewrite (setCommandMenu_unknown _ commandName1 menuType1 on1)
        by (simpl; by rewrite lookup_insert_ne).
      reflexivity.
    + rewrite (setCommandMenu_unknown this commandName1 menuType1 on1 Hget1).
      rewrite (setCommandMenu_unknown this commandName2 menuType2 on2 Hget2).
      cbv beta iota.
      by rewrite ?(setCommandMenu_unknown this commandName1 menuType1 on1 Hget1).
Qed.

End CommandMenuProperties.

Section TabTitleWidgetProperties.
Import ExtensionContext ContextStatements ContextStatementsMore.
Local Open Scope string_scope.
Local Open Scope list_scope.

Lemma filter_iff_on {A} (P1 P2 : A → Prop) `{!∀ x, Decision (P1 x)} `{!∀ x, Decision (P2 x)}
    (l : list A) :
  (∀ x, x ∈ l → P1 x ↔ P2 x) → filter P1 l = filter P2 l.
Proof.
  induction l as [|x l IH]; intros Hiff; [reflexivity|].
  assert (Hrest : filter P1 l = filter P2 l).
  { apply IH. intros y Hy. apply Hiff. by apply elem_of_cons; right. }
  assert (Hx : P1 x ↔ P2 x) by (apply Hiff; by apply elem_of_cons; left).
  destruct (decide (P1 x)) as [H1|H1].
  - rewrite !filter_cons_True by tauto. by rewrite Hrest.
  - rewrite !filter_cons_False by tauto. exact Hrest.
Qed.

(** X24: registering a factory and then creating the tab title widgets,
    with factories that return and leave the contributions and the factory
    map alone: after [_registerTabTitleWidget(name, factory)],
    [_createTabTitleWidgets] builds a container for every contribution of
    the metadata that has this name, besides those that had a factory
    before, in the order of the metadata, and calls the factories in that
    order.  A name that the metadata does not have adds nothing, and
    registering a name again does not add a second container. *)
Theorem registerTabTitleWidget_then_createTabTitleWidgets (code : ExtensionCode)
    (this : ExtensionContextImpl) (widgetName : string) (factory : TabTitleWidgetFactory)
    (terminal : EtTerminal) (rp : RenderProcess) (fuel : nat) :
  factories_return code (snd (_registerTabTitleWidget widgetName factory this)) →
  (length (contributes_tabTitleWidgets (_extensionMetadata this)) < fuel)%nat →
  ∃ this' result host',
    _registerTabTitleWidget widgetName factory this = (Normal tt, this')
    ∧ _createTabTitleWidgets code fuel terminal {| hostContext := this'; renderProcess := rp |}
      = Some (Normal result, host')
    ∧ _extensionCss <$> result = css <$> registered_widgets_with this widgetName
    ∧ call_widget <$> drop (length (factoryCalls rp)) (factoryCalls (renderProcess host'))
      = name <$> registered_widgets_with this widgetName
    ∧ registered_widgets_with this' widgetName = registered_widgets_with this widgetName.
Proof.
  intros Hcode Hfuel.
  assert (Hregistered : ∃ this',
            _registerTabTitleWidget widgetName factory this = (Normal tt, this')
            ∧ _extensionMetadata this' = _extensionMetadata this
            ∧ ∀ contrib,
                contrib ∈ contributes_tabTitleWidgets (_extensionMetadata this) →
                (is_Some (tabTitleWidgetFactoryMap this' !! name contrib)
                 ↔ name contrib = widgetName
                   ∨ is_Some (tabTitleWidgetFactoryMap this !! name contrib))).
  { unfold _registerTabTitleWidget, bind, gets. simpl.
    destruct (decide (widgetName
                      ∈ name <$> contributes_tabTitleWidgets (_extensionMetadata this)))
      as [Hin|Hout].
    - rewrite registerTabTitleWidget_loop_known by done.
      eexists. split; [reflexivity|]. split; [reflexivity|].
      intros contrib _. simpl.
      destruct (decide (name contrib = widgetName)) as [->|Hne].
      + rewrite lookup_insert_eq. split; [by left|by eexists].
      + rewrite lookup_insert_ne by done. split; [by right|by intros [?|?]].
    - rewrite registerTabTitleWidget_loop_unknown by done.
      eexists. split; [reflexivity|]. split; [reflexivity|].
      intros contrib Hcontrib. simpl. split; [by right|].
      intros [Hname|Hsome]; [|done].
      exfalso. apply Hout. rewrite <- Hname. by apply list_elem_of_fmap_2. }
  destruct Hregistered as (this' & Hrun & Hmeta & Hfactories).
  rewrite Hrun in Hcode. simpl in Hcode.
  assert (Hwidgets : registered_widgets this' = registered_widgets_with this widgetName).
  { unfold registered_widgets, registered_widgets_with. rewrite Hmeta.
    apply filter_iff_on. intros contrib Hcontrib. by apply Hfactories. }
  assert (Hagain : registered_widgets_with this' widgetName
                   = registered_widgets_with this widgetName).
  { unfold registered_widgets_with. rewrite Hmeta.
    apply filter_iff_on. intros contrib Hcontrib.
    rewrite (Hfactories contrib Hcontrib). tauto. }
  destruct (createTabTitleWidgets_loop_result code this' terminal Hcode fuel 0 []
              {| hostContext := this'; renderProcess := rp |})
    as (new & calls & host' & Hloop & _ & Hcss & _ & _ & _ & Hcalls & Hnames & _).
  { apply same_widgets_refl. }
  { rewrite Hmeta. simpl. lia. }
  rewrite drop_0 in Hcss, Hnames. fold (registered_widgets this') in Hcss, Hnames.
  rewrite Hwidgets in Hcss, Hnames. simpl in Hloop, Hcalls.
  exists this', new, host'. split; [exact Hrun|]. split; [exact Hloop|].
  split; [exact Hcss|].
  split; [by rewrite Hcalls, drop_app_length|exact Hagain].
Qed.

End TabTitleWidgetProperties.

Section TabTitleWidgetWitnesses.
Import ExtensionContext ContextStatements ContextStatementsMore.
Local Open Scope string_scope.
Local Open Scope list_scope.

(** No factory at first; one is registered for the first contribution, and
    the list has the container of that contribution. *)
Lemma registerTabTitleWidget_then_createTabTitleWidgets_witness :
  factories_return building_code
    (snd (_registerTabTitleWidget "a" 0 (context_of [] [widget_a; widget_b] ∅)))
  ∧ (length (contributes_tabTitleWidgets
               (_extensionMetadata (context_of [] [widget_a; widget_b] ∅))) < 3)%nat
  ∧ ∃ this' result host',
      _registerTabTitleWidget "a" 0 (context_of [] [widget_a; widget_b] ∅)
      = (Normal tt, this')
      ∧ _createTabTitleWidgets building_code 3 7
          {| hostContext := this'; renderProcess := empty_document |}
        = Some (Normal result, host')
      ∧ _extensionCss <$> result
        = css <$> registered_widgets_with (context_of [] [widget_a; widget_b] ∅) "a"
      ∧ call_widget <$> drop (length (factoryCalls empty_document))
                          (factoryCalls (renderProcess host'))
        = name <$> registered_widgets_with (context_of [] [widget_a; widget_b] ∅) "a"
      ∧ registered_widgets_with this' "a"
        = registered_widgets_with (context_of [] [widget_a; widget_b] ∅) "a".
Proof.
  split; [apply building_code_returns|].
  split; [simpl; lia|].
  apply (registerTabTitleWidget_then_createTabTitleWidgets building_code
           (context_of [] [widget_a; widget_b] ∅) "a" 0 7 empty_document 3).
  - apply building_code_returns.
  - simpl. lia.
Defined.

End TabTitleWidgetWitnesses.

Section DisposerProperties.
Import ExtensionContext ContextStatements.
Local Open Scope string_scope.
Local Open Scope list_scope.

Lemma splice_at {A} (before after : list A) (x : A) :
  splice (before ++ x :: after) (Z.of_nat (length before)) 1 = before ++ after.
Proof.
  unfold splice. rewrite length_app. simpl.
  assert (Hlt : (Z.of_nat (length before) <? 0)%Z = false) by (apply Z.ltb_ge; lia).
  rewrite Hlt.
  replace (Z.min (Z.of_nat (length before)) (Z.of_nat (length before + S (length after))))
    with (Z.of_nat (length before)) by lia.
  replace (Z.min (Z.max 1 0)
             (Z.of_nat (length before + S (length after)) - Z.of_nat (length before)))
    with 1%Z by lia.
  replace (Z.to_nat (Z.of_nat (length before) + 1)) with (length before + 1) by lia.
  rewrite Nat2Z.id, take_app_length. f_equal.
  rewrite drop_app_ge by lia.
  replace (length before + 1 - length before) with 1 by lia. reflexivity.
Qed.

Lemma splice_minus_one {A} (l : list A) : splice l (-1) 1 = removelast l.
Proof.
  destruct l as [|x l _] using rev_ind; [reflexivity|].
  rewrite removelast_last. unfold splice. rewrite length_app. simpl.
  replace (Z.max (Z.of_nat (length l + 1) + -1) 0) with (Z.of_nat (length l)) by lia.
  replace (Z.min (Z.max 1 0) (Z.of_nat (length l + 1) - Z.of_nat (length l)))
    with 1%Z by lia.
  replace (Z.to_nat (Z.of_nat (length l) + 1)) with (length l + 1) by lia.
  rewrite Nat2Z.id, take_app_length.
  rewrite drop_ge; [by rewrite app_nil_r|]. rewrite length_app. simpl. lia.
Qed.

Lemma first_occurrence {A} (same : A → A → bool) (l : list A) (x : A) :
  Forall (λ y, same y x = false) l
  ∨ ∃ before found after,
      l = before ++ found :: after
      ∧ same found x = true
      ∧ Forall (λ y, same y x = false) before.
Proof.
  induction l as [|y l IH]; [left; constructor|].
  destruct (same y x) eqn:Hy.
  - right. exists [], y, l. repeat split; [done|constructor].
  - destruct IH as [Habsent|(before & found & after & -> & Hfound & Hbefore)].
    + left. by constructor.
    + right. exists (y :: before), found, after. repeat split; [done|by constructor].
Qed.

(** X25: the last two statements of the disposer remove exactly one element
    of the metadata's command list and touch nothing else: the first
    occurrence of the contribution object when it is in the list, and, since
    [indexOf] is then -1, the last element of the list when it is not (as on
    a second call of [dispose]). *)
Theorem splice_contribution_removes_one (this : ExtensionContextImpl)
    (contribution : ExtensionCommandContribution) :
  ∃ commands',
    splice_contribution contribution this
    = (Normal tt, set_contributes_commands commands' this)
    ∧ ((∃ before found after,
          contributes_commands (_extensionMetadata this) = before ++ found :: after
          ∧ same_contribution found contribution = true
          ∧ Forall (λ other, same_contribution other contribution = false) before
          ∧ commands' = before ++ after)
       ∨ (Forall (λ other, same_contribution other contribution = false)
            (contributes_commands (_extensionMetadata this))
          ∧ commands' = removelast (contributes_commands (_extensionMetadata this)))).
Proof.
  unfold splice_contribution, bind, gets, modify.
  eexists. split; [reflexivity|].
  destruct (first_occurrence same_contribution
              (contributes_commands (_extensionMetadata this)) contribution)
    as [Habsent|(before & found & after & Hlist & Hfound & Hbefore)].
  - right. split; [done|].
    unfold indexOf. rewrite indexOf_from_absent by done. apply splice_minus_one.
  - left. exists before, found, after. rewrite Hlist.
    split; [done|]. split; [done|]. split; [done|].
    unfold indexOf. rewrite indexOf_from_app_absent by done. simpl. rewrite Hfound.
    apply splice_at.
Qed.

End DisposerProperties.

Section KeybindingsSettingsProperties.
Import MainWeb KeybindingsSettings.
Local Open Scope string_scope.
Local Open Scope list_scope.

(** What the loop leaves under [category] when it started from
    [commandsByCategory] and went through [allCommands]. *)
Lemma buildCommandsByCategory_loop_result
    (allCommands : list ExtensionContext.ExtensionCommandContribution)
    (commandsByCategory : gmap string (list ExtensionContext.ExtensionCommandContribution)) :
  (∀ category, category ∈ Object_prototype_properties → commandsByCategory !! category = None) →
  match _buildCommandsByCategory_loop allCommands commandsByCategory with
  | Normal result =>
      Forall (λ contrib, ExtensionContext.category contrib ∉ Object_prototype_properties)
        allCommands
      ∧ ∀ category,
          result !! category
          = match commandsByCategory !! category,
                  filter (λ contrib, ExtensionContext.category contrib = category) allCommands
            with
            | None, [] => None
            | before, added => Some (default [] before ++ added)
            end
  | Throw e =>
      e = NOT_A_FUNCTION
      ∧ Exists (λ contrib, ExtensionContext.category contrib ∈ Object_prototype_properties)
          allCommands
  | Suspended => False
  end.
Proof.
  revert commandsByCategory.
  induction allCommands as [|contrib rest IH]; intros commandsByCategory Hown; simpl.
  - split; [constructor|]. intros category.
    destruct (commandsByCategory !! category); simpl; [by rewrite app_nil_r|done].
  - destruct (commandsByCategory !! ExtensionContext.category contrib) as [commands|] eqn:Hget.
    + assert (Hnot : ExtensionContext.category contrib ∉ Object_prototype_properties).
      { intros Hin. by rewrite (Hown _ Hin) in Hget. }
      specialize (IH (<[ExtensionContext.category contrib := commands ++ [contrib]]>
                        commandsByCategory)).
      destruct (_buildCommandsByCategory_loop rest _) as [result|e|].
      * destruct IH as [Hrest Hresult].
        { intros category Hin. rewrite lookup_insert_ne; [by apply Hown|]. by intros <-. }
        split; [by constructor|]. intros category. rewrite Hresult.
        destruct (decide (ExtensionContext.category contrib = category)) as [<-|Hne].
        -- rewrite lookup_insert_eq, Hget, filter_cons_True by done. simpl.
           rewrite <- app_assoc. simpl.
           by destruct (filter _ rest).
        -- rewrite lookup_insert_ne, filter_cons_False by done. reflexivity.
      * destruct IH as [-> Hrest].
        { intros category Hin. rewrite lookup_insert_ne; [by apply Hown|]. by intros <-. }
        split; [done|]. by apply Exists_cons_tl.
      * apply IH. intros category Hin. rewrite lookup_insert_ne; [by apply Hown|].
        by intros <-.
    + case_bool_decide as Hinherited.
      * split; [done|]. by apply Exists_cons_hd.
      * rewrite insert_insert_eq. simpl.
        specialize (IH (<[ExtensionContext.category contrib := [contrib]]>
                          commandsByCategory)).
        destruct (_buildCommandsByCategory_loop rest _) as [result|e|].
        -- destruct IH as [Hrest Hresult].
           { intros category Hin. rewrite lookup_insert_ne; [by apply Hown|]. by intros <-. }
           split; [by constructor|]. intros category. rewrite Hresult.
           destruct (decide (ExtensionContext.category contrib = category)) as [<-|Hne].
           ++ rewrite lookup_insert_eq, Hget, filter_cons_True by done. simpl.
              by destruct (filter _ rest).
           ++ rewrite lookup_insert_ne, filter_cons_False by done. reflexivity.
        -- destruct IH as [-> Hrest].
           { intros category Hin. rewrite lookup_insert_ne; [by apply Hown|]. by intros <-. }
           split; [done|]. by apply Exists_cons_tl.
        -- apply IH. intros category Hin. rewrite lookup_insert_ne; [by apply Hown|].
           by intros <-.
Qed.

Context {M : Type} `{ExtensionManager M}.

(** X26: [_buildCommandsByCategory] groups the commands that the extension
    manager returns by their category: under each category that occurs, the
    commands of that category in the order in which they were returned, and
    no other property.  It throws only when a category has the name of a
    property that every object inherits, such as "constructor". *)
Theorem buildCommandsByCategory_groups (extensionManager : M) :
  let allCommands :=
    queryCommands {| commands := None; categories := None; when := false |}
      extensionManager in
  match _buildCommandsByCategory extensionManager with
  | Normal commandsByCategory =>
      Forall (λ contrib, ExtensionContext.category contrib ∉ Object_prototype_properties)
        allCommands
      ∧ ∀ category,
          commandsByCategory !! category
          = match filter (λ contrib, ExtensionContext.category contrib = category)
                    allCommands with
            | [] => None
            | commands => Some commands
            end
  | Throw e =>
      e = NOT_A_FUNCTION
      ∧ Exists (λ contrib, ExtensionContext.category contrib ∈ Object_prototype_properties)
          allCommands
  | Suspended => False
  end.
Proof.
  intros allCommands. unfold _buildCommandsByCategory. cbv zeta. fold allCommands.
  pose proof (buildCommandsByCategory_loop_result allCommands ∅ (λ category _, lookup_empty category))
    as Hloop.
  destruct (_buildCommandsByCategory_loop allCommands ∅) as [result|e|]; [|done|done].
  destruct Hloop as [Hall Hresult]. split; [done|].
  intros category. rewrite Hresult, lookup_empty.
  by destruct (filter _ allCommands).
Qed.

End KeybindingsSettingsProperties.

Section CommandMenuWitnesses.
Import ExtensionContext ContextStatements.
Local Open Scope string_scope.
Local Open Scope list_scope.

Lemma setCommandMenu_calls_commute_witness :
  bind (_setCommandMenu "ext:a" ContextMenu true)
    (λ _, _setCommandMenu "ext:a" CommandPalette true)
    (context_of [contribution_a; contribution_b] [] ∅)
  = bind (_setCommandMenu "ext:a" CommandPalette true)
      (λ _, _setCommandMenu "ext:a" ContextMenu true)
      (context_of [contribution_a; contribution_b] [] ∅).
Proof.
  apply (setCommandMenu_calls_commute (context_of [contribution_a; contribution_b] [] ∅)
           "ext:a" "ext:a" ContextMenu CommandPalette true true).
  right. discriminate.
Defined.

End CommandMenuWitnesses.

